(** * Fee bumper (wallet/feebumper.cpp): a shallow embedding and its properties

    The replacement engine of the wallet is embedded function by function.
    Out-parameters and the [errors] vector are threaded explicitly; the
    services the engine consumes (chain view, coin selection, fee estimation,
    ownership tests) are fields of the [Chain] and [CWallet] records or of the
    [Policy] interface, so that every definition below can be run on concrete
    wallets.

    Amounts ([CAmount], a signed 64-bit integer in the source) are modelled as
    [Z]; the source relies on amounts staying inside the money range, where
    no 64-bit overflow occurs. *)

From Stdlib Require Import ZArith List String Bool Lia DecimalString HexString.
From stdpp Require Import base option gmap strings list.

Local Open Scope Z_scope.

(** ** Primitive data *)

Abbreviation uint256 := N (only parsing).
Abbreviation CAmount := Z (only parsing).
Abbreviation CScript := (list Byte.byte) (only parsing).
Abbreviation bilingual_str := string (only parsing).

#[global] Instance byte_eq_dec : EqDecision Byte.byte.
Proof.
  intros x y. destruct (Byte.eqb x y) eqn:E.
  - left. by apply Byte.byte_dec_bl.
  - right. by apply Byte.eqb_false.
Defined.

Record COutPoint := mkOutPoint { op_hash : uint256; op_n : N }.

#[global] Instance COutPoint_eq_dec : EqDecision COutPoint.
Proof. solve_decision. Defined.

#[global] Instance COutPoint_countable : Countable COutPoint.
Proof.
  apply (inj_countable' (fun o => (op_hash o, op_n o))
                        (fun p => mkOutPoint (fst p) (snd p))).
  by intros [].
Defined.

Record CTxOut := mkTxOut { nValue : CAmount; scriptPubKey : CScript }.

(** [CTxOut::SetNull] / [CTxOut::IsNull]: the null output has value -1. *)
Definition CTxOut_null : CTxOut := mkTxOut (-1) [].
Definition CTxOut_IsNull (o : CTxOut) : bool := nValue o =? -1.

(** [poutput->SetValue(v)] on a standard output. *)
Definition SetValue (o : CTxOut) (v : CAmount) : CTxOut :=
  mkTxOut v (scriptPubKey o).

Record Coin := mkCoin { coin_out : CTxOut }.
Definition Coin_empty : Coin := mkCoin CTxOut_null.

Record CTxIn := mkTxIn {
  prevout : COutPoint;
  nSequence : Z;
  scriptSig : CScript;
  scriptWitness : list CScript
}.

(** A transaction; [vpout] is the output vector of Particl transactions,
    [vout] the one of plain transactions.  [CMutableTransaction] has the same
    fields, so one record serves for both. *)
Record CTransaction := mkTx {
  vin : list CTxIn;
  vout : list CTxOut;
  vpout : list CTxOut
}.
Abbreviation CMutableTransaction := CTransaction (only parsing).

Definition GetNumVOuts (t : CTransaction) : nat := length (vpout t).

Record CWalletTx := mkWalletTx {
  tx : CTransaction;
  mapValue : gmap string string;
  vOrderForm : list (string * string)
}.

(** The second record representation of the Particl wallet ([mapRecords]);
    the engine never looks inside it. *)
Record CTransactionRecord := mkRecord { rec_nFee : CAmount }.

Inductive CTxDestination :=
| CNoDestination
| Destination (payload : CScript).

Record CRecipient := mkRecipient {
  rcp_scriptPubKey : CScript;
  rcp_nAmount : CAmount;
  fSubtractFeeFromAmount : bool
}.

(** ** Fee rates *)

Record CFeeRate := mkFeeRate { GetFeePerK : CAmount }.

Definition CFeeRate_lt (a b : CFeeRate) : bool := GetFeePerK a <? GetFeePerK b.
Definition CFeeRate_gt (a b : CFeeRate) : bool := GetFeePerK b <? GetFeePerK a.

(** [a += b] *)
Definition CFeeRate_add (a b : CFeeRate) : CFeeRate :=
  mkFeeRate (GetFeePerK a + GetFeePerK b).

(** [std::max(a, b)]: returns [b] exactly when [a < b]. *)
Definition CFeeRate_max (a b : CFeeRate) : CFeeRate :=
  if CFeeRate_lt a b then b else a.

(** ** Results *)

Module feebumper.

Inductive Result :=
| OK
| INVALID_ADDRESS_OR_KEY
| INVALID_PARAMETER
| WALLET_ERROR
| MISC_ERROR.

#[global] Instance Result_eq_dec : EqDecision Result.
Proof. solve_decision. Defined.

End feebumper.
Import feebumper.

(** A call either returns or stops at a failed [assert] (or an uncaught
    [std::out_of_range]). *)
Inductive Outcome (A : Type) :=
| Returns (a : A)
| Aborts.
Arguments Returns {A} a.
Arguments Aborts {A}.

(** ** Coin control *)

Record CCoinControl := mkCoinControl {
  m_selected_inputs : gset COutPoint;
  m_external_txouts : gmap COutPoint CTxOut;
  m_input_weights : gmap COutPoint Z;
  m_feerate : option CFeeRate;
  destChange : CTxDestination;
  m_allow_other_inputs : bool;
  m_min_depth : Z;
  m_signal_bip125_rbf : option bool
}.

(** Modelled from the spec: the members of [CCoinControl]
    (wallet/coincontrol.h is not among the sources): the request carries
    explicitly selected inputs and externally-selected inputs with a signing
    weight override. *)
Definition Select (cc : CCoinControl) (o : COutPoint) : CCoinControl :=
  mkCoinControl ({[o]} ∪ m_selected_inputs cc) (m_external_txouts cc)
    (m_input_weights cc) (m_feerate cc) (destChange cc)
    (m_allow_other_inputs cc) (m_min_depth cc) (m_signal_bip125_rbf cc).

Definition SelectExternal (cc : CCoinControl) (o : COutPoint) (txout : CTxOut)
  : CCoinControl :=
  mkCoinControl ({[o]} ∪ m_selected_inputs cc) (<[o := txout]> (m_external_txouts cc))
    (m_input_weights cc) (m_feerate cc) (destChange cc)
    (m_allow_other_inputs cc) (m_min_depth cc) (m_signal_bip125_rbf cc).

Definition IsSelected (cc : CCoinControl) (o : COutPoint) : bool :=
  bool_decide (o ∈ m_selected_inputs cc).

Definition IsExternalSelected (cc : CCoinControl) (o : COutPoint) : bool :=
  bool_decide (is_Some (m_external_txouts cc !! o)).

Definition SetInputWeight (cc : CCoinControl) (o : COutPoint) (weight : Z)
  : CCoinControl :=
  mkCoinControl (m_selected_inputs cc) (m_external_txouts cc)
    (<[o := weight]> (m_input_weights cc)) (m_feerate cc) (destChange cc)
    (m_allow_other_inputs cc) (m_min_depth cc) (m_signal_bip125_rbf cc).

Definition set_destChange (cc : CCoinControl) (d : CTxDestination) : CCoinControl :=
  mkCoinControl (m_selected_inputs cc) (m_external_txouts cc)
    (m_input_weights cc) (m_feerate cc) d
    (m_allow_other_inputs cc) (m_min_depth cc) (m_signal_bip125_rbf cc).

Definition set_feerate (cc : CCoinControl) (r : option CFeeRate) : CCoinControl :=
  mkCoinControl (m_selected_inputs cc) (m_external_txouts cc)
    (m_input_weights cc) r (destChange cc)
    (m_allow_other_inputs cc) (m_min_depth cc) (m_signal_bip125_rbf cc).

Definition set_allow_other_inputs (cc : CCoinControl) (b : bool) : CCoinControl :=
  mkCoinControl (m_selected_inputs cc) (m_external_txouts cc)
    (m_input_weights cc) (m_feerate cc) (destChange cc)
    b (m_min_depth cc) (m_signal_bip125_rbf cc).

Definition set_min_depth (cc : CCoinControl) (d : Z) : CCoinControl :=
  mkCoinControl (m_selected_inputs cc) (m_external_txouts cc)
    (m_input_weights cc) (m_feerate cc) (destChange cc)
    (m_allow_other_inputs cc) d (m_signal_bip125_rbf cc).

(** ** Services consumed by the engine *)

(** Free functions and constants of the node that the engine calls and whose
    definitions live outside wallet/feebumper.cpp. *)
Class Policy := {
  (** the global [fParticlMode] *)
  fParticlMode : bool;
  (** [CFeeRate(nFeePaid, num_bytes)] *)
  CFeeRate_of : CAmount -> Z -> CFeeRate;
  (** [rate.GetFee(num_bytes)] *)
  GetFee : CFeeRate -> Z -> CAmount;
  WALLET_INCREMENTAL_RELAY_FEE : CAmount;
  GetVirtualTransactionSize : CTransaction -> Z;
  SignalsOptInRBF : CTransaction -> bool;
  GetHash : CTransaction -> uint256;
  (** [tx.GetValueOut()] *)
  GetValueOut : CTransaction -> CAmount;
  GetDustThreshold : CTxOut -> CFeeRate -> CAmount;
  ExtractDestination : CScript -> CTxDestination;
  GetTransactionInputWeight : CTxIn -> Z;
  (** [weights.GetWeightDiffToMax()] after [VerifyScript] of input [i] of the
      transaction against the coin it spends *)
  WeightDiffToMax : CTransaction -> nat -> Coin -> Z;
  FormatMoney : CAmount -> string;
  uint256_ToString : uint256 -> string;
  uint_ToString : N -> string
}.

(** [interfaces::Chain] *)
Record Chain := mkChain {
  hasDescendantsInMempool : uint256 -> bool;
  mempoolMinFee : CFeeRate;
  relayIncrementalFee : CFeeRate;
  (** the unspent coin at an outpoint, if the node finds one *)
  findCoin : COutPoint -> option Coin
}.

(** Modelled from the spec: [interfaces::Chain::findCoins] (the node side is
    not among the sources): looks up the requested previous outputs; the
    entry of an outpoint that cannot be located (spent or unknown) is the
    empty coin. *)
Definition findCoins (c : Chain) (coins : gmap COutPoint Coin) : gmap COutPoint Coin :=
  map_imap (fun o _ => Some (default Coin_empty (findCoin c o))) coins.

Abbreviation isminefilter := Z (only parsing).
Definition ISMINE_NO : Z := 0.
Definition ISMINE_WATCH_ONLY : Z := 1.
Definition ISMINE_SPENDABLE : Z := 2.

Record CreatedTransactionResult := mkCreated {
  txr_tx : CTransaction;
  txr_fee : CAmount
}.

Record CWallet := mkWallet {
  chain : Chain;
  (** [IsParticlWallet(&wallet)]: the object is a [CHDWallet] *)
  IsParticlWallet : bool;
  mapWallet : gmap uint256 CWalletTx;
  mapRecords : gmap uint256 CTransactionRecord;
  HasWalletSpend : CTransaction -> bool;
  HasWalletSpend_record : uint256 -> CTransactionRecord -> bool;
  GetTxDepthInMainChain : CWalletTx -> Z;
  GetDepthInMainChain_record : CTransactionRecord -> Z;
  (** [wallet.GetLegacyScriptPubKeyMan() != nullptr] *)
  GetLegacyScriptPubKeyMan : bool;
  (** [wallet.IsWalletFlagSet(WALLET_FLAG_DISABLE_PRIVATE_KEYS)] *)
  flag_disable_private_keys : bool;
  (** ownership bits of the output an outpoint refers to; [ISMINE_NO] when
      the wallet does not know it *)
  IsMine : COutPoint -> Z;
  m_default_max_tx_fee : CAmount;
  m_signal_rbf : bool;
  GetRequiredFee : Z -> CAmount;
  GetMinimumFeeRate : CCoinControl -> CFeeRate;
  GetMinimumFee : Z -> CCoinControl -> CAmount;
  GetDiscardRate : CFeeRate;
  IsChange : CTxOut -> bool;
  OutputIsChange : CTxOut -> bool;
  CachedTxGetDebit : CWalletTx -> isminefilter -> CAmount;
  (** [CalculateMaximumSignedTxSize(tx, wallet)] and, with a coin control,
      the [vsize] of [CalculateMaximumSignedTxSize(tx, wallet, coin_control)] *)
  CalculateMaximumSignedTxSize : CTransaction -> option CCoinControl -> Z;
  CreateTransaction :
    list CRecipient -> Z -> CCoinControl -> bool -> CreatedTransactionResult + string;
  (** whether the wallet database accepts the write of a record *)
  WriteTx : CWalletTx -> bool
}.

(** Modelled from the spec: [AllInputsMine] (wallet/receive.cpp is not among
    the sources): every input's previous output is recognized as owned by the
    wallet under the filter. *)
Definition AllInputsMine (w : CWallet) (t : CTransaction) (filter : isminefilter) : bool :=
  forallb (fun txin => negb (Z.land (IsMine w (prevout txin)) filter =? 0)) (vin t).

(** [wallet.IsMine(outpoint)] used as a condition. *)
Definition IsMine_outpoint (w : CWallet) (o : COutPoint) : bool :=
  negb (IsMine w o =? ISMINE_NO).

Section Engine.
Context `{Policy}.

(** [wtx.GetHash()] *)
Definition wtx_GetHash (wtx : CWalletTx) : uint256 := GetHash (tx wtx).

(** ** PreconditionChecks *)

(** The ownership filter chosen at the [require_mine] test. *)
Definition ownership_filter (w : CWallet) : isminefilter :=
  if GetLegacyScriptPubKeyMan w && flag_disable_private_keys w
  then ISMINE_WATCH_ONLY else ISMINE_SPENDABLE.

Definition PreconditionChecks (w : CWallet) (wtx : CWalletTx) (require_mine : bool)
    (errors : list bilingual_str) : Result * list bilingual_str :=
  if HasWalletSpend w (tx wtx) then
    (INVALID_PARAMETER, errors ++ ["Transaction has descendants in the wallet"%string])
  else if hasDescendantsInMempool (chain w) (wtx_GetHash wtx) then
    (INVALID_PARAMETER, errors ++ ["Transaction has descendants in the mempool"%string])
  else if negb (GetTxDepthInMainChain w wtx =? 0) then
    (WALLET_ERROR,
     errors ++ ["Transaction has been mined, or is conflicted with a mined transaction"%string])
  else if negb (SignalsOptInRBF (tx wtx)) then
    (WALLET_ERROR, errors ++ ["Transaction is not BIP 125 replaceable"%string])
  else
    match mapValue wtx !! "replaced_by_txid"%string with
    | Some by_txid =>
        (WALLET_ERROR,
         errors ++ [("Cannot bump transaction " +:+ uint256_ToString (wtx_GetHash wtx)
                     +:+ " which was already bumped by transaction " +:+ by_txid)%string])
    | None =>
        if require_mine && negb (AllInputsMine w (tx wtx) (ownership_filter w)) then
          (WALLET_ERROR,
           errors ++ ["Transaction contains inputs that don't belong to this wallet"%string])
        else (OK, errors)
    end.

(** The overload for [CTransactionRecord]. *)
Definition PreconditionChecks_record (pw : CWallet) (hash : uint256)
    (rtx : CTransactionRecord) (errors : list bilingual_str)
  : Result * list bilingual_str :=
  if HasWalletSpend_record pw hash rtx then
    (INVALID_PARAMETER, errors ++ ["Transaction has descendants in the wallet"%string])
  else if hasDescendantsInMempool (chain pw) hash then
    (INVALID_PARAMETER, errors ++ ["Transaction has descendants in the mempool"%string])
  else if negb (GetDepthInMainChain_record pw rtx =? 0) then
    (WALLET_ERROR,
     errors ++ ["Transaction has been mined, or is conflicted with a mined transaction"%string])
  else
    (WALLET_ERROR, errors ++ ["TODO: mapRecord txn"%string]).

(** ** CheckFeeRate *)

Definition incrementalRelayFee (w : CWallet) : CFeeRate :=
  CFeeRate_max (relayIncrementalFee (chain w)) (mkFeeRate WALLET_INCREMENTAL_RELAY_FEE).

Definition CheckFeeRate (w : CWallet) (wtx : CWalletTx) (newFeerate : CFeeRate)
    (maxTxSize : Z) (old_fee : CAmount) (errors : list bilingual_str)
  : Result * list bilingual_str :=
  let minMempoolFeeRate := mempoolMinFee (chain w) in
  if GetFeePerK newFeerate <? GetFeePerK minMempoolFeeRate then
    (WALLET_ERROR,
     errors ++ [("New fee rate (" +:+ FormatMoney (GetFeePerK newFeerate)
                 +:+ ") is lower than the minimum fee rate ("
                 +:+ FormatMoney (GetFeePerK minMempoolFeeRate)
                 +:+ ") to get into the mempool -- ")%string])
  else
    let new_total_fee := GetFee newFeerate maxTxSize in
    let incr := incrementalRelayFee w in
    let txSize := GetVirtualTransactionSize (tx wtx) in
    let nOldFeeRate := CFeeRate_of old_fee txSize in
    let minTotalFee := GetFee nOldFeeRate maxTxSize + GetFee incr maxTxSize in
    if new_total_fee <? minTotalFee then
      (INVALID_PARAMETER,
       errors ++ [("Insufficient total fee " +:+ FormatMoney new_total_fee
                   +:+ ", must be at least " +:+ FormatMoney minTotalFee
                   +:+ " (oldFee " +:+ FormatMoney (GetFee nOldFeeRate maxTxSize)
                   +:+ " + incrementalFee " +:+ FormatMoney (GetFee incr maxTxSize)
                   +:+ ")")%string])
    else
      let requiredFee := GetRequiredFee w maxTxSize in
      if new_total_fee <? requiredFee then
        (INVALID_PARAMETER,
         errors ++ [("Insufficient total fee (cannot be less than required fee "
                     +:+ FormatMoney requiredFee +:+ ")")%string])
      else
        let max_tx_fee := m_default_max_tx_fee w in
        if max_tx_fee <? new_total_fee then
          (WALLET_ERROR,
           errors ++ [("Specified or calculated fee " +:+ FormatMoney new_total_fee
                       +:+ " is too high (cannot be higher than -maxtxfee "
                       +:+ FormatMoney max_tx_fee +:+ ")")%string])
        else (OK, errors).

(** ** EstimateFeeRate *)

Definition EstimateFeeRate (w : CWallet) (wtx : CWalletTx) (old_fee : CAmount)
    (coin_control : CCoinControl) : CFeeRate :=
  let txSize := GetVirtualTransactionSize (tx wtx) in
  let feerate := CFeeRate_of old_fee txSize in
  let feerate := CFeeRate_add feerate (mkFeeRate 1) in
  let node_incremental_relay_fee := relayIncrementalFee (chain w) in
  let wallet_incremental_relay_fee := mkFeeRate WALLET_INCREMENTAL_RELAY_FEE in
  let feerate :=
    CFeeRate_add feerate
      (CFeeRate_max node_incremental_relay_fee wallet_incremental_relay_fee) in
  let min_feerate := GetMinimumFeeRate w coin_control in
  CFeeRate_max feerate min_feerate.

(** ** TransactionCanBeBumped *)

(** [GetParticlWallet(&wallet)]: the wallet seen as a [CHDWallet], or null. *)
Definition GetParticlWallet (w : CWallet) : option CWallet :=
  if IsParticlWallet w then Some w else None.

Definition TransactionCanBeBumped (wallet : CWallet) (txid : uint256) : bool :=
  if fParticlMode then
    match GetParticlWallet wallet with
    | None => false
    | Some pw =>
        match mapWallet pw !! txid with
        | Some wtx =>
            bool_decide (fst (PreconditionChecks wallet wtx true []) = OK)
        | None =>
            match mapRecords pw !! txid with
            | Some rtx =>
                bool_decide (fst (PreconditionChecks_record pw txid rtx []) = OK)
            | None => false
            end
        end
    end
  else
    match mapWallet wallet !! txid with
    | None => false
    | Some wtx => bool_decide (fst (PreconditionChecks wallet wtx true []) = OK)
    end.

(** ** CreateTotalBumpTransaction *)

(** The reference parameters shared by the two builders. *)
Record BumpArgs := mkBump {
  errors : list bilingual_str;
  old_fee : CAmount;
  new_fee : CAmount;
  mtx : CMutableTransaction
}.

(** The loop that looks for the change output: [i] is the loop counter and
    [nOutput] the index found so far (-1 for none).  [None] is the early
    return on a second change output. *)
Fixpoint find_change_output (w : CWallet) (outs : list CTxOut) (i nOutput : Z)
  : option Z :=
  match outs with
  | [] => Some nOutput
  | o :: rest =>
      if IsChange w o then
        if negb (nOutput =? -1) then None
        else find_change_output w rest (i + 1) i
      else find_change_output w rest (i + 1) nOutput
  end.

(** [walletIncrementalRelayFee] after lines 275-279. *)
Definition total_bump_increment (w : CWallet) : CFeeRate :=
  let nodeIncrementalRelayFee := relayIncrementalFee (chain w) in
  let walletIncrementalRelayFee := mkFeeRate WALLET_INCREMENTAL_RELAY_FEE in
  if CFeeRate_gt nodeIncrementalRelayFee walletIncrementalRelayFee
  then nodeIncrementalRelayFee else walletIncrementalRelayFee.

(** [old_fee] as computed at line 269. *)
Definition total_bump_old_fee (w : CWallet) (wtx : CWalletTx) : CAmount :=
  CachedTxGetDebit w wtx ISMINE_SPENDABLE - GetValueOut (tx wtx).

(** [new_fee] and [nNewFeeRate] after lines 281-292. *)
Definition total_bump_pricing (w : CWallet) (wtx : CWalletTx)
    (coin_control : CCoinControl) (maxNewTxSize : Z) : CAmount * CFeeRate :=
  let txSize := GetVirtualTransactionSize (tx wtx) in
  let nOldFeeRate := CFeeRate_of (total_bump_old_fee w wtx) txSize in
  let incr := total_bump_increment w in
  let new_fee := GetMinimumFee w maxNewTxSize coin_control in
  let nNewFeeRate := CFeeRate_of new_fee maxNewTxSize in
  if GetFeePerK nNewFeeRate <? GetFeePerK nOldFeeRate + 1 + GetFeePerK incr then
    let nNewFeeRate := mkFeeRate (GetFeePerK nOldFeeRate + 1 + GetFeePerK incr) in
    (GetFee nNewFeeRate maxNewTxSize, nNewFeeRate)
  else (new_fee, nNewFeeRate).

(** Lines 338-343: raise every replaceable sequence number. *)
Definition mark_not_replaceable (ins : list CTxIn) : list CTxIn :=
  map (fun input =>
         if nSequence input <? 0xfffffffe
         then mkTxIn (prevout input) 0xfffffffe (scriptSig input) (scriptWitness input)
         else input) ins.

Definition with_vin (t : CTransaction) (ins : list CTxIn) : CTransaction :=
  mkTx ins (vout t) (vpout t).
Definition with_vpout (t : CTransaction) (outs : list CTxOut) : CTransaction :=
  mkTx (vin t) (vout t) outs.

Definition CreateTotalBumpTransaction (wallet : CWallet) (txid : uint256)
    (coin_control : CCoinControl) (args : BumpArgs) : Outcome (Result * BumpArgs) :=
  let old_fee0 := old_fee args in
  let mtx0 := mtx args in
  (* new_fee = 0; errors.clear(); *)
  if negb (IsParticlWallet wallet) then
    Returns (WALLET_ERROR, mkBump [] old_fee0 0 mtx0)
  else
    let pw := wallet in
    match mapWallet pw !! txid with
    | None =>
        Returns (INVALID_ADDRESS_OR_KEY,
                 mkBump ["Invalid or non-wallet transaction id"%string] old_fee0 0 mtx0)
    | Some wtx =>
        let '(result, errs) := PreconditionChecks pw wtx true [] in
        if negb (bool_decide (result = OK)) then
          Returns (result, mkBump errs old_fee0 0 mtx0)
        else
          match find_change_output pw (vpout (tx wtx)) 0 (-1) with
          | None =>
              Returns (WALLET_ERROR,
                       mkBump (errs ++ ["Transaction has multiple change outputs"%string])
                              old_fee0 0 mtx0)
          | Some nOutput =>
              if nOutput =? -1 then
                Returns (WALLET_ERROR,
                         mkBump (errs ++ ["Transaction does not have a change output"%string])
                                old_fee0 0 mtx0)
              else
                let maxNewTxSize := CalculateMaximumSignedTxSize pw (tx wtx) None in
                if maxNewTxSize <? 0 then
                  Returns (INVALID_ADDRESS_OR_KEY,
                           mkBump (errs ++ ["Transaction contains inputs that cannot be signed"%string])
                                  old_fee0 0 mtx0)
                else
                  let old_fee1 := total_bump_old_fee pw wtx in
                  let '(new_fee1, nNewFeeRate) :=
                    total_bump_pricing wallet wtx coin_control maxNewTxSize in
                  let max_tx_fee := m_default_max_tx_fee pw in
                  if max_tx_fee <? new_fee1 then
                    Returns (WALLET_ERROR,
                             mkBump (errs ++ [("Specified or calculated fee "
                                               +:+ FormatMoney new_fee1
                                               +:+ " is too high (cannot be higher than maxTxFee "
                                               +:+ FormatMoney max_tx_fee +:+ ")")%string])
                                    old_fee1 new_fee1 mtx0)
                  else
                    let minMempoolFeeRate := mempoolMinFee (chain wallet) in
                    if GetFeePerK nNewFeeRate <? GetFeePerK minMempoolFeeRate then
                      Returns (WALLET_ERROR,
                               mkBump (errs ++ [("New fee rate ("
                                                 +:+ FormatMoney (GetFeePerK nNewFeeRate)
                                                 +:+ ") is lower than the minimum fee rate ("
                                                 +:+ FormatMoney (GetFeePerK minMempoolFeeRate)
                                                 +:+ ") to get into the mempool -- the totalFee value should be at least "
                                                 +:+ FormatMoney (GetFee minMempoolFeeRate maxNewTxSize)
                                                 +:+ " or the settxfee value should be at least "
                                                 +:+ FormatMoney (GetFeePerK minMempoolFeeRate)
                                                 +:+ " to add transaction")%string])
                                      old_fee1 new_fee1 mtx0)
                    else
                      let nDelta := new_fee1 - old_fee1 in
                      if negb (0 <? nDelta) then Aborts (* assert(nDelta > 0) *)
                      else
                        let mtx1 := tx wtx in
                        match vpout mtx1 !! Z.to_nat nOutput with
                        | None => Aborts (* index outside the vector *)
                        | Some poutput =>
                            if nValue poutput <? nDelta then
                              Returns (WALLET_ERROR,
                                       mkBump (errs ++ ["Change output is too small to bump the fee"%string])
                                              old_fee1 new_fee1 mtx1)
                            else
                              let poutput' := SetValue poutput (nValue poutput - nDelta) in
                              let '(new_fee2, outs) :=
                                if nValue poutput' <=? GetDustThreshold poutput' (GetDiscardRate wallet)
                                then (new_fee1 + nValue poutput',
                                      delete (Z.to_nat nOutput) (vpout mtx1))
                                else (new_fee1, <[Z.to_nat nOutput := poutput']> (vpout mtx1)) in
                              let mtx2 := with_vpout mtx1 outs in
                              let mtx3 :=
                                if negb (default (m_signal_rbf wallet) (m_signal_bip125_rbf coin_control))
                                then with_vin mtx2 (mark_not_replaceable (vin mtx2))
                                else mtx2 in
                              Returns (OK, mkBump errs old_fee1 new_fee2 mtx3)
                        end
          end
    end.

(** ** CreateRateBumpTransaction *)

(** Lines 371-373: [coins[txin.prevout]] creates an empty entry when the key
    is new and leaves an existing one alone. *)
Definition request_coins (ins : list CTxIn) : gmap COutPoint Coin :=
  foldl (fun coins txin =>
           match coins !! prevout txin with
           | Some _ => coins
           | None => <[prevout txin := Coin_empty]> coins
           end) ∅ ins.

(** Lines 375-388.  The state of the loop is the coin control, the input
    value and the spent outputs; [inl] is the early return with its
    diagnostic, [Aborts] the exception of [coins.at]. *)
Fixpoint harvest_inputs (w : CWallet) (coins : gmap COutPoint Coin) (ins : list CTxIn)
    (cc : CCoinControl) (input_value : CAmount) (spent_outputs : list CTxOut)
  : Outcome (bilingual_str + CCoinControl * CAmount * list CTxOut) :=
  match ins with
  | [] => Returns (inr (cc, input_value, spent_outputs))
  | txin :: rest =>
      match coins !! prevout txin with
      | None => Aborts
      | Some coin =>
          if CTxOut_IsNull (coin_out coin) then
            Returns (inl (uint256_ToString (op_hash (prevout txin)) +:+ ":"
                          +:+ uint_ToString (op_n (prevout txin))
                          +:+ " is already spent")%string)
          else
            let cc' :=
              if IsMine_outpoint w (prevout txin)
              then Select cc (prevout txin)
              else SelectExternal cc (prevout txin) (coin_out coin) in
            harvest_inputs w coins rest cc'
              (input_value + nValue (coin_out coin))
              (spent_outputs ++ [coin_out coin])
      end
  end.

(** Lines 393-412: the weight of every externally selected input; [i] is
    the loop counter, [ins] the inputs from position [i] on. *)
Fixpoint estimate_input_weights (t : CTransaction) (coins : gmap COutPoint Coin)
    (ins : list CTxIn) (i : nat) (cc : CCoinControl) : Outcome CCoinControl :=
  match ins with
  | [] => Returns cc
  | txin :: rest =>
      match coins !! prevout txin with
      | None => Aborts
      | Some coin =>
          let cc' :=
            if IsExternalSelected cc (prevout txin) then
              let input_weight := GetTransactionInputWeight txin in
              let input_weight := input_weight + WeightDiffToMax t i coin in
              SetInputWeight cc (prevout txin) input_weight
            else cc in
          estimate_input_weights t coins rest (S i) cc'
      end
  end.

(** Lines 426-436: recipients, change destination and output value. *)
Fixpoint harvest_outputs (w : CWallet) (outs : list CTxOut)
    (recipients : list CRecipient) (cc : CCoinControl) (output_value : CAmount)
  : list CRecipient * CCoinControl * CAmount :=
  match outs with
  | [] => (recipients, cc, output_value)
  | output :: rest =>
      let '(recipients', cc') :=
        if negb (OutputIsChange w output) then
          (recipients ++ [mkRecipient (scriptPubKey output) (nValue output) false], cc)
        else
          (recipients, set_destChange cc (ExtractDestination (scriptPubKey output))) in
      harvest_outputs w rest recipients' cc' (output_value + nValue output)
  end.

(** Lines 466-468. *)
Definition select_all_inputs (ins : list CTxIn) (cc : CCoinControl) : CCoinControl :=
  foldl (fun cc inputs => Select cc (prevout inputs)) cc ins.

(** Lines 444-448: the temporary transaction without input scripts. *)
Definition strip_input_scripts (t : CTransaction) : CTransaction :=
  with_vin t (map (fun txin => mkTxIn (prevout txin) (nSequence txin) [] []) (vin t)).

Definition RANDOM_CHANGE_POSITION : Z := -1.

(** What the engine hands to [CreateTransaction]. *)
Record BuilderCall := mkCall {
  call_recipients : list CRecipient;
  call_change_pos : Z;
  call_coin_control : CCoinControl;
  call_sign : bool
}.

(** Everything of [CreateRateBumpTransaction] up to the call of the
    builder (lines 354-472): either the function has already returned, or
    the call is ready, with [old_fee] written back. *)
Definition rate_bump_prepare (wallet : CWallet) (txid : uint256)
    (coin_control : CCoinControl) (args : BumpArgs) (require_mine : bool)
  : Outcome (Result * BumpArgs + BuilderCall * BumpArgs) :=
  let new_coin_control := coin_control in
  let old_fee0 := old_fee args in
  let new_fee0 := new_fee args in
  let mtx0 := mtx args in
  match mapWallet wallet !! txid with
  | None =>
      Returns (inl (INVALID_ADDRESS_OR_KEY,
                    mkBump ["Invalid or non-wallet transaction id"%string]
                           old_fee0 new_fee0 mtx0))
  | Some wtx =>
      let coins := findCoins (chain wallet) (request_coins (vin (tx wtx))) in
      match harvest_inputs wallet coins (vin (tx wtx)) new_coin_control 0 [] with
      | Aborts => Aborts
      | Returns (inl err) =>
          Returns (inl (MISC_ERROR, mkBump [err] old_fee0 new_fee0 mtx0))
      | Returns (inr (new_coin_control, input_value, spent_outputs)) =>
          match estimate_input_weights (tx wtx) coins (vin (tx wtx)) 0 new_coin_control with
          | Aborts => Aborts
          | Returns new_coin_control =>
              let '(result, errs) := PreconditionChecks wallet wtx require_mine [] in
              if negb (bool_decide (result = OK)) then
                Returns (inl (result, mkBump errs old_fee0 new_fee0 mtx0))
              else if IsParticlWallet wallet then Aborts (* assert(false) *)
              else
                let '(recipients, new_coin_control, output_value) :=
                  harvest_outputs wallet (vout (tx wtx)) [] new_coin_control 0 in
                let old_fee1 := input_value - output_value in
                let priced : Outcome (Result * list bilingual_str * CCoinControl) :=
                  match m_feerate coin_control with
                  | Some _ =>
                      let mtx_tmp := strip_input_scripts (tx wtx) in
                      let maxTxSize :=
                        CalculateMaximumSignedTxSize wallet mtx_tmp (Some new_coin_control) in
                      match m_feerate new_coin_control with
                      | None => Aborts (* dereference of an empty optional *)
                      | Some rate =>
                          let '(res, errs') :=
                            CheckFeeRate wallet wtx rate maxTxSize old_fee1 errs in
                          Returns (res, errs', new_coin_control)
                      end
                  | None =>
                      Returns (OK, errs,
                               set_feerate new_coin_control
                                 (Some (EstimateFeeRate wallet wtx old_fee1 new_coin_control)))
                  end in
                match priced with
                | Aborts => Aborts
                | Returns (res, errs', new_coin_control) =>
                    if negb (bool_decide (res = OK)) then
                      Returns (inl (res, mkBump errs' old_fee1 new_fee0 mtx0))
                    else
                      let new_coin_control :=
                        select_all_inputs (vin (tx wtx)) new_coin_control in
                      let new_coin_control := set_allow_other_inputs new_coin_control true in
                      let new_coin_control := set_min_depth new_coin_control 1 in
                      Returns (inr (mkCall recipients RANDOM_CHANGE_POSITION
                                           new_coin_control false,
                                    mkBump errs' old_fee1 new_fee0 mtx0))
                end
          end
      end
  end.

(** Lines 475-488: the call of the builder and the write-back. *)
Definition rate_bump_build (wallet : CWallet) (call : BuilderCall) (args : BumpArgs)
  : Result * BumpArgs :=
  match CreateTransaction wallet (call_recipients call) (call_change_pos call)
          (call_coin_control call) (call_sign call) with
  | inr err =>
      (WALLET_ERROR,
       mkBump (errors args ++ [("Unable to create transaction." +:+ " " +:+ err)%string])
              (old_fee args) (new_fee args) (mtx args))
  | inl txr =>
      (OK, mkBump (errors args) (old_fee args) (txr_fee txr) (txr_tx txr))
  end.

Definition CreateRateBumpTransaction (wallet : CWallet) (txid : uint256)
    (coin_control : CCoinControl) (args : BumpArgs) (require_mine : bool)
  : Outcome (Result * BumpArgs) :=
  match rate_bump_prepare wallet txid coin_control args require_mine with
  | Aborts => Aborts
  | Returns (inl r) => Returns r
  | Returns (inr (call, args')) => Returns (rate_bump_build wallet call args')
  end.

(** ** CommitTransaction *)

Definition with_mapWallet (w : CWallet) (m : gmap uint256 CWalletTx) : CWallet :=
  mkWallet (chain w) (IsParticlWallet w) m (mapRecords w) (HasWalletSpend w)
    (HasWalletSpend_record w) (GetTxDepthInMainChain w) (GetDepthInMainChain_record w)
    (GetLegacyScriptPubKeyMan w) (flag_disable_private_keys w) (IsMine w)
    (m_default_max_tx_fee w) (m_signal_rbf w) (GetRequiredFee w) (GetMinimumFeeRate w)
    (GetMinimumFee w) (GetDiscardRate w) (IsChange w) (OutputIsChange w)
    (CachedTxGetDebit w) (CalculateMaximumSignedTxSize w) (CreateTransaction w)
    (WriteTx w).

(** Modelled from the spec: [CWallet::CommitTransaction] (wallet/wallet.cpp is
    not among the sources): the built transaction is submitted to the wallet
    with the metadata handed over. *)
Definition wallet_CommitTransaction (w : CWallet) (t : CTransaction)
    (mv : gmap string string) (orderForm : list (string * string)) : CWallet :=
  with_mapWallet w (<[GetHash t := mkWalletTx t mv orderForm]> (mapWallet w)).

(** Modelled from the spec: [CWallet::MarkReplaced] (wallet/wallet.cpp is not
    among the sources): stamps the original record with [replaced_by_txid].
    The stamp fails when the record has vanished or cannot be written; the
    records are then left as they were. *)
Definition MarkReplaced (w : CWallet) (originalHash newHash : uint256) : bool * CWallet :=
  match mapWallet w !! originalHash with
  | None => (false, w)
  | Some wtx =>
      let wtx' :=
        mkWalletTx (tx wtx)
          (<["replaced_by_txid"%string := uint256_ToString newHash]> (mapValue wtx))
          (vOrderForm wtx) in
      if WriteTx w wtx'
      then (true, with_mapWallet w (<[originalHash := wtx']> (mapWallet w)))
      else (false, w)
  end.

Record CommitState := mkCommit {
  c_wallet : CWallet;
  c_errors : list bilingual_str;
  bumped_txid : uint256
}.

(** [txid.IsNull()] *)
Definition uint256_IsNull (h : uint256) : bool := (h =? 0)%N.

Definition CommitTransaction (wallet : CWallet) (txid : uint256)
    (mtx : CMutableTransaction) (errors : list bilingual_str) (bumped : uint256)
  : Result * CommitState :=
  if negb (bool_decide (errors = [])) then
    (MISC_ERROR, mkCommit wallet errors bumped)
  else
    let it := if uint256_IsNull txid then None else mapWallet wallet !! txid in
    match it with
    | None =>
        (MISC_ERROR,
         mkCommit wallet (errors ++ ["Invalid or non-wallet transaction id"%string]) bumped)
    | Some oldWtx =>
        let '(result, errs) := PreconditionChecks wallet oldWtx false errors in
        if negb (bool_decide (result = OK)) then
          (result, mkCommit wallet errs bumped)
        else
          let tx := mtx in
          let mapValue :=
            <["replaces_txid"%string := uint256_ToString (wtx_GetHash oldWtx)]>
              (mapValue oldWtx) in
          let wallet1 := wallet_CommitTransaction wallet tx mapValue (vOrderForm oldWtx) in
          let bumped' := GetHash tx in
          let '(marked, wallet2) := MarkReplaced wallet1 (wtx_GetHash oldWtx) bumped' in
          let errs' :=
            if negb marked then
              errs ++ ["Created new bumpfee transaction but could not mark the original transaction as replaced"%string]
            else errs in
          (OK, mkCommit wallet2 errs' bumped')
    end.

(** ** Vocabulary of the properties *)

(** The validator as the specification words it: a list of checks, the
    first that fires decides. *)
Definition validate_explicit_rate (w : CWallet) (wtx : CWalletTx)
    (old_fee : CAmount) (new_rate : CFeeRate) (max_vsize : Z) : Result :=
  let increment :=
    mkFeeRate (Z.max (GetFeePerK (relayIncrementalFee (chain w)))
                     WALLET_INCREMENTAL_RELAY_FEE) in
  let old_rate := CFeeRate_of old_fee (GetVirtualTransactionSize (tx wtx)) in
  let new_total_fee := GetFee new_rate max_vsize in
  if decide (GetFeePerK new_rate < GetFeePerK (mempoolMinFee (chain w))) then WALLET_ERROR
  else if decide (new_total_fee < GetFee old_rate max_vsize + GetFee increment max_vsize)
  then INVALID_PARAMETER
  else if decide (new_total_fee < GetRequiredFee w max_vsize) then INVALID_PARAMETER
  else if decide (new_total_fee > m_default_max_tx_fee w) then WALLET_ERROR
  else OK.

(** The transaction has a spending descendant in the wallet or the mempool. *)
Definition has_descendant (w : CWallet) (wtx : CWalletTx) : Prop :=
  HasWalletSpend w (tx wtx) = true
  \/ hasDescendantsInMempool (chain w) (wtx_GetHash wtx) = true.

(** Mined or conflicted, not replaceable, or already bumped. *)
Definition not_replaceable_now (w : CWallet) (wtx : CWalletTx) : Prop :=
  GetTxDepthInMainChain w wtx <> 0
  \/ SignalsOptInRBF (tx wtx) = false
  \/ is_Some (mapValue wtx !! "replaced_by_txid"%string).

(** Every input's previous output carries one of the ownership bits of
    [filter]. *)
Definition inputs_owned (w : CWallet) (wtx : CWalletTx) (filter : isminefilter) : Prop :=
  Forall (fun txin => Z.land (IsMine w (prevout txin)) filter <> 0) (vin (tx wtx)).

(** The ownership filter as the checker picks it: watch-only exactly for a
    wallet that has a legacy key manager and has its private keys disabled. *)
Definition checker_filter (w : CWallet) : isminefilter :=
  if decide (GetLegacyScriptPubKeyMan w = true /\ flag_disable_private_keys w = true)
  then ISMINE_WATCH_ONLY else ISMINE_SPENDABLE.

(** The ownership filter as the claim words it: watch-only whenever the
    private keys are disabled. *)
Definition claimed_filter (w : CWallet) : isminefilter :=
  if flag_disable_private_keys w then ISMINE_WATCH_ONLY else ISMINE_SPENDABLE.

(** The checker's verdict for a given reading of ownership. *)
Definition check_verdict (filter : CWallet -> isminefilter) (w : CWallet)
    (wtx : CWalletTx) (require_ownership : bool) : Result :=
  if decide (has_descendant w wtx) then INVALID_PARAMETER
  else if decide (not_replaceable_now w wtx) then WALLET_ERROR
  else if decide (require_ownership = true /\ ~ inputs_owned w wtx (filter w))
  then WALLET_ERROR
  else OK.


(** The number of outputs the wallet recognizes as change. *)
Definition count_change (w : CWallet) (outs : list CTxOut) : nat :=
  length (List.filter (IsChange w) outs).

(** The previous output of an input can be located: the node returns a coin
    whose output is not null. *)
Definition coin_located (w : CWallet) (o : COutPoint) : bool :=
  match findCoin (chain w) o with
  | Some c => negb (CTxOut_IsNull (coin_out c))
  | None => false
  end.

(** The diagnostic that identifies a missing outpoint. *)
Definition already_spent_msg (o : COutPoint) : bilingual_str :=
  (uint256_ToString (op_hash o) +:+ ":" +:+ uint_ToString (op_n o)
   +:+ " is already spent")%string.

(** The first input, in input order, whose previous output cannot be
    located. *)
Fixpoint first_missing (w : CWallet) (ins : list CTxIn) : option CTxIn :=
  match ins with
  | [] => None
  | txin :: rest =>
      if coin_located w (prevout txin) then first_missing w rest else Some txin
  end.

(** What the coin map holds for an outpoint after [findCoins]. *)
Definition fetched (w : CWallet) (o : COutPoint) : Coin :=
  default Coin_empty (findCoin (chain w) o).

(** The coin map holds the fetched coin of every input in [ins]. *)
Definition covers (w : CWallet) (coins : gmap COutPoint Coin) (ins : list CTxIn) : Prop :=
  forall txin, txin ∈ ins -> coins !! prevout txin = Some (fetched w (prevout txin)).

(** The warning of a commit that could not stamp the original record. *)
Definition mark_failed_msg : bilingual_str :=
  "Created new bumpfee transaction but could not mark the original transaction as replaced"%string.

(** The sum of the values of a list of outputs. *)
Definition total_value (outs : list CTxOut) : CAmount :=
  foldr (fun o acc => nValue o + acc) 0 outs.

(** The recipient made of a payee output at lines 428-429. *)
Definition to_recipient (o : CTxOut) : CRecipient :=
  mkRecipient (scriptPubKey o) (nValue o) false.

(** The sum of the values of the previous outputs of a list of inputs, as
    the node returns them. *)
Definition located_value (w : CWallet) (ins : list CTxIn) : CAmount :=
  foldr (fun txin acc => nValue (coin_out (fetched w (prevout txin))) + acc) 0 ins.

(** The body of the loop at lines 381-385 for one input whose coin has been
    located. *)
Definition harvest_step (w : CWallet) (cc : CCoinControl) (txin : CTxIn) : CCoinControl :=
  if IsMine_outpoint w (prevout txin)
  then Select cc (prevout txin)
  else SelectExternal cc (prevout txin) (coin_out (fetched w (prevout txin))).

(** The stamped and unstamped forms of an original's metadata. *)
Definition is_replaced (wtx : CWalletTx) : Prop :=
  is_Some (mapValue wtx !! "replaced_by_txid"%string).

(** The fields of a coin control that the harvesting loops leave alone. *)
Definition same_request (a b : CCoinControl) : Prop :=
  m_feerate a = m_feerate b
  /\ m_allow_other_inputs a = m_allow_other_inputs b
  /\ m_min_depth a = m_min_depth b
  /\ m_signal_bip125_rbf a = m_signal_bip125_rbf b.

(** The loop at lines 426-436 as far as the change destination goes. *)
Definition change_step (w : CWallet) (d : CTxDestination) (o : CTxOut) : CTxDestination :=
  if OutputIsChange w o then ExtractDestination (scriptPubKey o) else d.

(** The payee outputs of a list of outputs, in order. *)
Definition payee_outputs (w : CWallet) (outs : list CTxOut) : list CTxOut :=
  List.filter (fun o => negb (OutputIsChange w o)) outs.

End Engine.

(** * A concrete node and wallet

    The engine is stated over any [Policy], [Chain] and [CWallet].  The
    instance below fixes them, so that the engine can be run; the examples
    of the development are computed on it. *)

Module Sample.

(** Modelled from the spec: the fee-rate arithmetic (policy/feerate.cpp is not
    among the sources): an amount per 1000 units of virtual size, with fee
    computation for a given virtual size, rounded up and never rounded to
    zero. *)
Definition rate_of (nFeePaid : CAmount) (num_bytes : Z) : CFeeRate :=
  if 0 <? num_bytes then mkFeeRate (Z.quot (nFeePaid * 1000) num_bytes)
  else mkFeeRate 0.

Definition fee_at (r : CFeeRate) (num_bytes : Z) : CAmount :=
  let k := GetFeePerK r in
  let nFee := - ((- (k * num_bytes)) / 1000) in
  if (nFee =? 0) && negb (num_bytes =? 0) then
    if 0 <? k then 1 else if k <? 0 then -1 else nFee
  else nFee.

Definition sum_values (outs : list CTxOut) : CAmount :=
  foldr (fun o acc => nValue o + acc) 0 outs.

Definition vsize (t : CTransaction) : Z :=
  10 + 68 * Z.of_nat (length (vin t))
  + 31 * Z.of_nat (length (vout t) + length (vpout t)).

(** A stand-in for the transaction hash: injective enough for the wallets
    below. *)
Definition txhash (t : CTransaction) : uint256 :=
  (foldr (fun i acc => op_hash (prevout i) + 16 * acc) 1 (vin t)
   + 256 * Z.to_N (sum_values (vout t) + sum_values (vpout t)))%N.

Definition policy (particl_mode : bool) : Policy := {|
  fParticlMode := particl_mode;
  CFeeRate_of := rate_of;
  GetFee := fee_at;
  WALLET_INCREMENTAL_RELAY_FEE := 5000;
  GetVirtualTransactionSize := vsize;
  SignalsOptInRBF := fun t => existsb (fun i => nSequence i <=? 0xfffffffd) (vin t);
  GetHash := txhash;
  GetValueOut := fun t => sum_values (vpout t);
  GetDustThreshold := fun _ _ => 546;
  ExtractDestination := Destination;
  GetTransactionInputWeight := fun _ => 272;
  WeightDiffToMax := fun _ _ _ => 2;
  FormatMoney := fun a => NilZero.string_of_int (Z.to_int a);
  uint256_ToString := HexString.of_N;
  uint_ToString := fun n => NilZero.string_of_uint (N.to_uint n)
|}.

Definition change_script : CScript := [Byte.x01].
Definition payee_script : CScript := [Byte.x02].

Definition is_change (o : CTxOut) : bool :=
  bool_decide (scriptPubKey o = change_script).

(** The node: the coins it can locate, and whether the mempool holds a
    descendant. *)
Definition node (utxo : COutPoint -> option Coin) (mempool_child : bool) : Chain :=
  mkChain (fun _ => mempool_child) (mkFeeRate 1000) (mkFeeRate 1000) utxo.

(** A toy builder: spends exactly the forced inputs and pays the recipients
    at the requested rate; fails without a rate. *)
Definition builder (recipients : list CRecipient) (change_pos : Z)
    (cc : CCoinControl) (sign : bool) : CreatedTransactionResult + string :=
  match m_feerate cc with
  | None => inr "no fee rate"%string
  | Some r =>
      let t :=
        mkTx (map (fun o => mkTxIn o 0xfffffffd [] []) (elements (m_selected_inputs cc)))
             (map (fun r => mkTxOut (rcp_nAmount r) (rcp_scriptPubKey r)) recipients)
             [] in
      inl (mkCreated t (fee_at r (vsize t)))
  end.

Definition wallet (c : Chain) (particl legacy nokeys : bool)
    (ismine : COutPoint -> Z) (txs : gmap uint256 CWalletTx)
    (max_fee : CAmount) (db_ok : bool) : CWallet :=
  {| chain := c;
     IsParticlWallet := particl;
     mapWallet := txs;
     mapRecords := ∅;
     HasWalletSpend := fun _ => false;
     HasWalletSpend_record := fun _ _ => false;
     GetTxDepthInMainChain := fun _ => 0;
     GetDepthInMainChain_record := fun _ => 0;
     GetLegacyScriptPubKeyMan := legacy;
     flag_disable_private_keys := nokeys;
     IsMine := ismine;
     m_default_max_tx_fee := max_fee;
     m_signal_rbf := true;
     GetRequiredFee := fee_at (mkFeeRate 1000);
     GetMinimumFeeRate := fun _ => mkFeeRate 1000;
     GetMinimumFee := fun size _ => fee_at (mkFeeRate 1000) size;
     GetDiscardRate := mkFeeRate 10000;
     IsChange := is_change;
     OutputIsChange := is_change;
     CachedTxGetDebit := fun wtx _ => 100000 * Z.of_nat (length (vin (tx wtx)));
     CalculateMaximumSignedTxSize := fun t _ => vsize t;
     CreateTransaction := builder;
     WriteTx := fun _ => db_ok |}.

Definition coin_control0 : CCoinControl :=
  mkCoinControl ∅ ∅ ∅ None CNoDestination false 0 None.

Definition args0 : BumpArgs := mkBump [] 0 0 (mkTx [] [] []).

(** One replaceable input spending outpoint 7:0, worth 100000. *)
Definition in7 : CTxIn := mkTxIn (mkOutPoint 7 0) 0xfffffffd [] [].

Definition utxo7 (o : COutPoint) : option Coin :=
  if decide (o = mkOutPoint 7 0) then Some (mkCoin (mkTxOut 100000 payee_script))
  else None.

(** A payment of 60000 with change [change]; the fee is what is left of
    100000. *)
Definition payment (change : CAmount) : CTransaction :=
  let outs := [mkTxOut 60000 payee_script; mkTxOut change change_script] in
  mkTx [in7] outs outs.

Definition record (t : CTransaction) : CWalletTx := mkWalletTx t ∅ [].

Definition holding (wtx : CWalletTx) : gmap uint256 CWalletTx :=
  {[ txhash (tx wtx) := wtx ]}.

Definition spendable_all (o : COutPoint) : Z := ISMINE_SPENDABLE.
Definition watchonly_all (o : COutPoint) : Z := ISMINE_WATCH_ONLY.
Definition foreign_all (o : COutPoint) : Z := ISMINE_NO.

(** The original of the examples: pays 60000, returns 39900, fee 100. *)
Definition original : CWalletTx := record (payment 39900).
Definition original_id : uint256 := txhash (tx original).

(** Originals with a change output close to the dust threshold, below the
    fee increase, and with no change output at all. *)
Definition dusty : CWalletTx := record (payment 1500).
Definition tiny : CWalletTx := record (payment 500).
Definition unchanged : CWalletTx :=
  record (mkTx [in7] [mkTxOut 99900 payee_script] [mkTxOut 99900 payee_script]).

(** An original that a replacement has already superseded. *)
Definition superseded : CWalletTx :=
  mkWalletTx (payment 39900) {[ "replaced_by_txid"%string := "0xabc"%string ]} [].

(** A plain wallet and a Particl wallet that own their inputs. *)
Definition plain_wallet (wtx : CWalletTx) : CWallet :=
  wallet (node utxo7 false) false false false spendable_all (holding wtx) 10000000 true.
Definition particl_wallet (wtx : CWalletTx) : CWallet :=
  wallet (node utxo7 false) true false false spendable_all (holding wtx) 10000000 true.

(** A wallet without legacy key manager whose private keys are disabled and
    whose inputs are watch-only. *)
Definition keyless_wallet (wtx : CWalletTx) : CWallet :=
  wallet (node utxo7 false) false false true watchonly_all (holding wtx) 10000000 true.

(** A wallet that did not fund the inputs of its transaction. *)
Definition stranger_wallet (wtx : CWalletTx) : CWallet :=
  wallet (node utxo7 false) false false false foreign_all (holding wtx) 10000000 true.

(** A wallet whose node cannot locate any previous output. *)
Definition spent_wallet (wtx : CWalletTx) : CWallet :=
  wallet (node (fun _ => None) false) false false false spendable_all (holding wtx)
         10000000 true.

(** A wallet whose database refuses writes. *)
Definition readonly_wallet (wtx : CWalletTx) : CWallet :=
  wallet (node utxo7 false) false false false spendable_all (holding wtx) 10000000 false.

(** The call of the builder that the rate-bump of [original] prepares on the
    plain wallet. *)
Definition no_call : BuilderCall := mkCall [] 0 coin_control0 false.

Definition prepared_call : BuilderCall :=
  match rate_bump_prepare (H := policy false) (plain_wallet original) original_id
          coin_control0 args0 true with
  | Returns (inr (call, _)) => call
  | _ => no_call
  end.

Definition prepared_args : BumpArgs :=
  match rate_bump_prepare (H := policy false) (plain_wallet original) original_id
          coin_control0 args0 true with
  | Returns (inr (_, args')) => args'
  | _ => args0
  end.

End Sample.

(** * Further wallets for the examples *)

Module SampleMore.
Import Sample.

(** A Particl wallet that knows a transaction only through [mapRecords]. *)
Definition records_wallet (id : uint256) : CWallet :=
  mkWallet (node utxo7 false) true ∅ {[ id := mkRecord 100 ]}
    (fun _ => false) (fun _ _ => false) (fun _ => 0) (fun _ => 0)
    false false spendable_all 10000000 true
    (fee_at (mkFeeRate 1000)) (fun _ => mkFeeRate 1000)
    (fun size _ => fee_at (mkFeeRate 1000) size) (mkFeeRate 10000)
    is_change is_change
    (fun wtx _ => 100000 * Z.of_nat (length (vin (tx wtx))))
    (fun t _ => vsize t) builder (fun _ => true).

(** A Particl wallet that takes the maximum signed size of any transaction
    to be one unit. *)
Definition undersized_wallet (wtx : CWalletTx) : CWallet :=
  mkWallet (node utxo7 false) true (holding wtx) ∅
    (fun _ => false) (fun _ _ => false) (fun _ => 0) (fun _ => 0)
    false false spendable_all 10000000 true
    (fee_at (mkFeeRate 1000)) (fun _ => mkFeeRate 1000)
    (fun size _ => fee_at (mkFeeRate 1000) size) (mkFeeRate 10000)
    is_change is_change
    (fun wtx _ => 100000 * Z.of_nat (length (vin (tx wtx))))
    (fun _ _ => 1) builder (fun _ => true).

(** A Particl wallet whose fee ceiling is 40000. *)
Definition capped_wallet (wtx : CWalletTx) : CWallet :=
  wallet (node utxo7 false) true false false spendable_all (holding wtx) 40000 true.

(** A Particl wallet whose node asks 1000000 per kilobyte to enter the
    mempool. *)
Definition flooded_wallet (wtx : CWalletTx) : CWallet :=
  wallet (mkChain (fun _ => false) (mkFeeRate 1000000) (mkFeeRate 1000) utxo7)
    true false false spendable_all (holding wtx) 10000000 true.

(** A Particl wallet that cannot sign for any input: the maximum signed size
    of every transaction is -1. *)
Definition unsignable_wallet (wtx : CWalletTx) : CWallet :=
  mkWallet (node utxo7 false) true (holding wtx) ∅
    (fun _ => false) (fun _ _ => false) (fun _ => 0) (fun _ => 0)
    false false spendable_all 10000000 true
    (fee_at (mkFeeRate 1000)) (fun _ => mkFeeRate 1000)
    (fun size _ => fee_at (mkFeeRate 1000) size) (mkFeeRate 10000)
    is_change is_change
    (fun wtx _ => 100000 * Z.of_nat (length (vin (tx wtx))))
    (fun _ _ => -1) builder (fun _ => true).

(** An original with two change outputs. *)
Definition doubled : CWalletTx :=
  let outs := [mkTxOut 60000 payee_script; mkTxOut 500 change_script;
               mkTxOut 400 change_script] in
  record (mkTx [in7] outs outs).

(** The result of the total-bump of [dusty] on the Particl wallet. *)
Definition folded : BumpArgs :=
  mkBump [] 38500 40000
    (mkTx [in7] [mkTxOut 60000 payee_script; mkTxOut 1500 change_script]
          [mkTxOut 60000 payee_script]).

(** The call of the builder that the rate-bump of [original] prepares on a
    wallet that does not own the input, ownership not being required. *)
Definition foreign_call : BuilderCall :=
  match rate_bump_prepare (H := policy false) (stranger_wallet original) original_id
          coin_control0 args0 false with
  | Returns (inr (call, _)) => call
  | _ => no_call
  end.

Definition foreign_args : BumpArgs :=
  match rate_bump_prepare (H := policy false) (stranger_wallet original) original_id
          coin_control0 args0 false with
  | Returns (inr (_, args')) => args'
  | _ => args0
  end.

(** The replacement committed in the examples. *)
Definition replacement : CTransaction := payment 39000.

End SampleMore.

(** * Properties *)

Section Properties.
Context `{Policy}.

(** ** Fee-rate arithmetic *)

Lemma CFeeRate_max_perK (a b : CFeeRate) :
  GetFeePerK (CFeeRate_max a b) = Z.max (GetFeePerK a) (GetFeePerK b).
Proof.
  unfold CFeeRate_max, CFeeRate_lt.
  destruct (Z.ltb_spec (GetFeePerK a) (GetFeePerK b)); lia.
Qed.

Lemma CFeeRate_eta (r : CFeeRate) : r = mkFeeRate (GetFeePerK r).
Proof. by destruct r. Qed.

Lemma CFeeRate_max_eq (a b : CFeeRate) :
  CFeeRate_max a b = mkFeeRate (Z.max (GetFeePerK a) (GetFeePerK b)).
Proof. rewrite (CFeeRate_eta (CFeeRate_max a b)). by rewrite CFeeRate_max_perK. Qed.

Lemma total_bump_increment_perK (w : CWallet) :
  GetFeePerK (total_bump_increment w) =
  Z.max (GetFeePerK (relayIncrementalFee (chain w))) WALLET_INCREMENTAL_RELAY_FEE.
Proof.
  unfold total_bump_increment, CFeeRate_gt. simpl.
  destruct (Z.ltb_spec WALLET_INCREMENTAL_RELAY_FEE
              (GetFeePerK (relayIncrementalFee (chain w)))); simpl; lia.
Qed.

(** ** The explicit fee-rate validator *)

(** The result of [CheckFeeRate] is the first check that fires, and a
    rejection appends one diagnostic. *)
Lemma CheckFeeRate_validate (w : CWallet) (wtx : CWalletTx)
    (new_rate : CFeeRate) (max_vsize : Z) (old_fee : CAmount)
    (errors : list bilingual_str) :
  fst (CheckFeeRate w wtx new_rate max_vsize old_fee errors)
    = validate_explicit_rate w wtx old_fee new_rate max_vsize
  /\ (if decide (validate_explicit_rate w wtx old_fee new_rate max_vsize = OK)
      then snd (CheckFeeRate w wtx new_rate max_vsize old_fee errors) = errors
      else exists d,
          snd (CheckFeeRate w wtx new_rate max_vsize old_fee errors) = errors ++ [d]).
Proof.
  unfold CheckFeeRate, validate_explicit_rate, incrementalRelayFee.
  rewrite CFeeRate_max_eq. cbn [GetFeePerK].
  repeat case_decide;
    repeat match goal with
           | |- context [?a <? ?b] => destruct (Z.ltb_spec a b); try lia
           end;
    cbn [fst snd]; split; try done; try congruence; eauto.
Qed.

(** C2. [CheckFeeRate] applies its four checks in the order mempool floor,
    old fee plus relay increment at the new size, required fee, fee ceiling,
    with the results WALLET_ERROR, INVALID_PARAMETER, INVALID_PARAMETER,
    WALLET_ERROR, and returns OK when none fires; a rejection appends exactly
    one diagnostic and an acceptance none. *)
Theorem CheckFeeRate_checks_in_order (w : CWallet) (wtx : CWalletTx)
    (new_rate : CFeeRate) (max_vsize : Z) (old_fee : CAmount)
    (errors : list bilingual_str) :
  let floor := GetFeePerK (mempoolMinFee (chain w)) in
  let increment :=
    mkFeeRate (Z.max (GetFeePerK (relayIncrementalFee (chain w)))
                     WALLET_INCREMENTAL_RELAY_FEE) in
  let old_rate := CFeeRate_of old_fee (GetVirtualTransactionSize (tx wtx)) in
  let new_total_fee := GetFee new_rate max_vsize in
  let min_total_fee := GetFee old_rate max_vsize + GetFee increment max_vsize in
  let required := GetRequiredFee w max_vsize in
  let ceiling := m_default_max_tx_fee w in
  let res := fst (CheckFeeRate w wtx new_rate max_vsize old_fee errors) in
  let errors' := snd (CheckFeeRate w wtx new_rate max_vsize old_fee errors) in
  (GetFeePerK new_rate < floor -> res = WALLET_ERROR)
  /\ (floor <= GetFeePerK new_rate -> new_total_fee < min_total_fee ->
      res = INVALID_PARAMETER)
  /\ (floor <= GetFeePerK new_rate -> min_total_fee <= new_total_fee ->
      new_total_fee < required -> res = INVALID_PARAMETER)
  /\ (floor <= GetFeePerK new_rate -> min_total_fee <= new_total_fee ->
      required <= new_total_fee -> ceiling < new_total_fee -> res = WALLET_ERROR)
  /\ (floor <= GetFeePerK new_rate -> min_total_fee <= new_total_fee ->
      required <= new_total_fee -> new_total_fee <= ceiling -> res = OK)
  /\ (res = OK -> errors' = errors)
  /\ (res <> OK -> exists d, errors' = errors ++ [d]).
Proof.
  intros floor increment old_rate new_total_fee min_total_fee required ceiling
         res errors'.
  destruct (CheckFeeRate_validate w wtx new_rate max_vsize old_fee errors)
    as [Hres Herr].
  fold res in Hres. fold errors' in Herr. rewrite <- Hres in Herr.
  assert (Hv : res = validate_explicit_rate w wtx old_fee new_rate max_vsize)
    by exact Hres.
  unfold validate_explicit_rate in Hv.
  fold floor increment old_rate new_total_fee min_total_fee required ceiling in Hv.
  repeat split; intros;
    try (rewrite Hv; repeat case_decide; first [done | lia]).
  - by rewrite decide_True in Herr.
  - by rewrite decide_False in Herr.
Qed.

(** ** The estimated fee rate *)

(** C3. Without an explicit rate the replacement rate is the larger of
    [old_fee/vsize + 1 + max(node increment, wallet increment)] and the
    wallet's minimum fee-rate estimate, hence never below the former. *)
Theorem EstimateFeeRate_is_clamped_bump (w : CWallet) (wtx : CWalletTx)
    (old_fee : CAmount) (coin_control : CCoinControl) :
  let old_rate := CFeeRate_of old_fee (GetVirtualTransactionSize (tx wtx)) in
  let bumped :=
    GetFeePerK old_rate + 1
    + Z.max (GetFeePerK (relayIncrementalFee (chain w))) WALLET_INCREMENTAL_RELAY_FEE in
  EstimateFeeRate w wtx old_fee coin_control
    = mkFeeRate (Z.max bumped (GetFeePerK (GetMinimumFeeRate w coin_control)))
  /\ bumped <= GetFeePerK (EstimateFeeRate w wtx old_fee coin_control).
Proof.
  intros old_rate bumped.
  assert (Heq : EstimateFeeRate w wtx old_fee coin_control
                = mkFeeRate (Z.max bumped (GetFeePerK (GetMinimumFeeRate w coin_control)))).
  { unfold EstimateFeeRate. rewrite CFeeRate_max_eq. f_equal.
    unfold CFeeRate_add. cbn [GetFeePerK]. rewrite CFeeRate_max_perK.
    cbn [GetFeePerK]. subst bumped old_rate. lia. }
  split; [exact Heq |]. rewrite Heq. cbn [GetFeePerK]. lia.
Qed.

(** ** The precondition checker *)

Lemma PreconditionChecks_errors (w : CWallet) (wtx : CWalletTx) (rm : bool)
    (errs : list bilingual_str) :
  match fst (PreconditionChecks w wtx rm errs) with
  | OK => snd (PreconditionChecks w wtx rm errs) = errs
  | _ => exists d, snd (PreconditionChecks w wtx rm errs) = errs ++ [d]
  end.
Proof.
  unfold PreconditionChecks.
  repeat match goal with
         | |- context [if ?b then _ else _] => destruct b eqn:?
         | |- context [match ?o with Some _ => _ | None => _ end] => destruct o eqn:?
         end; cbn [fst snd]; eauto.
Qed.

Lemma PreconditionChecks_never_misc (w : CWallet) (wtx : CWalletTx) (rm : bool)
    (errs : list bilingual_str) :
  fst (PreconditionChecks w wtx rm errs) <> MISC_ERROR
  /\ fst (PreconditionChecks w wtx rm errs) <> INVALID_ADDRESS_OR_KEY.
Proof.
  unfold PreconditionChecks.
  repeat match goal with
         | |- context [if ?b then _ else _] => destruct b eqn:?
         | |- context [match ?o with Some _ => _ | None => _ end] => destruct o eqn:?
         end; cbn [fst]; split; discriminate.
Qed.

Lemma PreconditionChecks_result_indep (w : CWallet) (wtx : CWalletTx) (rm : bool)
    (e1 e2 : list bilingual_str) :
  fst (PreconditionChecks w wtx rm e1) = fst (PreconditionChecks w wtx rm e2).
Proof.
  unfold PreconditionChecks.
  repeat match goal with
         | |- context [if ?b then _ else _] => destruct b eqn:?
         | |- context [match ?o with Some _ => _ | None => _ end] => destruct o eqn:?
         end; reflexivity.
Qed.

Lemma AllInputsMine_owned (w : CWallet) (wtx : CWalletTx) (filter : isminefilter) :
  AllInputsMine w (tx wtx) filter = true <-> inputs_owned w wtx filter.
Proof.
  unfold AllInputsMine, inputs_owned. rewrite forallb_forall, Forall_forall.
  split; intros Hall x Hx.
  - apply list_elem_of_In in Hx. specialize (Hall x Hx).
    apply negb_true_iff in Hall. lia.
  - apply list_elem_of_In in Hx. specialize (Hall x Hx).
    apply negb_true_iff. lia.
Qed.

(** The checker decides by descendants, then replaceability, then
    ownership. *)
Lemma PreconditionChecks_check_verdict (w : CWallet) (wtx : CWalletTx)
    (require_mine : bool) (errs : list bilingual_str) :
  fst (PreconditionChecks w wtx require_mine errs)
    = check_verdict checker_filter w wtx require_mine.
Proof.
  unfold check_verdict, has_descendant, not_replaceable_now, PreconditionChecks.
  assert (Hf : ownership_filter w = checker_filter w).
  { unfold ownership_filter, checker_filter.
    destruct (GetLegacyScriptPubKeyMan w), (flag_disable_private_keys w);
      case_decide as Hd; cbn [andb]; try done;
      try (destruct Hd; discriminate).
    exfalso. by apply Hd. }
  rewrite Hf.
  destruct (HasWalletSpend w (tx wtx)) eqn:E1.
  { rewrite decide_True by auto. done. }
  destruct (hasDescendantsInMempool (chain w) (wtx_GetHash wtx)) eqn:E2.
  { rewrite decide_True by auto. done. }
  rewrite decide_False by (intros [?|?]; congruence).
  destruct (Z.eqb_spec (GetTxDepthInMainChain w wtx) 0) as [E3|E3]; simpl.
  2:{ rewrite decide_True by auto. done. }
  destruct (SignalsOptInRBF (tx wtx)) eqn:E4; simpl.
  2:{ rewrite decide_True by auto. done. }
  destruct (mapValue wtx !! "replaced_by_txid"%string) eqn:E5.
  { rewrite decide_True by eauto. done. }
  rewrite decide_False.
  2:{ intros [?|[?|[? ?]]]; congruence. }
  destruct (AllInputsMine w (tx wtx) (checker_filter w)) eqn:E6;
    destruct require_mine; cbn [andb negb fst];
    case_decide as Hd; try done.
  - destruct Hd as [_ Hn]. exfalso. apply Hn. by apply AllInputsMine_owned.
  - destruct Hd as [? _]. congruence.
  - exfalso. apply Hd. split; [done|].
    intros Ho. apply AllInputsMine_owned in Ho. congruence.
  - destruct Hd as [? _]. congruence.
Qed.

(** C4 (amended). [PreconditionChecks] returns INVALID_PARAMETER for a
    transaction with a descendant in the wallet or the mempool; otherwise
    WALLET_ERROR when it is mined or conflicted, does not signal
    replaceability or is already replaced; otherwise, when ownership is
    required, WALLET_ERROR unless every input is owned, where owned means
    watch-only for a wallet with a legacy key manager and disabled private
    keys and spendable for every other wallet; otherwise OK. *)
Theorem PreconditionChecks_verdict (w : CWallet) (wtx : CWalletTx)
    (require_mine : bool) (errs : list bilingual_str) :
  let res := fst (PreconditionChecks w wtx require_mine errs) in
  let filter :=
    if GetLegacyScriptPubKeyMan w && flag_disable_private_keys w
    then ISMINE_WATCH_ONLY else ISMINE_SPENDABLE in
  (has_descendant w wtx -> res = INVALID_PARAMETER)
  /\ (~ has_descendant w wtx -> not_replaceable_now w wtx -> res = WALLET_ERROR)
  /\ (~ has_descendant w wtx -> ~ not_replaceable_now w wtx ->
      require_mine = true -> ~ inputs_owned w wtx filter -> res = WALLET_ERROR)
  /\ (~ has_descendant w wtx -> ~ not_replaceable_now w wtx ->
      (require_mine = true -> inputs_owned w wtx filter) -> res = OK).
Proof.
  intros res filter.
  assert (Hf : filter = checker_filter w).
  { unfold filter, checker_filter.
    destruct (GetLegacyScriptPubKeyMan w), (flag_disable_private_keys w);
      case_decide as Hd; cbn [andb]; try done;
      try (destruct Hd; discriminate).
    exfalso. by apply Hd. }
  rewrite Hf. clear Hf filter.
  assert (Hv : res = check_verdict checker_filter w wtx require_mine)
    by apply PreconditionChecks_check_verdict.
  unfold check_verdict in Hv.
  repeat split; intros; rewrite Hv.
  - by rewrite decide_True.
  - rewrite decide_False by done. by rewrite decide_True.
  - do 2 rewrite decide_False by done. by rewrite decide_True.
  - do 2 rewrite decide_False by done. rewrite decide_False; [done|].
    intros [Hr Hn]. auto.
Qed.

(** ** The search for the change output *)

Lemma count_change_cons (w : CWallet) (o : CTxOut) (outs : list CTxOut) :
  count_change w (o :: outs)
  = ((if IsChange w o then 1 else 0) + count_change w outs)%nat.
Proof. unfold count_change. simpl. by destruct (IsChange w o). Qed.

Lemma count_change_zero (w : CWallet) (outs : list CTxOut) :
  count_change w outs = 0%nat ->
  forall k c, outs !! k = Some c -> IsChange w c = false.
Proof.
  induction outs as [|o outs IH]; intros Hc k c Hk; [done|].
  rewrite count_change_cons in Hc.
  destruct (IsChange w o) eqn:Eo; [lia|].
  destruct k as [|k]; simpl in Hk.
  - by inversion Hk; subst.
  - eapply IH; eauto.
Qed.

Lemma count_change_one_unique (w : CWallet) (outs : list CTxOut) :
  count_change w outs = 1%nat ->
  forall k c k' c',
    outs !! k = Some c -> IsChange w c = true ->
    outs !! k' = Some c' -> IsChange w c' = true -> k = k'.
Proof.
  induction outs as [|o outs IH]; intros Hc k c k' c' Hk Hck Hk' Hck'; [done|].
  rewrite count_change_cons in Hc.
  destruct (IsChange w o) eqn:Eo.
  - assert (Hz : count_change w outs = 0%nat) by lia.
    destruct k as [|k], k' as [|k']; simpl in *; try done.
    + pose proof (count_change_zero _ _ Hz _ _ Hk'). congruence.
    + pose proof (count_change_zero _ _ Hz _ _ Hk). congruence.
    + pose proof (count_change_zero _ _ Hz _ _ Hk). congruence.
  - destruct k as [|k], k' as [|k']; simpl in *;
      try (inversion Hk; subst; congruence);
      try (inversion Hk'; subst; congruence).
    f_equal. eapply IH; eauto.
Qed.

Lemma count_change_delete (w : CWallet) (outs : list CTxOut) (k : nat) (c : CTxOut) :
  outs !! k = Some c -> IsChange w c = true ->
  count_change w (delete k outs) = (count_change w outs - 1)%nat.
Proof.
  revert k. induction outs as [|o outs IH]; intros k Hk Hc; [done|].
  destruct k as [|k]; simpl in *.
  - inversion Hk; subst. rewrite count_change_cons, Hc. lia.
  - rewrite !count_change_cons, (IH k Hk Hc).
    assert (1 <= count_change w outs)%nat; [|lia].
    clear IH. revert k Hk. induction outs as [|o' outs IH']; intros k Hk; [done|].
    rewrite count_change_cons. destruct k; simpl in Hk.
    + inversion Hk; subst. rewrite Hc. lia.
    + specialize (IH' _ Hk). lia.
Qed.

(** Once a change output has been seen, the loop only checks that no other
    one follows. *)
Lemma find_change_output_found (w : CWallet) (outs : list CTxOut) (i n0 : Z) :
  n0 <> -1 ->
  find_change_output w outs i n0
  = if decide (count_change w outs = 0%nat) then Some n0 else None.
Proof.
  intros Hn. revert i. induction outs as [|o outs IH]; intros i; [done|].
  cbn [find_change_output]. rewrite count_change_cons. destruct (IsChange w o).
  - destruct (Z.eqb_spec n0 (-1)); [done|]. cbn [negb].
    by rewrite decide_False by lia.
  - rewrite IH. by cbn [Nat.add].
Qed.

(** From a fresh start the loop returns -1 without change output, the
    position of the single change output, and stops on a second one. *)
Lemma find_change_output_fresh (w : CWallet) (outs : list CTxOut) (i : Z) :
  0 <= i ->
  match find_change_output w outs i (-1) with
  | None => (2 <= count_change w outs)%nat
  | Some n =>
      (n = -1 /\ count_change w outs = 0%nat)
      \/ (exists k c, n = i + Z.of_nat k /\ outs !! k = Some c
                      /\ IsChange w c = true /\ count_change w outs = 1%nat)
  end.
Proof.
  revert i. induction outs as [|o outs IH]; intros i Hi; simpl.
  { by left. }
  rewrite count_change_cons. destruct (IsChange w o) eqn:Eo; simpl.
  - rewrite find_change_output_found by lia.
    case_decide as Hz.
    + right. exists 0%nat, o. simpl. repeat split; auto; lia.
    + lia.
  - specialize (IH (i + 1) ltac:(lia)).
    destruct (find_change_output w outs (i + 1) (-1)) as [n|]; [|lia].
    destruct IH as [[-> Hz]|(k & c & -> & Hk & Hc & H1)].
    + by left.
    + right. exists (S k), c. simpl. repeat split; auto; lia.
Qed.

Lemma find_change_output_none (w : CWallet) (outs : list CTxOut) :
  count_change w outs = 0%nat -> find_change_output w outs 0 (-1) = Some (-1).
Proof.
  intros Hz. pose proof (find_change_output_fresh w outs 0 ltac:(lia)) as Hf.
  destruct (find_change_output w outs 0 (-1)) as [n|]; [|lia].
  destruct Hf as [[-> _]|(k & c & _ & _ & _ & ?)]; [done|lia].
Qed.

Lemma find_change_output_many (w : CWallet) (outs : list CTxOut) :
  (2 <= count_change w outs)%nat -> find_change_output w outs 0 (-1) = None.
Proof.
  intros Hz. pose proof (find_change_output_fresh w outs 0 ltac:(lia)) as Hf.
  destruct (find_change_output w outs 0 (-1)) as [n|]; [|done].
  destruct Hf as [[_ ?]|(k & c & _ & _ & _ & ?)]; lia.
Qed.

Lemma find_change_output_single (w : CWallet) (outs : list CTxOut) (k : nat) (c : CTxOut) :
  count_change w outs = 1%nat -> outs !! k = Some c -> IsChange w c = true ->
  find_change_output w outs 0 (-1) = Some (Z.of_nat k).
Proof.
  intros H1 Hk Hc. pose proof (find_change_output_fresh w outs 0 ltac:(lia)) as Hf.
  destruct (find_change_output w outs 0 (-1)) as [n|]; [|lia].
  destruct Hf as [[_ ?]|(k' & c' & -> & Hk' & Hc' & _)]; [lia|].
  f_equal. rewrite (count_change_one_unique w outs H1 k c k' c'); auto.
Qed.

(** ** The total-bump builder *)

(** C6. In a successful total-bump the single change output is shrunk by
    [delta = new_fee - old_fee]; when the shrunk value is at or below the
    dust threshold the output is erased, no change output is left, and the
    final fee is [old_fee + delta] plus the discarded (shrunk) value;
    otherwise the output stays in place with its value lowered by exactly
    [delta] and the fee is [old_fee + delta]. *)
Theorem total_bump_shrinks_or_folds_change (wallet : CWallet) (txid : uint256)
    (coin_control : CCoinControl) (args out : BumpArgs) :
  CreateTotalBumpTransaction wallet txid coin_control args = Returns (OK, out) ->
  exists wtx k change,
    mapWallet wallet !! txid = Some wtx
    /\ vpout (tx wtx) !! k = Some change
    /\ IsChange wallet change = true
    /\ count_change wallet (vpout (tx wtx)) = 1%nat
    /\ old_fee out = total_bump_old_fee wallet wtx
    /\ let priced :=
         fst (total_bump_pricing wallet wtx coin_control
                (CalculateMaximumSignedTxSize wallet (tx wtx) None)) in
       let delta := priced - old_fee out in
       let shrunk := SetValue change (nValue change - delta) in
       0 < delta <= nValue change
       /\ if decide (nValue shrunk <= GetDustThreshold shrunk (GetDiscardRate wallet))
          then vpout (mtx out) = delete k (vpout (tx wtx))
               /\ count_change wallet (vpout (mtx out)) = 0%nat
               /\ new_fee out = old_fee out + delta + nValue shrunk
          else vpout (mtx out) = <[k := shrunk]> (vpout (tx wtx))
               /\ vpout (mtx out) !! k = Some shrunk
               /\ new_fee out = old_fee out + delta.
Proof.
  intros Hrun. unfold CreateTotalBumpTransaction in Hrun.
  destruct (IsParticlWallet wallet); [|discriminate]. cbn [negb] in Hrun.
  destruct (mapWallet wallet !! txid) as [wtx|] eqn:Hwtx; [|discriminate].
  destruct (PreconditionChecks wallet wtx true []) as [result errs] eqn:Hpre.
  destruct (bool_decide_reflect (result = OK)) as [->|Hne];
    [|inversion Hrun; congruence].
  cbn [negb] in Hrun.
  pose proof (find_change_output_fresh wallet (vpout (tx wtx)) 0 ltac:(lia)) as Hfind.
  destruct (find_change_output wallet (vpout (tx wtx)) 0 (-1)) as [nOutput|];
    [|discriminate].
  destruct (Z.eqb_spec nOutput (-1)) as [|Hn]; [discriminate|].
  destruct Hfind as [[? _]|(k & change & -> & Hk & Hc & H1)]; [done|].
  destruct (CalculateMaximumSignedTxSize wallet (tx wtx) None <? 0); [discriminate|].
  destruct (total_bump_pricing wallet wtx coin_control
              (CalculateMaximumSignedTxSize wallet (tx wtx) None))
    as [new_fee1 nNewFeeRate] eqn:Hprice.
  destruct (m_default_max_tx_fee wallet <? new_fee1); [discriminate|].
  destruct (GetFeePerK nNewFeeRate <? GetFeePerK (mempoolMinFee (chain wallet)));
    [discriminate|].
  destruct (Z.ltb_spec 0 (new_fee1 - total_bump_old_fee wallet wtx)) as [Hd|];
    [|discriminate]. cbn [negb] in Hrun.
  replace (Z.to_nat (0 + Z.of_nat k)) with k in Hrun by lia.
  rewrite Hk in Hrun.
  destruct (Z.ltb_spec (nValue change) (new_fee1 - total_bump_old_fee wallet wtx))
    as [|Hv]; [discriminate|].
  exists wtx, k, change. rewrite Hprice. cbn [fst].
  set (delta := new_fee1 - total_bump_old_fee wallet wtx) in *.
  set (shrunk := SetValue change (nValue change - delta)) in *.
  assert (Hlen : (k < length (vpout (tx wtx)))%nat) by (by eapply lookup_lt_Some).
  destruct (Z.leb_spec (nValue shrunk) (GetDustThreshold shrunk (GetDiscardRate wallet)))
    as [Hdust|Hdust];
    destruct (negb (default (m_signal_rbf wallet) (m_signal_bip125_rbf coin_control)));
    inversion Hrun; subst out; clear Hrun;
    cbn [old_fee new_fee mtx vpout with_vin with_vpout];
    fold delta; fold shrunk;
    do 5 (split; [done|]).
  all: (split; [lia|]);
    case_decide; try lia.
  all: repeat split; auto; try lia.
  all: try (erewrite count_change_delete by eauto; lia).
  all: try (by apply list_lookup_insert_eq).
  all: subst shrunk delta; cbn [SetValue nValue]; lia.
Qed.

(** C7. A total-bump that passes the precondition checks fails with
    WALLET_ERROR, leaving the caller's transaction untouched, when the
    original has no change output or more than one.  With
    exactly one change output the checks run in the order of the source:
    inputs that cannot be signed answer INVALID_ADDRESS_OR_KEY before any fee
    is computed; a new fee above the wallet's ceiling, then a new rate below
    the mempool floor, answer WALLET_ERROR with their own diagnostic and leave
    the caller's transaction untouched; a [delta = new_fee - old_fee] that is
    not positive stops at the assertion; and only then does a change value
    below [delta] answer WALLET_ERROR with the too-small-to-bump diagnostic,
    the caller's transaction being by then the unmodified copy of the
    original. *)
Theorem total_bump_needs_one_sufficient_change (wallet : CWallet) (txid : uint256)
    (coin_control : CCoinControl) (args : BumpArgs) (wtx : CWalletTx) :
  IsParticlWallet wallet = true ->
  mapWallet wallet !! txid = Some wtx ->
  fst (PreconditionChecks wallet wtx true []) = OK ->
  let run := CreateTotalBumpTransaction wallet txid coin_control args in
  let size := CalculateMaximumSignedTxSize wallet (tx wtx) None in
  let priced := total_bump_pricing wallet wtx coin_control size in
  let old := total_bump_old_fee wallet wtx in
  let delta := fst priced - old in
  let ceiling := m_default_max_tx_fee wallet in
  let floor := mempoolMinFee (chain wallet) in
  (count_change wallet (vpout (tx wtx)) = 0%nat ->
   run = Returns (WALLET_ERROR,
                  mkBump ["Transaction does not have a change output"%string]
                         (old_fee args) 0 (mtx args)))
  /\ ((2 <= count_change wallet (vpout (tx wtx)))%nat ->
      run = Returns (WALLET_ERROR,
                     mkBump ["Transaction has multiple change outputs"%string]
                            (old_fee args) 0 (mtx args)))
  /\ (forall k change,
        count_change wallet (vpout (tx wtx)) = 1%nat ->
        vpout (tx wtx) !! k = Some change ->
        IsChange wallet change = true ->
        (size < 0 ->
         run = Returns (INVALID_ADDRESS_OR_KEY,
                        mkBump ["Transaction contains inputs that cannot be signed"%string]
                               (old_fee args) 0 (mtx args)))
        /\ (0 <= size -> ceiling < fst priced ->
            run = Returns (WALLET_ERROR,
                           mkBump [("Specified or calculated fee "
                                    +:+ FormatMoney (fst priced)
                                    +:+ " is too high (cannot be higher than maxTxFee "
                                    +:+ FormatMoney ceiling +:+ ")")%string]
                                  old (fst priced) (mtx args)))
        /\ (0 <= size -> fst priced <= ceiling ->
            GetFeePerK (snd priced) < GetFeePerK floor ->
            run = Returns (WALLET_ERROR,
                           mkBump [("New fee rate ("
                                    +:+ FormatMoney (GetFeePerK (snd priced))
                                    +:+ ") is lower than the minimum fee rate ("
                                    +:+ FormatMoney (GetFeePerK floor)
                                    +:+ ") to get into the mempool -- the totalFee value should be at least "
                                    +:+ FormatMoney (GetFee floor size)
                                    +:+ " or the settxfee value should be at least "
                                    +:+ FormatMoney (GetFeePerK floor)
                                    +:+ " to add transaction")%string]
                                  old (fst priced) (mtx args)))
        /\ (0 <= size -> fst priced <= ceiling ->
            GetFeePerK floor <= GetFeePerK (snd priced) ->
            delta <= 0 ->
            run = Aborts)
        /\ (0 <= size -> fst priced <= ceiling ->
            GetFeePerK floor <= GetFeePerK (snd priced) ->
            0 < delta ->
            nValue change < delta ->
            run = Returns (WALLET_ERROR,
                           mkBump ["Change output is too small to bump the fee"%string]
                                  old (fst priced) (tx wtx)))).
Proof.
  intros Hp Hwtx Hpre run size priced old delta ceiling floor.
  pose proof (PreconditionChecks_errors wallet wtx true []) as Herrs.
  destruct (PreconditionChecks wallet wtx true []) as [result errs] eqn:Hchk.
  cbn [fst snd] in Hpre, Herrs. subst result. subst errs.
  assert (Hrun : run = CreateTotalBumpTransaction wallet txid coin_control args)
    by reflexivity.
  clearbody run. rewrite Hrun. clear Hrun run.
  unfold CreateTotalBumpTransaction.
  rewrite Hp, Hwtx, Hchk. cbn [negb].
  rewrite bool_decide_true by done. cbn [negb].
  split; [|split].
  - intros H0. by rewrite find_change_output_none by done.
  - intros H2. by rewrite find_change_output_many by done.
  - intros k change H1 Hk Hc.
    rewrite (find_change_output_single wallet _ k change) by done.
    destruct (Z.eqb_spec (Z.of_nat k) (-1)); [lia|].
    fold size. fold priced. fold old. fold ceiling. fold floor.
    subst delta. clearbody size priced old ceiling floor.
    destruct priced as [new_fee1 nNewFeeRate]. cbn [fst snd].
    destruct (Z.ltb_spec size 0).
    { repeat split; intros; try lia. }
    destruct (Z.ltb_spec ceiling new_fee1).
    { repeat split; intros; try lia. }
    destruct (Z.ltb_spec (GetFeePerK nNewFeeRate) (GetFeePerK floor)).
    { repeat split; intros; try lia. }
    destruct (Z.ltb_spec 0 (new_fee1 - old)); cbn [negb].
    2:{ repeat split; intros; try lia. }
    rewrite Nat2Z.id, Hk.
    repeat split; intros; try lia.
    destruct (Z.ltb_spec (nValue change) (new_fee1 - old)); [done|lia].
Qed.

(** ** The previous-output lookup of the rate-bump builder *)

Lemma request_coins_acc (ins : list CTxIn) (m : gmap COutPoint Coin) (o : COutPoint) :
  foldl (fun coins txin =>
           match coins !! prevout txin with
           | Some _ => coins
           | None => <[prevout txin := Coin_empty]> coins
           end) m ins !! o
  = match m !! o with
    | Some c => Some c
    | None => if decide (o ∈ prevout <$> ins) then Some Coin_empty else None
    end.
Proof.
  revert m. induction ins as [|txin ins IH]; intros m; cbn [foldl].
  { destruct (m !! o); [done|]. case_decide as Hd; [|done].
    rewrite fmap_nil in Hd. by apply elem_of_nil in Hd. }
  rewrite IH, fmap_cons. destruct (m !! prevout txin) as [c|] eqn:Hm.
  - destruct (m !! o) as [c'|] eqn:Ho; [done|].
    assert (o <> prevout txin) by congruence.
    repeat case_decide; try done; exfalso;
      repeat match goal with
             | Hx : _ ∈ _ :: _ |- _ => apply elem_of_cons in Hx as [?|?]
             | Hx : ¬ _ ∈ _ :: _ |- _ => apply not_elem_of_cons in Hx as [? ?]
             end; done.
  - destruct (decide (o = prevout txin)) as [->|Hne].
    + rewrite lookup_insert_eq, Hm. rewrite decide_True; [done|]. by left.
    + rewrite lookup_insert_ne by done.
      destruct (m !! o); [done|].
      repeat case_decide; try done; exfalso;
        repeat match goal with
               | Hx : _ ∈ _ :: _ |- _ => apply elem_of_cons in Hx as [?|?]
               | Hx : ¬ _ ∈ _ :: _ |- _ => apply not_elem_of_cons in Hx as [? ?]
               end; done.
Qed.

Lemma coins_after_lookup (w : CWallet) (ins : list CTxIn) (txin : CTxIn) :
  txin ∈ ins ->
  findCoins (chain w) (request_coins ins) !! prevout txin
  = Some (fetched w (prevout txin)).
Proof.
  intros Hin. unfold findCoins, request_coins, fetched.
  rewrite map_lookup_imap, request_coins_acc, lookup_empty.
  rewrite decide_True; [done|]. by apply list_elem_of_fmap_2.
Qed.

Lemma fetched_IsNull (w : CWallet) (o : COutPoint) :
  CTxOut_IsNull (coin_out (fetched w o)) = negb (coin_located w o).
Proof.
  unfold fetched, coin_located. destruct (findCoin (chain w) o); simpl.
  - by rewrite negb_involutive.
  - done.
Qed.

Lemma first_missing_Some (w : CWallet) (ins : list CTxIn) (txin : CTxIn) :
  first_missing w ins = Some txin ->
  txin ∈ ins /\ coin_located w (prevout txin) = false.
Proof.
  induction ins as [|a ins IH]; simpl; [done|].
  destruct (coin_located w (prevout a)) eqn:Ha.
  - intros Hf. destruct (IH Hf). split; [by right|done].
  - intros [= ->]. split; [by left|done].
Qed.

Lemma first_missing_None (w : CWallet) (ins : list CTxIn) :
  first_missing w ins = None <->
  Forall (fun txin => coin_located w (prevout txin) = true) ins.
Proof.
  induction ins as [|a ins IH]; simpl; [by split; auto|].
  destruct (coin_located w (prevout a)) eqn:Ha.
  - rewrite IH. split; [by constructor|]. by inversion 1.
  - split; [done|]. inversion 1; congruence.
Qed.

Section Harvest.
Variables (w : CWallet) (coins : gmap COutPoint Coin).

Lemma covers_cons (a : CTxIn) (ins : list CTxIn) :
  covers w coins (a :: ins) ->
  coins !! prevout a = Some (fetched w (prevout a)) /\ covers w coins ins.
Proof.
  intros Hc. split; [apply Hc; by left|]. intros t Ht. apply Hc. by right.
Qed.

Lemma harvest_inputs_outcome (ins : list CTxIn) (cc : CCoinControl)
    (v : CAmount) (so : list CTxOut) :
  covers w coins ins ->
  match first_missing w ins with
  | Some txin =>
      harvest_inputs w coins ins cc v so
      = Returns (inl (already_spent_msg (prevout txin)))
  | None =>
      exists cc' v' so',
        harvest_inputs w coins ins cc v so = Returns (inr (cc', v', so'))
        /\ m_feerate cc' = m_feerate cc
  end.
Proof.
  revert cc v so. induction ins as [|a ins IH]; intros cc v so Hc; simpl.
  { eauto. }
  apply covers_cons in Hc as [Ha Hc]. rewrite Ha, fetched_IsNull.
  destruct (coin_located w (prevout a)); simpl; [|done].
  specialize (IH (if IsMine_outpoint w (prevout a)
                  then Select cc (prevout a)
                  else SelectExternal cc (prevout a) (coin_out (fetched w (prevout a))))
                 (v + nValue (coin_out (fetched w (prevout a))))
                 (so ++ [coin_out (fetched w (prevout a))]) Hc).
  destruct (first_missing w ins); [done|].
  destruct IH as (cc' & v' & so' & -> & Hr). eexists _, _, _. split; [done|].
  rewrite Hr. by destruct (IsMine_outpoint w (prevout a)).
Qed.

Lemma estimate_input_weights_outcome (t : CTransaction) (ins : list CTxIn)
    (i : nat) (cc : CCoinControl) :
  covers w coins ins ->
  exists cc',
    estimate_input_weights t coins ins i cc = Returns cc'
    /\ m_feerate cc' = m_feerate cc.
Proof.
  revert i cc. induction ins as [|a ins IH]; intros i cc Hc; simpl.
  { eauto. }
  apply covers_cons in Hc as [Ha Hc]. rewrite Ha.
  edestruct (IH (S i)) as (cc' & -> & Hr); [done|].
  eexists. split; [done|]. rewrite Hr.
  by destruct (IsExternalSelected cc (prevout a)).
Qed.
End Harvest.

(** ** The rate-bump builder *)

Lemma coins_cover_inputs (w : CWallet) (ins : list CTxIn) :
  covers w (findCoins (chain w) (request_coins ins)) ins.
Proof. intros txin Hin. by apply coins_after_lookup. Qed.

(** A missing previous output ends the build before anything else is
    looked at. *)
Lemma rate_bump_prepare_missing (wallet : CWallet) (txid : uint256)
    (coin_control : CCoinControl) (args : BumpArgs) (require_mine : bool)
    (wtx : CWalletTx) (txin : CTxIn) :
  mapWallet wallet !! txid = Some wtx ->
  first_missing wallet (vin (tx wtx)) = Some txin ->
  rate_bump_prepare wallet txid coin_control args require_mine
  = Returns (inl (MISC_ERROR,
                  mkBump [already_spent_msg (prevout txin)]
                         (old_fee args) (new_fee args) (mtx args))).
Proof.
  intros Hwtx Hmiss. unfold rate_bump_prepare. rewrite Hwtx.
  pose proof (harvest_inputs_outcome wallet _ (vin (tx wtx)) coin_control 0 []
                (coins_cover_inputs wallet (vin (tx wtx)))) as Hh.
  rewrite Hmiss in Hh. by rewrite Hh.
Qed.

(** With every previous output located, the build goes on to the
    precondition checks, and from there to the guard on Particl wallets. *)
Lemma rate_bump_prepare_located (wallet : CWallet) (txid : uint256)
    (coin_control : CCoinControl) (args : BumpArgs) (require_mine : bool)
    (wtx : CWalletTx) :
  mapWallet wallet !! txid = Some wtx ->
  first_missing wallet (vin (tx wtx)) = None ->
  (fst (PreconditionChecks wallet wtx require_mine []) <> OK ->
   rate_bump_prepare wallet txid coin_control args require_mine
   = Returns (inl (fst (PreconditionChecks wallet wtx require_mine []),
                   mkBump (snd (PreconditionChecks wallet wtx require_mine []))
                          (old_fee args) (new_fee args) (mtx args))))
  /\ (fst (PreconditionChecks wallet wtx require_mine []) = OK ->
      IsParticlWallet wallet = true ->
      rate_bump_prepare wallet txid coin_control args require_mine = Aborts).
Proof.
  intros Hwtx Hmiss. unfold rate_bump_prepare. rewrite Hwtx.
  pose proof (harvest_inputs_outcome wallet _ (vin (tx wtx)) coin_control 0 []
                (coins_cover_inputs wallet (vin (tx wtx)))) as Hh.
  rewrite Hmiss in Hh. destruct Hh as (cc1 & v & so & -> & _).
  destruct (estimate_input_weights_outcome wallet _ (tx wtx) (vin (tx wtx)) 0%nat cc1
              (coins_cover_inputs wallet (vin (tx wtx)))) as (cc2 & -> & _).
  destruct (PreconditionChecks wallet wtx require_mine []) as [result errs].
  cbn [fst snd]. split.
  - intros Hne. by rewrite bool_decide_false.
  - intros -> Hp. rewrite bool_decide_true by done. cbn [negb]. by rewrite Hp.
Qed.

Lemma select_all_inputs_selected (ins : list CTxIn) (cc : CCoinControl) (o : COutPoint) :
  o ∈ m_selected_inputs cc \/ o ∈ prevout <$> ins ->
  o ∈ m_selected_inputs (select_all_inputs ins cc).
Proof.
  unfold select_all_inputs. revert cc.
  induction ins as [|a ins IH]; intros cc Ho; cbn [foldl].
  - destruct Ho as [?|Ho]; [done|]. rewrite fmap_nil in Ho. by apply elem_of_nil in Ho.
  - apply IH. rewrite fmap_cons in Ho. cbn [Select m_selected_inputs].
    destruct Ho as [Ho|Ho]; [left; set_solver|].
    apply elem_of_cons in Ho as [->|Ho]; [left; set_solver|by right].
Qed.

(** What an early return of the preparation looks like. *)
Lemma rate_bump_prepare_inl (wallet : CWallet) (txid : uint256)
    (coin_control : CCoinControl) (args : BumpArgs) (require_mine : bool)
    (res : Result) (out : BumpArgs) :
  rate_bump_prepare wallet txid coin_control args require_mine
  = Returns (inl (res, out)) ->
  res <> OK /\ exists d, errors out = [d].
Proof.
  unfold rate_bump_prepare. intros Hrun.
  destruct (mapWallet wallet !! txid) as [wtx|]; [|by inversion Hrun; eauto].
  destruct (harvest_inputs _ _ _ _ _ _) as [[err|[[cc1 v] so]]|];
    [by inversion Hrun; eauto| |done].
  destruct (estimate_input_weights _ _ _ _ _) as [cc2|]; [|done].
  pose proof (PreconditionChecks_errors wallet wtx require_mine []) as Hpe.
  destruct (PreconditionChecks wallet wtx require_mine []) as [result errs].
  cbn [fst snd] in Hpe.
  destruct (bool_decide_reflect (result = OK)) as [->|Hne]; cbn [negb] in Hrun.
  2:{ inversion Hrun; subst. split; [done|]. by destruct res. }
  subst errs.
  destruct (IsParticlWallet wallet); [done|].
  destruct (harvest_outputs _ _ _ _ _) as [[recipients cc3] output_value].
  destruct (m_feerate coin_control).
  - destruct (m_feerate cc3) as [rate|]; [|done].
    pose proof (CheckFeeRate_validate wallet wtx rate
                  (CalculateMaximumSignedTxSize wallet (strip_input_scripts (tx wtx))
                     (Some cc3)) (v - output_value) []) as [Hr He].
    destruct (CheckFeeRate _ _ _ _ _ _) as [r errs']. cbn [fst snd] in Hr, He.
    destruct (bool_decide_reflect (r = OK)) as [->|Hne]; cbn [negb] in Hrun; [done|].
    inversion Hrun; subst. split; [done|].
    rewrite decide_False in He by congruence.
    destruct He as [d ->]. cbn [errors app]. by exists d.
  - rewrite bool_decide_true in Hrun by done. done.
Qed.

(** What a prepared call of the builder looks like. *)
Lemma rate_bump_prepare_inr (wallet : CWallet) (txid : uint256)
    (coin_control : CCoinControl) (args : BumpArgs) (require_mine : bool)
    (call : BuilderCall) (out : BumpArgs) :
  rate_bump_prepare wallet txid coin_control args require_mine
  = Returns (inr (call, out)) ->
  errors out = []
  /\ IsParticlWallet wallet = false
  /\ exists wtx cc,
      mapWallet wallet !! txid = Some wtx
      /\ fst (PreconditionChecks wallet wtx require_mine []) = OK
      /\ call_coin_control call
         = set_min_depth
             (set_allow_other_inputs (select_all_inputs (vin (tx wtx)) cc) true) 1.
Proof.
  unfold rate_bump_prepare. intros Hrun.
  destruct (mapWallet wallet !! txid) as [wtx|]; [|done].
  destruct (harvest_inputs _ _ _ _ _ _) as [[err|[[cc1 v] so]]|]; [done| |done].
  destruct (estimate_input_weights _ _ _ _ _) as [cc2|]; [|done].
  pose proof (PreconditionChecks_errors wallet wtx require_mine []) as Hpe.
  destruct (PreconditionChecks wallet wtx require_mine []) as [result errs] eqn:Hchk.
  cbn [fst snd] in Hpe.
  destruct (bool_decide_reflect (result = OK)) as [->|Hne]; cbn [negb] in Hrun; [|done].
  subst errs.
  destruct (IsParticlWallet wallet); [done|].
  destruct (harvest_outputs _ _ _ _ _) as [[recipients cc3] output_value].
  destruct (m_feerate coin_control).
  - destruct (m_feerate cc3) as [rate|]; [|done].
    pose proof (CheckFeeRate_validate wallet wtx rate
                  (CalculateMaximumSignedTxSize wallet (strip_input_scripts (tx wtx))
                     (Some cc3)) (v - output_value) []) as [Hr He].
    destruct (CheckFeeRate _ _ _ _ _ _) as [r errs']. cbn [fst snd] in Hr, He.
    destruct (bool_decide_reflect (r = OK)) as [->|Hne]; cbn [negb] in Hrun; [|done].
    inversion Hrun; subst. rewrite decide_True in He by congruence. subst errs'.
    cbn [errors call_coin_control]. do 2 (split; [done|]).
    eexists wtx, _. rewrite Hchk. done.
  - rewrite bool_decide_true in Hrun by done. cbn [negb] in Hrun.
    inversion Hrun; subst. cbn [errors call_coin_control]. do 2 (split; [done|]).
    eexists wtx, _. rewrite Hchk. done.
Qed.

(** C1. Whenever the rate-bump builder gets as far as calling the external
    builder, the coin control it hands over has every input of the original
    transaction in its selected set and a minimum depth of 1, and that call
    is the one [CreateRateBumpTransaction] makes. *)
Theorem rate_bump_forces_original_inputs (wallet : CWallet) (txid : uint256)
    (coin_control : CCoinControl) (args : BumpArgs) (require_mine : bool)
    (wtx : CWalletTx) (call : BuilderCall) (args' : BumpArgs) :
  mapWallet wallet !! txid = Some wtx ->
  rate_bump_prepare wallet txid coin_control args require_mine
  = Returns (inr (call, args')) ->
  (forall txin, txin ∈ vin (tx wtx) ->
                IsSelected (call_coin_control call) (prevout txin) = true)
  /\ prevout <$> vin (tx wtx) ⊆ elements (m_selected_inputs (call_coin_control call))
  /\ m_min_depth (call_coin_control call) = 1
  /\ CreateRateBumpTransaction wallet txid coin_control args require_mine
     = Returns (rate_bump_build wallet call args').
Proof.
  intros Hwtx Hrun.
  destruct (rate_bump_prepare_inr _ _ _ _ _ _ _ Hrun)
    as (_ & _ & wtx' & cc & Hwtx' & _ & Hcc).
  assert (wtx' = wtx) by congruence. subst wtx'.
  assert (Hsel : forall txin, txin ∈ vin (tx wtx) ->
                   prevout txin ∈ m_selected_inputs (call_coin_control call)).
  { intros txin Hin. rewrite Hcc. cbn [set_min_depth set_allow_other_inputs m_selected_inputs].
    apply select_all_inputs_selected. right. by apply list_elem_of_fmap_2. }
  split; [|split; [|split]].
  - intros txin Hin. unfold IsSelected. apply bool_decide_eq_true. auto.
  - intros o Ho. apply list_elem_of_fmap in Ho as (txin & -> & Hin).
    apply elem_of_elements. auto.
  - rewrite Hcc. done.
  - unfold CreateRateBumpTransaction. by rewrite Hrun.
Qed.

(** C9 (amended). The previous-output lookup runs before the precondition
    checks: a missing outpoint yields MISC_ERROR naming the first missing
    outpoint whatever the preconditions say; the checker's result is
    returned when every previous output is located; and MISC_ERROR is
    returned only when the lookup fails. *)
Theorem rate_bump_lookup_precedes_preconditions (wallet : CWallet) (txid : uint256)
    (coin_control : CCoinControl) (args : BumpArgs) (require_mine : bool)
    (wtx : CWalletTx) :
  mapWallet wallet !! txid = Some wtx ->
  (forall txin,
      first_missing wallet (vin (tx wtx)) = Some txin ->
      CreateRateBumpTransaction wallet txid coin_control args require_mine
      = Returns (MISC_ERROR,
                 mkBump [already_spent_msg (prevout txin)]
                        (old_fee args) (new_fee args) (mtx args)))
  /\ (first_missing wallet (vin (tx wtx)) = None ->
      fst (PreconditionChecks wallet wtx require_mine []) <> OK ->
      CreateRateBumpTransaction wallet txid coin_control args require_mine
      = Returns (fst (PreconditionChecks wallet wtx require_mine []),
                 mkBump (snd (PreconditionChecks wallet wtx require_mine []))
                        (old_fee args) (new_fee args) (mtx args)))
  /\ (forall out,
        CreateRateBumpTransaction wallet txid coin_control args require_mine
        = Returns (MISC_ERROR, out) ->
        exists txin, txin ∈ vin (tx wtx) /\ coin_located wallet (prevout txin) = false).
Proof.
  intros Hwtx. split; [|split].
  - intros txin Hmiss. unfold CreateRateBumpTransaction.
    by rewrite (rate_bump_prepare_missing _ _ _ _ _ _ _ Hwtx Hmiss).
  - intros Hall Hne. unfold CreateRateBumpTransaction.
    destruct (rate_bump_prepare_located wallet txid coin_control args require_mine
                wtx Hwtx Hall) as [Hrej _].
    by rewrite (Hrej Hne).
  - intros out Hrun.
    destruct (first_missing wallet (vin (tx wtx))) as [txin|] eqn:Hmiss.
    { exists txin. by apply first_missing_Some. }
    exfalso. unfold CreateRateBumpTransaction in Hrun.
    destruct (rate_bump_prepare_located wallet txid coin_control args require_mine
                wtx Hwtx Hmiss) as [Hrej Hab].
    pose proof (PreconditionChecks_never_misc wallet wtx require_mine []) as [Hnm _].
    destruct (decide (fst (PreconditionChecks wallet wtx require_mine []) = OK)) as [Hok|Hno].
    + destruct (rate_bump_prepare wallet txid coin_control args require_mine)
        as [[[r o]|[call o]]|] eqn:Hprep; [| |done].
      * inversion Hrun; subst.
        unfold rate_bump_prepare in Hprep. rewrite Hwtx in Hprep.
        pose proof (harvest_inputs_outcome wallet _ (vin (tx wtx)) coin_control 0 []
                      (coins_cover_inputs wallet (vin (tx wtx)))) as Hh.
        rewrite Hmiss in Hh. destruct Hh as (cc1 & v & so & Hh & _).
        rewrite Hh in Hprep.
        destruct (estimate_input_weights _ _ _ _ _) as [cc2|]; [|done].
        destruct (PreconditionChecks wallet wtx require_mine []) as [result errs].
        cbn [fst] in *. subst result.
        rewrite bool_decide_true in Hprep by done. cbn [negb] in Hprep.
        destruct (IsParticlWallet wallet); [done|].
        destruct (harvest_outputs _ _ _ _ _) as [[recipients cc3] output_value].
        destruct (m_feerate coin_control).
        -- destruct (m_feerate cc3) as [rate|]; [|done].
           pose proof (CheckFeeRate_validate wallet wtx rate
                         (CalculateMaximumSignedTxSize wallet
                            (strip_input_scripts (tx wtx)) (Some cc3))
                         (v - output_value) errs) as [Hr _].
           destruct (CheckFeeRate _ _ _ _ _ _) as [r errs']. cbn [fst] in Hr.
           destruct (bool_decide (r = OK)); cbn [negb] in Hprep; [done|].
           assert (Hm : r = MISC_ERROR) by (by inversion Hprep).
           rewrite Hm in Hr. revert Hr.
           unfold validate_explicit_rate. repeat case_decide; done.
        -- rewrite bool_decide_true in Hprep by done. done.
      * inversion Hrun as [Hb]. unfold rate_bump_build in Hb.
        destruct (CreateTransaction _ _ _ _ _); inversion Hb.
    + rewrite (Hrej Hno) in Hrun. inversion Hrun. congruence.
Qed.

(** C10. On a Particl wallet a rate-bump whose original is found, whose
    previous outputs all resolve and whose preconditions hold stops at the
    failing assertion; so a rate-bump never completes on a Particl wallet.
    On every other wallet the total-bump returns WALLET_ERROR. *)
Theorem particl_guards (wallet : CWallet) (txid : uint256)
    (coin_control : CCoinControl) (args : BumpArgs) (require_mine : bool) :
  (IsParticlWallet wallet = true ->
   (forall wtx,
       mapWallet wallet !! txid = Some wtx ->
       Forall (fun txin => coin_located wallet (prevout txin) = true) (vin (tx wtx)) ->
       fst (PreconditionChecks wallet wtx require_mine []) = OK ->
       CreateRateBumpTransaction wallet txid coin_control args require_mine = Aborts)
   /\ (forall out,
         CreateRateBumpTransaction wallet txid coin_control args require_mine
         <> Returns (OK, out)))
  /\ (IsParticlWallet wallet = false ->
      CreateTotalBumpTransaction wallet txid coin_control args
      = Returns (WALLET_ERROR, mkBump [] (old_fee args) 0 (mtx args))).
Proof.
  split.
  - intros Hp. split.
    + intros wtx Hwtx Hall Hok. apply first_missing_None in Hall.
      destruct (rate_bump_prepare_located wallet txid coin_control args require_mine
                  wtx Hwtx Hall) as [_ Hab].
      unfold CreateRateBumpTransaction. by rewrite (Hab Hok Hp).
    + intros out Hrun. unfold CreateRateBumpTransaction in Hrun.
      destruct (rate_bump_prepare wallet txid coin_control args require_mine)
        as [[[r o]|[call o]]|] eqn:Hprep; [| |done].
      * apply rate_bump_prepare_inl in Hprep as [Hne _]. inversion Hrun. congruence.
      * apply rate_bump_prepare_inr in Hprep as (_ & Hnp & _). congruence.
  - intros Hnp. unfold CreateTotalBumpTransaction. by rewrite Hnp.
Qed.

(** ** Results and diagnostics *)

Lemma total_bump_diagnostics (wallet : CWallet) (txid : uint256)
    (coin_control : CCoinControl) (args : BumpArgs) (res : Result) (out : BumpArgs) :
  IsParticlWallet wallet = true ->
  CreateTotalBumpTransaction wallet txid coin_control args = Returns (res, out) ->
  (res = OK <-> errors out = []).
Proof.
  intros Hp Hrun. unfold CreateTotalBumpTransaction in Hrun.
  rewrite Hp in Hrun. cbn [negb] in Hrun.
  destruct (mapWallet wallet !! txid) as [wtx|]; [|by inversion Hrun].
  pose proof (PreconditionChecks_errors wallet wtx true []) as Hpe.
  destruct (PreconditionChecks wallet wtx true []) as [result errs].
  cbn [fst snd] in Hpe.
  destruct (bool_decide_reflect (result = OK)) as [->|Hne]; cbn [negb] in Hrun.
  2:{ inversion Hrun; subst. cbn [errors].
      destruct res; try done; destruct Hpe as [d ->]; done. }
  subst errs. cbn [app] in Hrun.
  destruct (find_change_output _ _ _ _) as [nOutput|]; [|by inversion Hrun].
  destruct (nOutput =? -1); [by inversion Hrun|].
  destruct (_ <? 0); [by inversion Hrun|].
  destruct (total_bump_pricing _ _ _ _) as [new_fee1 rate].
  destruct (m_default_max_tx_fee wallet <? new_fee1); [by inversion Hrun|].
  destruct (GetFeePerK rate <? _); [by inversion Hrun|].
  destruct (negb (0 <? _)); [done|].
  destruct (vpout (tx wtx) !! Z.to_nat nOutput) as [poutput|]; [|done].
  destruct (nValue poutput <? _); [by inversion Hrun|].
  destruct (_ <=? _); inversion Hrun; done.
Qed.

Lemma rate_bump_diagnostics (wallet : CWallet) (txid : uint256)
    (coin_control : CCoinControl) (args : BumpArgs) (require_mine : bool)
    (res : Result) (out : BumpArgs) :
  CreateRateBumpTransaction wallet txid coin_control args require_mine
  = Returns (res, out) ->
  (res = OK <-> errors out = []).
Proof.
  unfold CreateRateBumpTransaction. intros Hrun.
  destruct (rate_bump_prepare wallet txid coin_control args require_mine)
    as [[[r o]|[call o]]|] eqn:Hprep; [| |done].
  - apply rate_bump_prepare_inl in Hprep as [Hne [d Hd]].
    inversion Hrun; subst. rewrite Hd. done.
  - apply rate_bump_prepare_inr in Hprep as (He & _).
    inversion Hrun as [Hb]. unfold rate_bump_build in Hb. rewrite He in Hb.
    destruct (CreateTransaction _ _ _ _ _); inversion Hb; done.
Qed.

Lemma commit_diagnostics (wallet : CWallet) (txid : uint256)
    (mtx : CMutableTransaction) (errs : list bilingual_str) (bumped : uint256) :
  (fst (CommitTransaction wallet txid mtx errs bumped) <> OK ->
   c_errors (snd (CommitTransaction wallet txid mtx errs bumped)) <> [])
  /\ (fst (CommitTransaction wallet txid mtx errs bumped) = OK ->
      c_errors (snd (CommitTransaction wallet txid mtx errs bumped)) = []
      \/ c_errors (snd (CommitTransaction wallet txid mtx errs bumped))
         = [mark_failed_msg]).
Proof.
  unfold CommitTransaction.
  destruct (bool_decide_reflect (errs = [])) as [->|Hne]; cbn [negb].
  2:{ cbn [fst snd c_errors]. done. }
  destruct (if uint256_IsNull txid then None else mapWallet wallet !! txid)
    as [oldWtx|]; [|by cbn].
  pose proof (PreconditionChecks_errors wallet oldWtx false []) as Hpe.
  destruct (PreconditionChecks wallet oldWtx false []) as [result errs'].
  cbn [fst snd] in Hpe.
  destruct (bool_decide_reflect (result = OK)) as [->|Hne]; cbn [negb].
  2:{ cbn [fst snd c_errors]. split; [|done]. intros _.
      destruct result; try done; destruct Hpe as [d ->]; done. }
  subst errs'. destruct (MarkReplaced _ _ _) as [[] wallet2];
    cbn [negb fst snd c_errors app]; split; auto; done.
Qed.

(** C5 (amended). The rate-bump builder, whenever it returns, and the
    total-bump builder on a Particl wallet return OK exactly when the
    diagnostics list is empty.  A commit that fails carries at least one
    diagnostic; a commit that succeeds carries none, or the single warning
    that the original could not be marked as replaced. *)
Theorem results_and_diagnostics :
  (forall wallet txid coin_control args require_mine res out,
      CreateRateBumpTransaction wallet txid coin_control args require_mine
      = Returns (res, out) ->
      (res = OK <-> errors out = []))
  /\ (forall wallet txid coin_control args res out,
         IsParticlWallet wallet = true ->
         CreateTotalBumpTransaction wallet txid coin_control args = Returns (res, out) ->
         (res = OK <-> errors out = []))
  /\ (forall wallet txid mtx errs bumped res st,
         CommitTransaction wallet txid mtx errs bumped = (res, st) ->
         (res <> OK -> c_errors st <> [])
         /\ (res = OK -> c_errors st = [] \/ c_errors st = [mark_failed_msg])).
Proof.
  split; [|split].
  - intros. by eapply rate_bump_diagnostics.
  - intros. by eapply total_bump_diagnostics.
  - intros wallet txid mtx errs bumped res st Hrun.
    pose proof (commit_diagnostics wallet txid mtx errs bumped) as Hc.
    rewrite Hrun in Hc. exact Hc.
Qed.

(** ** TransactionCanBeBumped *)

(** C8 (amended). For a transaction of the wallet, [TransactionCanBeBumped]
    returns true exactly when it is unconfirmed, signals replaceability, has
    no [replaced_by_txid] entry, has no spending descendant in the wallet or
    the mempool, and all its inputs are owned by the wallet (and, in Particl
    mode, the wallet is a Particl wallet); if any of these fails it returns
    false. *)
Theorem TransactionCanBeBumped_iff_eligible_and_owned (wallet : CWallet)
    (txid : uint256) (wtx : CWalletTx) :
  mapWallet wallet !! txid = Some wtx ->
  TransactionCanBeBumped wallet txid = true <->
  (fParticlMode = true -> IsParticlWallet wallet = true)
  /\ GetTxDepthInMainChain wallet wtx = 0
  /\ SignalsOptInRBF (tx wtx) = true
  /\ mapValue wtx !! "replaced_by_txid"%string = None
  /\ HasWalletSpend wallet (tx wtx) = false
  /\ hasDescendantsInMempool (chain wallet) (wtx_GetHash wtx) = false
  /\ inputs_owned wallet wtx (checker_filter wallet).
Proof.
  intros Hwtx.
  assert (Hchk : bool_decide (fst (PreconditionChecks wallet wtx true []) = OK) = true <->
                 GetTxDepthInMainChain wallet wtx = 0
                 /\ SignalsOptInRBF (tx wtx) = true
                 /\ mapValue wtx !! "replaced_by_txid"%string = None
                 /\ HasWalletSpend wallet (tx wtx) = false
                 /\ hasDescendantsInMempool (chain wallet) (wtx_GetHash wtx) = false
                 /\ inputs_owned wallet wtx (checker_filter wallet)).
  { rewrite bool_decide_eq_true, PreconditionChecks_check_verdict.
    unfold check_verdict. split.
    - intros Hv.
      destruct (decide (has_descendant wallet wtx)) as [|Hnd]; [done|].
      destruct (decide (not_replaceable_now wallet wtx)) as [|Hnr]; [done|].
      destruct (decide (true = true /\ ~ inputs_owned wallet wtx (checker_filter wallet)))
        as [|Hno]; [done|].
      unfold has_descendant, not_replaceable_now in *.
      split; [|split; [|split; [|split; [|split]]]].
      + destruct (decide (GetTxDepthInMainChain wallet wtx = 0)); [done|].
        exfalso. apply Hnr. auto.
      + destruct (SignalsOptInRBF (tx wtx)); [done|]. exfalso. apply Hnr. auto.
      + destruct (mapValue wtx !! "replaced_by_txid"%string) eqn:Hrep; [|done].
        exfalso. apply Hnr. eauto.
      + destruct (HasWalletSpend wallet (tx wtx)); [|done]. exfalso. apply Hnd. auto.
      + destruct (hasDescendantsInMempool (chain wallet) (wtx_GetHash wtx)); [|done].
        exfalso. apply Hnd. auto.
      + destruct (decide (inputs_owned wallet wtx (checker_filter wallet))); [done|].
        exfalso. apply Hno. done.
    - intros (Hd & Hs & Hr & Hw & Hm & Ho).
      rewrite decide_False by (intros [?|?]; congruence).
      rewrite decide_False by (intros [?|[?|[? ?]]]; congruence).
      rewrite decide_False by (intros [_ Hn]; done).
      done. }
  unfold TransactionCanBeBumped, GetParticlWallet.
  destruct fParticlMode.
  - destruct (IsParticlWallet wallet).
    + rewrite Hwtx, Hchk. split; [by intros ?|by intros [_ ?]].
    + split; [done|]. intros [Hp _]. by specialize (Hp eq_refl).
  - rewrite Hwtx, Hchk. split; [by intros ?|by intros [_ ?]].
Qed.

(** * Further properties of the engine *)

(** ** The checker on [mapRecords] records *)

Lemma PreconditionChecks_record_not_ok (pw : CWallet) (hash : uint256)
    (rtx : CTransactionRecord) (errs : list bilingual_str) :
  fst (PreconditionChecks_record pw hash rtx errs) <> OK.
Proof.
  unfold PreconditionChecks_record.
  repeat match goal with
         | |- context [if ?b then _ else _] => destruct b
         end; done.
Qed.

(** X1. The checker for [mapRecords] records never accepts: it answers
    INVALID_PARAMETER exactly when the record has a descendant in the wallet
    or the mempool and WALLET_ERROR otherwise, with one more diagnostic. *)
Theorem PreconditionChecks_record_never_accepts (pw : CWallet) (hash : uint256)
    (rtx : CTransactionRecord) (errs : list bilingual_str) :
  fst (PreconditionChecks_record pw hash rtx errs) <> OK
  /\ (fst (PreconditionChecks_record pw hash rtx errs) = INVALID_PARAMETER <->
      HasWalletSpend_record pw hash rtx = true
      \/ hasDescendantsInMempool (chain pw) hash = true)
  /\ (fst (PreconditionChecks_record pw hash rtx errs) <> INVALID_PARAMETER ->
      fst (PreconditionChecks_record pw hash rtx errs) = WALLET_ERROR)
  /\ exists d, snd (PreconditionChecks_record pw hash rtx errs) = errs ++ [d].
Proof.
  unfold PreconditionChecks_record.
  destruct (HasWalletSpend_record pw hash rtx);
    [|destruct (hasDescendantsInMempool (chain pw) hash);
      [|destruct (negb (GetDepthInMainChain_record pw rtx =? 0))]];
    cbn [fst snd]; (split; [done|]); (split; [|split; [done|eauto]]);
    split; try done; auto; intros [?|?]; done.
Qed.

(** ** TransactionCanBeBumped *)

(** X2. A transaction id that is not a key of [mapWallet] cannot be bumped,
    in either mode, even when [mapRecords] holds a record for it. *)
Theorem TransactionCanBeBumped_needs_wallet_tx (wallet : CWallet) (txid : uint256) :
  mapWallet wallet !! txid = None ->
  TransactionCanBeBumped wallet txid = false.
Proof.
  intros Hnone. unfold TransactionCanBeBumped, GetParticlWallet.
  destruct fParticlMode; [|by rewrite Hnone].
  destruct (IsParticlWallet wallet); [|done]. rewrite Hnone.
  destruct (mapRecords wallet !! txid) as [rtx|]; [|done].
  apply bool_decide_eq_false.
  apply PreconditionChecks_record_not_ok.
Qed.

(** ** Ownership is the last precondition *)

Lemma PreconditionChecks_ok_inv (w : CWallet) (wtx : CWalletTx) (rm : bool)
    (errs : list bilingual_str) :
  fst (PreconditionChecks w wtx rm errs) = OK ->
  HasWalletSpend w (tx wtx) = false
  /\ hasDescendantsInMempool (chain w) (wtx_GetHash wtx) = false
  /\ GetTxDepthInMainChain w wtx = 0
  /\ SignalsOptInRBF (tx wtx) = true
  /\ mapValue wtx !! "replaced_by_txid"%string = None
  /\ (rm = true -> AllInputsMine w (tx wtx) (ownership_filter w) = true).
Proof.
  unfold PreconditionChecks.
  destruct (HasWalletSpend w (tx wtx)); [done|].
  destruct (hasDescendantsInMempool (chain w) (wtx_GetHash wtx)); [done|].
  destruct (Z.eqb_spec (GetTxDepthInMainChain w wtx) 0); [|done].
  destruct (SignalsOptInRBF (tx wtx)); [|done].
  destruct (mapValue wtx !! "replaced_by_txid"%string); [done|].
  destruct rm, (AllInputsMine w (tx wtx) (ownership_filter w)); done.
Qed.

Lemma PreconditionChecks_drop_ownership (w : CWallet) (wtx : CWalletTx)
    (errs : list bilingual_str) :
  (fst (PreconditionChecks w wtx true errs) = OK ->
   PreconditionChecks w wtx false errs = (OK, errs))
  /\ (fst (PreconditionChecks w wtx false errs) <> OK ->
      PreconditionChecks w wtx true errs = PreconditionChecks w wtx false errs).
Proof.
  unfold PreconditionChecks.
  destruct (HasWalletSpend w (tx wtx)); [done|].
  destruct (hasDescendantsInMempool (chain w) (wtx_GetHash wtx)); [done|].
  destruct (negb (GetTxDepthInMainChain w wtx =? 0)); [done|].
  destruct (negb (SignalsOptInRBF (tx wtx))); [done|].
  destruct (mapValue wtx !! "replaced_by_txid"%string); [done|].
  cbn [andb fst]. split; [done|]. intros Hne. by destruct Hne.
Qed.

(** X3. Requiring ownership only adds a last check: a transaction accepted
    with [require_mine] is accepted without it, leaving the diagnostics as
    they were, and a transaction rejected without it is rejected in the same
    way, with the same diagnostic, with it. *)
Theorem PreconditionChecks_ownership_checked_last (w : CWallet) (wtx : CWalletTx)
    (errs : list bilingual_str) :
  (fst (PreconditionChecks w wtx true errs) = OK ->
   PreconditionChecks w wtx false errs = (OK, errs))
  /\ (fst (PreconditionChecks w wtx false errs) <> OK ->
      PreconditionChecks w wtx true errs = PreconditionChecks w wtx false errs)
  /\ (fst (PreconditionChecks w wtx false errs) = OK ->
      fst (PreconditionChecks w wtx true errs) <> OK ->
      AllInputsMine w (tx wtx) (ownership_filter w) = false
      /\ PreconditionChecks w wtx true errs
         = (WALLET_ERROR,
            errs ++ ["Transaction contains inputs that don't belong to this wallet"%string])).
Proof.
  destruct (PreconditionChecks_drop_ownership w wtx errs) as [H1 H2].
  split; [exact H1|]. split; [exact H2|].
  intros Hok Hno. apply PreconditionChecks_ok_inv in Hok
    as (Hs & Hm & Hd & Hr & Hv & _).
  unfold PreconditionChecks in *. rewrite Hs, Hm, Hd, Hr, Hv in *.
  cbn [Z.eqb negb andb] in *.
  destruct (AllInputsMine w (tx wtx) (ownership_filter w)); cbn [negb fst] in *; done.
Qed.

(** ** CommitTransaction *)

Lemma CommitTransaction_passes (wallet : CWallet) (txid : uint256)
    (mtx : CMutableTransaction) (bumped : uint256) (oldWtx : CWalletTx) :
  txid <> 0%N ->
  mapWallet wallet !! txid = Some oldWtx ->
  fst (PreconditionChecks wallet oldWtx false []) = OK ->
  fst (CommitTransaction wallet txid mtx [] bumped) = OK
  /\ bumped_txid (snd (CommitTransaction wallet txid mtx [] bumped)) = GetHash mtx.
Proof.
  intros Hnz Hwtx Hok. unfold CommitTransaction.
  rewrite bool_decide_true by done. cbn [negb].
  unfold uint256_IsNull. destruct (N.eqb_spec txid 0); [done|]. rewrite Hwtx.
  destruct (PreconditionChecks wallet oldWtx false []) as [r e]. cbn [fst] in Hok.
  subst r. rewrite bool_decide_true by done. cbn [negb].
  by destruct (MarkReplaced _ _ _).
Qed.

(** X4. A transaction that [TransactionCanBeBumped] accepts passes the
    re-check of [CommitTransaction] on the same wallet: a commit under its
    (non-null) id with no pending diagnostics returns OK and reports the hash
    of the committed transaction as the bumped id. *)
Theorem can_be_bumped_then_commit_accepts (wallet : CWallet) (txid : uint256)
    (mtx : CMutableTransaction) (bumped : uint256) :
  TransactionCanBeBumped wallet txid = true ->
  txid <> 0%N ->
  fst (CommitTransaction wallet txid mtx [] bumped) = OK
  /\ bumped_txid (snd (CommitTransaction wallet txid mtx [] bumped)) = GetHash mtx.
Proof.
  intros Hcan Hnz.
  assert (exists wtx, mapWallet wallet !! txid = Some wtx
                      /\ fst (PreconditionChecks wallet wtx true []) = OK)
    as (wtx & Hwtx & Hok).
  { unfold TransactionCanBeBumped, GetParticlWallet in Hcan.
    destruct fParticlMode.
    - destruct (IsParticlWallet wallet); [|done].
      destruct (mapWallet wallet !! txid) as [wtx|].
      + exists wtx. split; [done|]. by apply bool_decide_eq_true in Hcan.
      + destruct (mapRecords wallet !! txid) as [rtx|]; [|done].
        apply bool_decide_eq_true in Hcan.
        by apply PreconditionChecks_record_not_ok in Hcan.
    - destruct (mapWallet wallet !! txid) as [wtx|]; [|done].
      exists wtx. split; [done|]. by apply bool_decide_eq_true in Hcan. }
  apply (CommitTransaction_passes wallet txid mtx bumped wtx Hnz Hwtx).
  destruct (PreconditionChecks_drop_ownership wallet wtx []) as [H1 _].
  by rewrite (H1 Hok).
Qed.

(** X5. A commit that does not return OK changes nothing: the wallet and the
    caller's bumped id are as before.  Pending diagnostics give MISC_ERROR
    and are left as they are; a null or unknown id gives MISC_ERROR with one
    diagnostic. *)
Theorem CommitTransaction_failure_changes_nothing (wallet : CWallet) (txid : uint256)
    (mtx : CMutableTransaction) (errs : list bilingual_str) (bumped : uint256) :
  (fst (CommitTransaction wallet txid mtx errs bumped) <> OK ->
   c_wallet (snd (CommitTransaction wallet txid mtx errs bumped)) = wallet
   /\ bumped_txid (snd (CommitTransaction wallet txid mtx errs bumped)) = bumped)
  /\ (errs <> [] ->
      CommitTransaction wallet txid mtx errs bumped
      = (MISC_ERROR, mkCommit wallet errs bumped))
  /\ (errs = [] -> txid = 0%N \/ mapWallet wallet !! txid = None ->
      CommitTransaction wallet txid mtx errs bumped
      = (MISC_ERROR,
         mkCommit wallet ["Invalid or non-wallet transaction id"%string] bumped)).
Proof.
  unfold CommitTransaction. split; [|split].
  - destruct (bool_decide (errs = [])); cbn [negb]; [|done].
    destruct (if uint256_IsNull txid then None else mapWallet wallet !! txid)
      as [oldWtx|]; [|done].
    destruct (PreconditionChecks wallet oldWtx false errs) as [r e].
    destruct (bool_decide (r = OK)); cbn [negb]; [|done].
    destruct (MarkReplaced _ _ _). done.
  - intros Hne. by rewrite bool_decide_false.
  - intros -> Hid. rewrite bool_decide_true by done. cbn [negb].
    unfold uint256_IsNull.
    destruct Hid as [->|Hnone]; [done|].
    rewrite Hnone. by destruct (txid =? 0)%N.
Qed.

(** ** The change-output search *)

(** X6. The search for the change output, started as the builder starts it,
    stops early exactly when two or more outputs are change, returns -1
    exactly when none is, and otherwise returns the position, inside the
    vector, of the only change output. *)
Theorem find_change_output_outcomes (w : CWallet) (outs : list CTxOut) :
  (find_change_output w outs 0 (-1) = None <-> (2 <= count_change w outs)%nat)
  /\ (find_change_output w outs 0 (-1) = Some (-1) <-> count_change w outs = 0%nat)
  /\ (forall n, find_change_output w outs 0 (-1) = Some n -> n <> -1 ->
        0 <= n < Z.of_nat (length outs)
        /\ count_change w outs = 1%nat
        /\ exists c, outs !! Z.to_nat n = Some c /\ IsChange w c = true
                     /\ forall j c', outs !! j = Some c' -> IsChange w c' = true ->
                                     j = Z.to_nat n).
Proof.
  pose proof (find_change_output_fresh w outs 0 ltac:(lia)) as Hf.
  split; [|split].
  - split; [|apply find_change_output_many].
    intros Hn. by rewrite Hn in Hf.
  - split; [|apply find_change_output_none].
    intros Hn. rewrite Hn in Hf.
    destruct Hf as [[_ ?]|(k & c & ? & _)]; [done|lia].
  - intros n Hn Hne. rewrite Hn in Hf.
    destruct Hf as [[? _]|(k & c & -> & Hk & Hc & H1)]; [done|].
    replace (Z.to_nat (0 + Z.of_nat k)) with k by lia.
    pose proof (lookup_lt_Some _ _ _ Hk).
    split; [lia|]. split; [done|]. exists c. split; [done|]. split; [done|].
    intros j c' Hj Hc'. symmetry.
    by apply (count_change_one_unique w outs H1 k c j c').
Qed.

(** ** The total-bump builder, once more *)

Lemma total_value_delete (outs : list CTxOut) (k : nat) (c : CTxOut) :
  outs !! k = Some c ->
  total_value (delete k outs) = total_value outs - nValue c.
Proof.
  revert k. induction outs as [|o outs IH]; intros k Hk; [done|].
  destruct k as [|k]; simpl in *.
  - inversion Hk; subst. lia.
  - rewrite (IH k Hk). lia.
Qed.

Lemma total_value_insert (outs : list CTxOut) (k : nat) (c c' : CTxOut) :
  outs !! k = Some c ->
  total_value (<[k := c']> outs) = total_value outs - nValue c + nValue c'.
Proof.
  revert k. induction outs as [|o outs IH]; intros k Hk; [done|].
  destruct k as [|k]; simpl in *.
  - inversion Hk; subst. lia.
  - rewrite (IH k Hk). lia.
Qed.

Lemma total_bump_pricing_cases (w : CWallet) (wtx : CWalletTx)
    (coin_control : CCoinControl) (size : Z) :
  let floor :=
    GetFeePerK (CFeeRate_of (total_bump_old_fee w wtx)
                  (GetVirtualTransactionSize (tx wtx)))
    + 1
    + Z.max (GetFeePerK (relayIncrementalFee (chain w))) WALLET_INCREMENTAL_RELAY_FEE in
  let estimate := GetMinimumFee w size coin_control in
  floor <= GetFeePerK (snd (total_bump_pricing w wtx coin_control size))
  /\ (total_bump_pricing w wtx coin_control size
      = (estimate, CFeeRate_of estimate size)
      \/ total_bump_pricing w wtx coin_control size
         = (GetFee (mkFeeRate floor) size, mkFeeRate floor)
         /\ GetFeePerK (CFeeRate_of estimate size) < floor).
Proof.
  intros floor estimate. unfold total_bump_pricing.
  pose proof (total_bump_increment_perK w) as Hi.
  fold estimate. rewrite Hi. fold floor.
  destruct (Z.ltb_spec (GetFeePerK (CFeeRate_of estimate size)) floor);
    cbn [fst snd GetFeePerK]; split; auto; lia.
Qed.

(** Everything a successful total-bump has gone through. *)
Lemma total_bump_ok_shape (wallet : CWallet) (txid : uint256)
    (coin_control : CCoinControl) (args out : BumpArgs) :
  CreateTotalBumpTransaction wallet txid coin_control args = Returns (OK, out) ->
  exists wtx k change fee rate,
    mapWallet wallet !! txid = Some wtx
    /\ vpout (tx wtx) !! k = Some change
    /\ IsChange wallet change = true
    /\ count_change wallet (vpout (tx wtx)) = 1%nat
    /\ 0 <= CalculateMaximumSignedTxSize wallet (tx wtx) None
    /\ total_bump_pricing wallet wtx coin_control
         (CalculateMaximumSignedTxSize wallet (tx wtx) None) = (fee, rate)
    /\ fee <= m_default_max_tx_fee wallet
    /\ GetFeePerK (mempoolMinFee (chain wallet)) <= GetFeePerK rate
    /\ 0 < fee - total_bump_old_fee wallet wtx <= nValue change
    /\ let shrunk :=
         SetValue change (nValue change - (fee - total_bump_old_fee wallet wtx)) in
       let dust := nValue shrunk <=? GetDustThreshold shrunk (GetDiscardRate wallet) in
       out = mkBump [] (total_bump_old_fee wallet wtx)
               (if dust then fee + nValue shrunk else fee)
               (mkTx (if negb (default (m_signal_rbf wallet)
                                       (m_signal_bip125_rbf coin_control))
                      then mark_not_replaceable (vin (tx wtx))
                      else vin (tx wtx))
                     (vout (tx wtx))
                     (if dust then delete k (vpout (tx wtx))
                      else <[k := shrunk]> (vpout (tx wtx)))).
Proof.
  intros Hrun. unfold CreateTotalBumpTransaction in Hrun.
  destruct (IsParticlWallet wallet); [|discriminate]. cbn [negb] in Hrun.
  destruct (mapWallet wallet !! txid) as [wtx|] eqn:Hwtx; [|discriminate].
  pose proof (PreconditionChecks_errors wallet wtx true []) as Hpe.
  destruct (PreconditionChecks wallet wtx true []) as [result errs] eqn:Hpre.
  cbn [fst snd] in Hpe.
  destruct (bool_decide_reflect (result = OK)) as [->|Hne];
    [|inversion Hrun; congruence].
  subst errs. cbn [negb app] in Hrun.
  pose proof (find_change_output_fresh wallet (vpout (tx wtx)) 0 ltac:(lia)) as Hfind.
  destruct (find_change_output wallet (vpout (tx wtx)) 0 (-1)) as [nOutput|];
    [|discriminate].
  destruct (Z.eqb_spec nOutput (-1)) as [|Hn]; [discriminate|].
  destruct Hfind as [[? _]|(k & change & -> & Hk & Hc & H1)]; [done|].
  destruct (Z.ltb_spec (CalculateMaximumSignedTxSize wallet (tx wtx) None) 0)
    as [|Hsize]; [discriminate|].
  destruct (total_bump_pricing wallet wtx coin_control
              (CalculateMaximumSignedTxSize wallet (tx wtx) None))
    as [fee rate] eqn:Hprice.
  destruct (Z.ltb_spec (m_default_max_tx_fee wallet) fee) as [|Hmax]; [discriminate|].
  destruct (Z.ltb_spec (GetFeePerK rate) (GetFeePerK (mempoolMinFee (chain wallet))))
    as [|Hmin]; [discriminate|].
  destruct (Z.ltb_spec 0 (fee - total_bump_old_fee wallet wtx)) as [Hd|];
    [|discriminate]. cbn [negb] in Hrun.
  replace (Z.to_nat (0 + Z.of_nat k)) with k in Hrun by lia.
  rewrite Hk in Hrun.
  destruct (Z.ltb_spec (nValue change) (fee - total_bump_old_fee wallet wtx))
    as [|Hv]; [discriminate|].
  exists wtx, k, change, fee, rate.
  do 8 (split; [done|]). split; [lia|]. cbv zeta.
  destruct (_ <=? _); destruct (negb _); inversion Hrun; subst out;
    destruct (tx wtx); reflexivity.
Qed.

(** X7. A successful total-bump has priced the replacement at a fee rate of
    at least the old rate plus one unit plus the larger relay increment, and
    at least the mempool's minimum; the priced fee is above the old fee and
    not above the wallet's ceiling, and it is the wallet's minimum fee for the
    maximum signed size unless that estimate was below the floor. *)
Theorem total_bump_pricing_respects_floors (wallet : CWallet) (txid : uint256)
    (coin_control : CCoinControl) (args out : BumpArgs) :
  CreateTotalBumpTransaction wallet txid coin_control args = Returns (OK, out) ->
  exists wtx,
    mapWallet wallet !! txid = Some wtx
    /\ let size := CalculateMaximumSignedTxSize wallet (tx wtx) None in
       let priced := total_bump_pricing wallet wtx coin_control size in
       let floor :=
         GetFeePerK (CFeeRate_of (old_fee out) (GetVirtualTransactionSize (tx wtx)))
         + 1
         + Z.max (GetFeePerK (relayIncrementalFee (chain wallet)))
                 WALLET_INCREMENTAL_RELAY_FEE in
       floor <= GetFeePerK (snd priced)
       /\ GetFeePerK (mempoolMinFee (chain wallet)) <= GetFeePerK (snd priced)
       /\ old_fee out < fst priced <= m_default_max_tx_fee wallet
       /\ (fst priced = GetMinimumFee wallet size coin_control
           \/ fst priced = GetFee (mkFeeRate floor) size).
Proof.
  intros Hrun.
  destruct (total_bump_ok_shape _ _ _ _ _ Hrun)
    as (wtx & k & change & fee & rate & Hwtx & _ & _ & _ & _ & Hprice & Hmax & Hmin
        & Hd & Hout).
  exists wtx. split; [done|]. cbv zeta in *.
  assert (Hold : old_fee out = total_bump_old_fee wallet wtx) by (by rewrite Hout).
  rewrite Hold.
  destruct (total_bump_pricing_cases wallet wtx coin_control
              (CalculateMaximumSignedTxSize wallet (tx wtx) None)) as [Hfl Hcases].
  cbv zeta in Hfl, Hcases. rewrite Hprice in *. cbn [fst snd] in *.
  split; [done|]. split; [done|]. split; [lia|].
  destruct Hcases as [Hc|[Hc _]]; inversion Hc; auto.
Qed.

(** X8. A successful total-bump conserves value: the outputs of the
    replacement plus its fee equal the outputs of the original plus its fee,
    so the fee increase is paid by the change output alone, whether it is
    shrunk or folded into the fee. *)
Theorem total_bump_conserves_value (wallet : CWallet) (txid : uint256)
    (coin_control : CCoinControl) (args out : BumpArgs) :
  CreateTotalBumpTransaction wallet txid coin_control args = Returns (OK, out) ->
  exists wtx,
    mapWallet wallet !! txid = Some wtx
    /\ total_value (vpout (mtx out)) + new_fee out
       = total_value (vpout (tx wtx)) + old_fee out.
Proof.
  intros Hrun.
  destruct (total_bump_ok_shape _ _ _ _ _ Hrun)
    as (wtx & k & change & fee & rate & Hwtx & Hk & _ & _ & _ & _ & _ & _ & Hd & Hout).
  exists wtx. split; [done|]. cbv zeta in Hout. rewrite Hout.
  cbn [mtx new_fee old_fee vpout].
  destruct (_ <=? _).
  - rewrite (total_value_delete _ _ _ Hk). cbn [SetValue nValue]. lia.
  - rewrite (total_value_insert _ _ _ _ Hk). cbn [SetValue nValue]. lia.
Qed.


Lemma mark_not_replaceable_fields (ins : list CTxIn) :
  prevout <$> mark_not_replaceable ins = prevout <$> ins
  /\ scriptSig <$> mark_not_replaceable ins = scriptSig <$> ins
  /\ scriptWitness <$> mark_not_replaceable ins = scriptWitness <$> ins
  /\ nSequence <$> mark_not_replaceable ins
     = (fun input => Z.max (nSequence input) 0xfffffffe) <$> ins.
Proof.
  unfold mark_not_replaceable.
  induction ins as [|a ins (IH1 & IH2 & IH3 & IH4)]; [done|].
  rewrite !fmap_cons, <- IH1, <- IH2, <- IH3, <- IH4.
  destruct (Z.ltb_spec (nSequence a) 0xfffffffe); cbn;
    repeat split; f_equal; lia.
Qed.

(** X10. A successful total-bump spends the inputs of the original, in
    order and with their scripts and witnesses, and leaves the plain output
    vector alone.  Sequence numbers are kept when the replacement is to
    signal replaceability; otherwise each is raised to at least 0xfffffffe
    and those already there are kept. *)
Theorem total_bump_keeps_inputs (wallet : CWallet) (txid : uint256)
    (coin_control : CCoinControl) (args out : BumpArgs) :
  CreateTotalBumpTransaction wallet txid coin_control args = Returns (OK, out) ->
  exists wtx,
    mapWallet wallet !! txid = Some wtx
    /\ vout (mtx out) = vout (tx wtx)
    /\ prevout <$> vin (mtx out) = prevout <$> vin (tx wtx)
    /\ scriptSig <$> vin (mtx out) = scriptSig <$> vin (tx wtx)
    /\ scriptWitness <$> vin (mtx out) = scriptWitness <$> vin (tx wtx)
    /\ nSequence <$> vin (mtx out)
       = if default (m_signal_rbf wallet) (m_signal_bip125_rbf coin_control)
         then nSequence <$> vin (tx wtx)
         else (fun input => Z.max (nSequence input) 0xfffffffe) <$> vin (tx wtx).
Proof.
  intros Hrun.
  destruct (total_bump_ok_shape _ _ _ _ _ Hrun)
    as (wtx & k & change & fee & rate & Hwtx & _ & _ & _ & _ & _ & _ & _ & _ & Hout).
  exists wtx. split; [done|]. cbv zeta in Hout. rewrite Hout. cbn [mtx vin vout].
  destruct (mark_not_replaceable_fields (vin (tx wtx))) as (H1 & H2 & H3 & H4).
  destruct (default (m_signal_rbf wallet) (m_signal_bip125_rbf coin_control));
    cbn [negb]; auto 10.
Qed.

(** X11. A total-bump that fails never hands back a modified transaction:
    the caller's transaction is returned as it came in, except that the
    too-small-change failure returns an exact copy of the original. *)
Theorem total_bump_failure_keeps_transaction (wallet : CWallet) (txid : uint256)
    (coin_control : CCoinControl) (args : BumpArgs) (res : Result) (out : BumpArgs) :
  CreateTotalBumpTransaction wallet txid coin_control args = Returns (res, out) ->
  res <> OK ->
  mtx out = mtx args
  \/ (exists wtx,
         mapWallet wallet !! txid = Some wtx
         /\ mtx out = tx wtx
         /\ res = WALLET_ERROR
         /\ errors out = ["Change output is too small to bump the fee"%string]).
Proof.
  intros Hrun Hne. unfold CreateTotalBumpTransaction in Hrun.
  destruct (IsParticlWallet wallet); cbn [negb] in Hrun;
    [|left; by inversion Hrun].
  destruct (mapWallet wallet !! txid) as [wtx|] eqn:Hwtx; [|left; by inversion Hrun].
  pose proof (PreconditionChecks_errors wallet wtx true []) as Hpe.
  destruct (PreconditionChecks wallet wtx true []) as [result errs].
  cbn [fst snd] in Hpe.
  destruct (bool_decide_reflect (result = OK)) as [->|Hr]; cbn [negb] in Hrun;
    [|left; by inversion Hrun].
  subst errs.
  destruct (find_change_output _ _ _ _) as [nOutput|]; [|left; by inversion Hrun].
  destruct (nOutput =? -1); [left; by inversion Hrun|].
  destruct (_ <? 0); [left; by inversion Hrun|].
  destruct (total_bump_pricing _ _ _ _) as [fee rate].
  destruct (m_default_max_tx_fee wallet <? fee); [left; by inversion Hrun|].
  destruct (GetFeePerK rate <? _); [left; by inversion Hrun|].
  destruct (negb (0 <? _)); [done|].
  destruct (vpout (tx wtx) !! Z.to_nat nOutput) as [poutput|]; [|done].
  destruct (nValue poutput <? _).
  - right. exists wtx. by inversion Hrun.
  - destruct (_ <=? _); inversion Hrun; congruence.
Qed.

(** X12. The total-bump builder stops without a result only at its
    assertion: the priced fee is then not above the old fee.  The index of
    the change output is never outside the output vector. *)
Theorem total_bump_aborts_only_at_assertion (wallet : CWallet) (txid : uint256)
    (coin_control : CCoinControl) (args : BumpArgs) :
  CreateTotalBumpTransaction wallet txid coin_control args = Aborts ->
  exists wtx,
    mapWallet wallet !! txid = Some wtx
    /\ IsParticlWallet wallet = true
    /\ fst (PreconditionChecks wallet wtx true []) = OK
    /\ count_change wallet (vpout (tx wtx)) = 1%nat
    /\ fst (total_bump_pricing wallet wtx coin_control
              (CalculateMaximumSignedTxSize wallet (tx wtx) None))
       <= total_bump_old_fee wallet wtx.
Proof.
  intros Hrun. unfold CreateTotalBumpTransaction in Hrun.
  destruct (IsParticlWallet wallet); [|discriminate]. cbn [negb] in Hrun.
  destruct (mapWallet wallet !! txid) as [wtx|] eqn:Hwtx; [|discriminate].
  exists wtx. do 2 (split; [done|]).
  destruct (PreconditionChecks wallet wtx true []) as [result errs].
  destruct (bool_decide_reflect (result = OK)) as [->|Hr]; [|discriminate].
  cbn [negb fst] in *. split; [done|].
  pose proof (find_change_output_fresh wallet (vpout (tx wtx)) 0 ltac:(lia)) as Hfind.
  destruct (find_change_output wallet (vpout (tx wtx)) 0 (-1)) as [nOutput|];
    [|discriminate].
  destruct (Z.eqb_spec nOutput (-1)) as [|Hn]; [discriminate|].
  destruct Hfind as [[? _]|(k & change & -> & Hk & Hc & H1)]; [done|].
  split; [done|].
  destruct (_ <? 0); [discriminate|].
  destruct (total_bump_pricing _ _ _ _) as [fee rate]. cbn [fst].
  destruct (m_default_max_tx_fee wallet <? fee); [discriminate|].
  destruct (GetFeePerK rate <? _); [discriminate|].
  destruct (Z.ltb_spec 0 (fee - total_bump_old_fee wallet wtx)); [|lia].
  cbn [negb] in Hrun.
  replace (Z.to_nat (0 + Z.of_nat k)) with k in Hrun by lia.
  rewrite Hk in Hrun.
  destruct (nValue change <? _); [discriminate|].
  destruct (_ <=? _); discriminate.
Qed.

(** ** The rate-bump builder, once more *)

Lemma same_request_refl (a : CCoinControl) : same_request a a.
Proof. by repeat split. Qed.

Lemma same_request_trans (a b c : CCoinControl) :
  same_request a b -> same_request b c -> same_request a c.
Proof.
  intros (? & ? & ? & ?) (? & ? & ? & ?). repeat split; congruence.
Qed.

Lemma harvest_step_fields (w : CWallet) (cc : CCoinControl) (txin : CTxIn) :
  same_request (harvest_step w cc txin) cc
  /\ destChange (harvest_step w cc txin) = destChange cc
  /\ m_input_weights (harvest_step w cc txin) = m_input_weights cc
  /\ m_selected_inputs (harvest_step w cc txin)
     = {[prevout txin]} ∪ m_selected_inputs cc.
Proof.
  unfold harvest_step. by destruct (IsMine_outpoint w (prevout txin)).
Qed.

(** With every coin located, the first loop is the fold of its body. *)
Lemma harvest_inputs_located (w : CWallet) (coins : gmap COutPoint Coin)
    (ins : list CTxIn) (cc : CCoinControl) (v : CAmount) (so : list CTxOut) :
  covers w coins ins ->
  first_missing w ins = None ->
  harvest_inputs w coins ins cc v so
  = Returns (inr (foldl (harvest_step w) cc ins,
                  v + located_value w ins,
                  so ++ ((fun txin => coin_out (fetched w (prevout txin))) <$> ins))).
Proof.
  revert cc v so. induction ins as [|a ins IH]; intros cc v so Hc Hm.
  { cbn. by rewrite Z.add_0_r, app_nil_r. }
  apply covers_cons in Hc as [Ha Hc]. cbn [harvest_inputs first_missing] in *.
  rewrite Ha, fetched_IsNull.
  destruct (coin_located w (prevout a)); [|done]. cbn [negb].
  fold (harvest_step w cc a). rewrite IH by done.
  cbn [foldl fmap list_fmap].
  rewrite <- app_assoc.
  replace (v + nValue (coin_out (fetched w (prevout a))) + located_value w ins)
    with (v + located_value w (a :: ins))
    by (unfold located_value; cbn [foldr]; lia).
  done.
Qed.

Lemma harvest_fold_fields (w : CWallet) (ins : list CTxIn) (cc : CCoinControl) :
  same_request (foldl (harvest_step w) cc ins) cc
  /\ destChange (foldl (harvest_step w) cc ins) = destChange cc
  /\ m_input_weights (foldl (harvest_step w) cc ins) = m_input_weights cc
  /\ m_selected_inputs (foldl (harvest_step w) cc ins)
     = list_to_set (prevout <$> ins) ∪ m_selected_inputs cc.
Proof.
  revert cc. induction ins as [|a ins IH]; intros cc; cbn [foldl].
  { repeat split. cbn. by rewrite (left_id_L ∅ (∪)). }
  destruct (IH (harvest_step w cc a)) as (Hr & Hd & Hw & Hs).
  destruct (harvest_step_fields w cc a) as (Hr' & Hd' & Hw' & Hs').
  split; [by eapply same_request_trans|].
  split; [congruence|]. split; [congruence|].
  rewrite Hs, Hs', fmap_cons. cbn [list_to_set].
  rewrite !(assoc_L (∪)). f_equal. apply (comm_L (∪)).
Qed.

(** The external outputs after the first loop: the located output for every
    input the wallet does not own, the caller's entry elsewhere. *)
Lemma harvest_fold_external (w : CWallet) (ins : list CTxIn) (cc : CCoinControl)
    (o : COutPoint) :
  m_external_txouts (foldl (harvest_step w) cc ins) !! o
  = if decide (o ∈ prevout <$> ins /\ IsMine_outpoint w o = false)
    then Some (coin_out (fetched w o))
    else m_external_txouts cc !! o.
Proof.
  revert cc. induction ins as [|a ins IH]; intros cc; cbn [foldl].
  { rewrite decide_False; [done|]. rewrite fmap_nil. intros [Hin _].
    by apply elem_of_nil in Hin. }
  rewrite IH, fmap_cons. unfold harvest_step.
  destruct (decide (o ∈ prevout <$> ins /\ IsMine_outpoint w o = false))
    as [[Hin Hm]|Hno].
  { rewrite decide_True; [done|]. split; [by right|done]. }
  destruct (decide (o = prevout a)) as [->|Hne].
  - destruct (IsMine_outpoint w (prevout a)) eqn:Hm.
    + rewrite decide_False; [done|]. intros [_ ?]. done.
    + rewrite decide_True; [|split; [by left|done]].
      cbn [SelectExternal m_external_txouts]. by rewrite lookup_insert_eq.
  - rewrite decide_False.
    2:{ intros [Hin Hm]. apply elem_of_cons in Hin as [?|?]; [done|].
        apply Hno. done. }
    destruct (IsMine_outpoint w (prevout a)); [done|].
    cbn [SelectExternal m_external_txouts]. by rewrite lookup_insert_ne.
Qed.

Lemma estimate_input_weights_fields (coins : gmap COutPoint Coin)
    (t : CTransaction) (ins : list CTxIn) (i : nat) (cc cc' : CCoinControl) :
  estimate_input_weights t coins ins i cc = Returns cc' ->
  same_request cc' cc
  /\ destChange cc' = destChange cc
  /\ m_selected_inputs cc' = m_selected_inputs cc
  /\ m_external_txouts cc' = m_external_txouts cc
  /\ (forall o, o ∉ prevout <$> ins -> m_input_weights cc' !! o = m_input_weights cc !! o)
  /\ (forall o, m_external_txouts cc !! o = None ->
                m_input_weights cc' !! o = m_input_weights cc !! o).
Proof.
  revert i cc. induction ins as [|a ins IH]; intros i cc Hrun;
    cbn [estimate_input_weights] in Hrun.
  { inversion Hrun; subst. repeat split. }
  destruct (coins !! prevout a) as [coin|]; [|done].
  apply IH in Hrun as (Hr & Hd & Hs & He & Hw & Hx).
  unfold IsExternalSelected in *.
  destruct (bool_decide_reflect (is_Some (m_external_txouts cc !! prevout a)))
    as [Hext|Hext]; cbn [SetInputWeight m_external_txouts m_input_weights
                            m_selected_inputs destChange] in *.
  - split; [exact Hr|]. do 3 (split; [done|]). split.
    + intros o Ho. rewrite fmap_cons in Ho. apply not_elem_of_cons in Ho as [Hne Ho].
      rewrite (Hw o Ho). cbn. by rewrite lookup_insert_ne.
    + intros o Ho. rewrite (Hx o Ho). cbn.
      rewrite lookup_insert_ne; [done|]. intros Heq. rewrite Heq, Ho in Hext.
      by destruct Hext.
  - do 4 (split; [done|]). split; [|done].
    intros o Ho. rewrite fmap_cons in Ho. apply not_elem_of_cons in Ho as [Hne Ho].
    by apply Hw.
Qed.

(** Every externally selected input ends with a weight: its own weight plus
    the slack measured at its position. *)
Lemma estimate_input_weights_sets (w : CWallet) (coins : gmap COutPoint Coin)
    (t : CTransaction) (ins : list CTxIn) (i : nat) (cc cc' : CCoinControl)
    (o : COutPoint) :
  covers w coins ins ->
  estimate_input_weights t coins ins i cc = Returns cc' ->
  o ∈ prevout <$> ins ->
  is_Some (m_external_txouts cc !! o) ->
  exists j txin,
    ins !! j = Some txin /\ prevout txin = o
    /\ m_input_weights cc' !! o
       = Some (GetTransactionInputWeight txin
               + WeightDiffToMax t (i + j) (fetched w o)).
Proof.
  revert i cc. induction ins as [|a ins IH]; intros i cc Hc Hrun Hin Hext.
  { rewrite fmap_nil in Hin. by apply elem_of_nil in Hin. }
  apply covers_cons in Hc as [Ha Hc].
  cbn [estimate_input_weights] in Hrun. rewrite Ha in Hrun.
  destruct (decide (o ∈ prevout <$> ins)) as [Hlater|Hnot].
  - match type of Hrun with
    | estimate_input_weights _ _ _ _ ?c = _ => set (cc1 := c) in *
    end.
    assert (Hext' : is_Some (m_external_txouts cc1 !! o)).
    { subst cc1. by destruct (IsExternalSelected cc (prevout a)). }
    destruct (IH (S i) cc1 Hc Hrun Hlater Hext') as (j & txin & Hj & Hp & Hw).
    exists (S j), txin. split; [done|]. split; [done|].
    rewrite Hw. do 3 f_equal. lia.
  - rewrite fmap_cons in Hin. apply elem_of_cons in Hin as [->|?]; [|done].
    unfold IsExternalSelected in Hrun. rewrite bool_decide_true in Hrun by done.
    apply estimate_input_weights_fields in Hrun as (_ & _ & _ & _ & Hw & _).
    exists 0%nat, a. split; [done|]. split; [done|].
    rewrite (Hw _ Hnot). cbn [SetInputWeight m_input_weights].
    rewrite lookup_insert_eq. do 3 f_equal. lia.
Qed.

Lemma harvest_outputs_result (w : CWallet) (outs : list CTxOut)
    (recipients : list CRecipient) (cc : CCoinControl) (ov : CAmount) :
  exists cc',
    harvest_outputs w outs recipients cc ov
    = (recipients ++ (to_recipient <$> payee_outputs w outs), cc',
       ov + total_value outs)
    /\ same_request cc' cc
    /\ m_selected_inputs cc' = m_selected_inputs cc
    /\ m_external_txouts cc' = m_external_txouts cc
    /\ m_input_weights cc' = m_input_weights cc
    /\ destChange cc' = foldl (change_step w) (destChange cc) outs.
Proof.
  revert recipients cc ov. induction outs as [|o outs IH]; intros recipients cc ov.
  { exists cc. cbn. rewrite app_nil_r, Z.add_0_r. repeat split. }
  cbn [harvest_outputs payee_outputs List.filter foldl].
  replace (ov + total_value (o :: outs)) with (ov + nValue o + total_value outs)
    by (unfold total_value; cbn [foldr]; lia).
  unfold change_step at 2.
  destruct (OutputIsChange w o); cbn [negb].
  - destruct (IH recipients (set_destChange cc (ExtractDestination (scriptPubKey o)))
                (ov + nValue o)) as (cc' & Hrun & Hr & Hs & He & Hw & Hd).
    exists cc'. split; [exact Hrun|]. split; [exact Hr|]. auto.
  - destruct (IH (recipients ++ [mkRecipient (scriptPubKey o) (nValue o) false]) cc
                (ov + nValue o)) as (cc' & Hrun & Hr & Hs & He & Hw & Hd).
    exists cc'. split; [|auto].
    rewrite Hrun, fmap_cons, <- app_assoc. done.
Qed.

Lemma select_all_inputs_fields (ins : list CTxIn) (cc : CCoinControl) :
  same_request (select_all_inputs ins cc) cc
  /\ destChange (select_all_inputs ins cc) = destChange cc
  /\ m_external_txouts (select_all_inputs ins cc) = m_external_txouts cc
  /\ m_input_weights (select_all_inputs ins cc) = m_input_weights cc
  /\ m_selected_inputs (select_all_inputs ins cc)
     = list_to_set (prevout <$> ins) ∪ m_selected_inputs cc.
Proof.
  unfold select_all_inputs. revert cc.
  induction ins as [|a ins IH]; intros cc; cbn [foldl].
  { repeat split. cbn. by rewrite (left_id_L ∅ (∪)). }
  destruct (IH (Select cc (prevout a))) as (Hr & Hd & He & Hw & Hs).
  split; [exact Hr|]. do 3 (split; [done|]).
  rewrite Hs, fmap_cons. cbn [list_to_set Select m_selected_inputs].
  rewrite !(assoc_L (∪)). f_equal. apply (comm_L (∪)).
Qed.

(** Everything a prepared call of the builder has gone through. *)
Lemma rate_bump_prepare_call_shape (wallet : CWallet) (txid : uint256)
    (coin_control : CCoinControl) (args : BumpArgs) (require_mine : bool)
    (call : BuilderCall) (out : BumpArgs) :
  rate_bump_prepare wallet txid coin_control args require_mine
  = Returns (inr (call, out)) ->
  exists wtx cc2 cc3 cc4,
    mapWallet wallet !! txid = Some wtx
    /\ first_missing wallet (vin (tx wtx)) = None
    /\ IsParticlWallet wallet = false
    /\ fst (PreconditionChecks wallet wtx require_mine []) = OK
    /\ estimate_input_weights (tx wtx)
         (findCoins (chain wallet) (request_coins (vin (tx wtx))))
         (vin (tx wtx)) 0 (foldl (harvest_step wallet) coin_control (vin (tx wtx)))
       = Returns cc2
    /\ harvest_outputs wallet (vout (tx wtx)) [] cc2 0
       = (to_recipient <$> payee_outputs wallet (vout (tx wtx)), cc3,
          total_value (vout (tx wtx)))
    /\ same_request cc3 coin_control
    /\ ((exists rate,
            m_feerate coin_control = Some rate /\ cc4 = cc3
            /\ fst (CheckFeeRate wallet wtx rate
                      (CalculateMaximumSignedTxSize wallet
                         (strip_input_scripts (tx wtx)) (Some cc3))
                      (located_value wallet (vin (tx wtx))
                       - total_value (vout (tx wtx))) []) = OK)
        \/ (m_feerate coin_control = None
            /\ cc4 = set_feerate cc3
                       (Some (EstimateFeeRate wallet wtx
                                (located_value wallet (vin (tx wtx))
                                 - total_value (vout (tx wtx))) cc3))))
    /\ call = mkCall (to_recipient <$> payee_outputs wallet (vout (tx wtx)))
                RANDOM_CHANGE_POSITION
                (set_min_depth
                   (set_allow_other_inputs
                      (select_all_inputs (vin (tx wtx)) cc4) true) 1)
                false
    /\ out = mkBump [] (located_value wallet (vin (tx wtx))
                        - total_value (vout (tx wtx)))
               (new_fee args) (mtx args).
Proof.
  intros Hrun.
  pose proof Hrun as Hshape. unfold rate_bump_prepare in Hshape.
  destruct (mapWallet wallet !! txid) as [wtx|] eqn:Hwtx; [|done].
  destruct (first_missing wallet (vin (tx wtx))) as [txin|] eqn:Hmiss.
  { rewrite (rate_bump_prepare_missing _ _ _ _ _ _ _ Hwtx Hmiss) in Hrun. done. }
  rewrite (harvest_inputs_located wallet _ (vin (tx wtx)) coin_control 0 []
             (coins_cover_inputs wallet (vin (tx wtx))) Hmiss) in Hshape.
  destruct (estimate_input_weights _ _ _ _ _) as [cc2|] eqn:Hest; [|done].
  pose proof (PreconditionChecks_errors wallet wtx require_mine []) as Hpe.
  destruct (PreconditionChecks wallet wtx require_mine []) as [result errs] eqn:Hpc.
  cbn [fst snd] in Hpe.
  destruct (bool_decide_reflect (result = OK)) as [->|Hne]; cbn [negb] in Hshape;
    [|done].
  subst errs.
  destruct (IsParticlWallet wallet); [done|].
  destruct (harvest_outputs_result wallet (vout (tx wtx)) [] cc2 0)
    as (cc3 & Hout & Hr3 & _).
  rewrite Hout in Hshape. cbn [app] in Hout, Hshape. rewrite Z.add_0_l in Hout, Hshape.
  rewrite Z.add_0_l in Hshape.
  assert (Hreq : same_request cc3 coin_control).
  { eapply same_request_trans; [exact Hr3|].
    eapply same_request_trans;
      [exact (proj1 (estimate_input_weights_fields _ _ _ _ _ _ Hest))|].
    exact (proj1 (harvest_fold_fields wallet (vin (tx wtx)) coin_control)). }
  destruct (m_feerate coin_control) as [rate|] eqn:Hrate.
  - destruct Hreq as (Hf & Hrest). rewrite Hrate in Hf.
    rewrite Hf in Hshape.
    destruct (CheckFeeRate _ _ _ _ _ _) as [r errs'] eqn:Hchk.
    pose proof (CheckFeeRate_validate wallet wtx rate
                  (CalculateMaximumSignedTxSize wallet (strip_input_scripts (tx wtx))
                     (Some cc3))
                  (located_value wallet (vin (tx wtx)) - total_value (vout (tx wtx)))
                  []) as [Hres Herr].
    rewrite Hchk in Hres, Herr. cbn [fst snd] in Hres, Herr.
    destruct (bool_decide_reflect (r = OK)) as [->|Hne]; cbn [negb] in Hshape;
      [|done].
    rewrite decide_True in Herr by done. subst errs'.
    exists wtx, cc2, cc3, cc3. inversion Hshape; subst. rewrite Hpc.
    do 6 (split; [done|]).
    split; [unfold same_request; rewrite Hrate; by split|].
    split; [|done]. left. exists rate. rewrite Hchk. done.
  - rewrite bool_decide_true in Hshape by done. cbn [negb] in Hshape.
    exists wtx, cc2, cc3, (set_feerate cc3
                             (Some (EstimateFeeRate wallet wtx
                                      (located_value wallet (vin (tx wtx))
                                       - total_value (vout (tx wtx))) cc3))).
    inversion Hshape; subst. rewrite Hpc.
    do 6 (split; [done|]). split; [exact Hreq|].
    split; [|done]. by right.
Qed.

Lemma change_step_fold_app (w : CWallet) (d : CTxDestination) (pre post : list CTxOut)
    (o : CTxOut) :
  OutputIsChange w o = true ->
  Forall (fun o' => OutputIsChange w o' = false) post ->
  foldl (change_step w) d (pre ++ o :: post) = ExtractDestination (scriptPubKey o).
Proof.
  intros Ho Hpost. rewrite foldl_app. cbn [foldl]. unfold change_step at 2.
  rewrite Ho. induction Hpost as [|o' post Ho' _ IH]; [done|].
  cbn [foldl]. unfold change_step at 2. by rewrite Ho'.
Qed.

Lemma change_step_fold_none (w : CWallet) (d : CTxDestination) (outs : list CTxOut) :
  Forall (fun o' => OutputIsChange w o' = false) outs ->
  foldl (change_step w) d outs = d.
Proof.
  induction 1 as [|o' post Ho' _ IH]; [done|].
  cbn [foldl]. unfold change_step at 2. by rewrite Ho'.
Qed.

(** X13. A successful rate-bump reports as old fee the value of the located
    previous outputs minus the value of the original's outputs, and as new
    fee and replacement what the builder returned; the builder was asked to
    pay exactly the original's non-change outputs, in order, none of them
    bearing the fee, with a random change position and without signing. *)
Theorem rate_bump_success_accounts (wallet : CWallet) (txid : uint256)
    (coin_control : CCoinControl) (args out : BumpArgs) (require_mine : bool) :
  CreateRateBumpTransaction wallet txid coin_control args require_mine
  = Returns (OK, out) ->
  exists wtx cc txr,
    mapWallet wallet !! txid = Some wtx
    /\ CreateTransaction wallet
         (to_recipient <$> payee_outputs wallet (vout (tx wtx))) (-1) cc false
       = inl txr
    /\ old_fee out = located_value wallet (vin (tx wtx)) - total_value (vout (tx wtx))
    /\ new_fee out = txr_fee txr
    /\ mtx out = txr_tx txr
    /\ errors out = [].
Proof.
  unfold CreateRateBumpTransaction. intros Hrun.
  destruct (rate_bump_prepare wallet txid coin_control args require_mine)
    as [[[r o]|[call o]]|] eqn:Hprep; [| |done].
  { apply rate_bump_prepare_inl in Hprep as [Hne _]. inversion Hrun. congruence. }
  destruct (rate_bump_prepare_call_shape _ _ _ _ _ _ _ Hprep)
    as (wtx & cc2 & cc3 & cc4 & Hwtx & _ & _ & _ & _ & _ & _ & _ & Hcall & Ho).
  exists wtx, (call_coin_control call). subst call o.
  unfold rate_bump_build in Hrun.
  cbn [call_recipients call_change_pos call_coin_control call_sign
       errors old_fee new_fee mtx] in *.
  unfold RANDOM_CHANGE_POSITION in Hrun.
  destruct (CreateTransaction _ _ _ _ _) as [txr|err]; [|by inversion Hrun].
  exists txr. by inversion Hrun.
Qed.

(** X14. The change destination handed to the builder is the destination
    extracted from the last change output of the original; when the original
    has no change output it is the caller's. *)
Theorem rate_bump_change_destination (wallet : CWallet) (txid : uint256)
    (coin_control : CCoinControl) (args : BumpArgs) (require_mine : bool)
    (call : BuilderCall) (out : BumpArgs) :
  rate_bump_prepare wallet txid coin_control args require_mine
  = Returns (inr (call, out)) ->
  exists wtx,
    mapWallet wallet !! txid = Some wtx
    /\ (Forall (fun o => OutputIsChange wallet o = false) (vout (tx wtx)) ->
        destChange (call_coin_control call) = destChange coin_control)
    /\ (forall pre o post,
           vout (tx wtx) = pre ++ o :: post ->
           OutputIsChange wallet o = true ->
           Forall (fun o' => OutputIsChange wallet o' = false) post ->
           destChange (call_coin_control call)
           = ExtractDestination (scriptPubKey o)).
Proof.
  intros Hprep.
  destruct (rate_bump_prepare_call_shape _ _ _ _ _ _ _ Hprep)
    as (wtx & cc2 & cc3 & cc4 & Hwtx & _ & _ & _ & Hest & Hout & _ & Hcc4 & Hcall & _).
  exists wtx. split; [done|].
  assert (Hd : destChange (call_coin_control call)
               = foldl (change_step wallet) (destChange coin_control) (vout (tx wtx))).
  { subst call. cbn [call_coin_control set_min_depth set_allow_other_inputs destChange].
    destruct (select_all_inputs_fields (vin (tx wtx)) cc4) as (_ & -> & _).
    assert (destChange cc4 = destChange cc3) as ->
        by (destruct Hcc4 as [(? & _ & -> & _)|[_ ->]]; done).
    destruct (harvest_outputs_result wallet (vout (tx wtx)) [] cc2 0)
      as (cc3' & Hout' & _ & _ & _ & _ & Hd).
    rewrite Hout in Hout'. inversion Hout'; subst cc3'. rewrite Hd.
    destruct (estimate_input_weights_fields _ _ _ _ _ _ Hest) as (_ & -> & _).
    by destruct (harvest_fold_fields wallet (vin (tx wtx)) coin_control) as (_ & -> & _). }
  rewrite Hd. split.
  - apply change_step_fold_none.
  - intros pre o post -> Ho Hpost. by apply change_step_fold_app.
Qed.

(** X15. The builder always gets a fee rate: the caller's own rate, which
    has then passed [CheckFeeRate] at the maximum signed size of the stripped
    original, or, when the caller gave none, the estimated rate, which is at
    least the old rate plus one unit plus the larger relay increment. *)
Theorem rate_bump_fee_rate_handed_over (wallet : CWallet) (txid : uint256)
    (coin_control : CCoinControl) (args : BumpArgs) (require_mine : bool)
    (call : BuilderCall) (out : BumpArgs) :
  rate_bump_prepare wallet txid coin_control args require_mine
  = Returns (inr (call, out)) ->
  exists wtx rate,
    mapWallet wallet !! txid = Some wtx
    /\ m_feerate (call_coin_control call) = Some rate
    /\ (forall given, m_feerate coin_control = Some given ->
          rate = given
          /\ exists cc,
              validate_explicit_rate wallet wtx (old_fee out) given
                (CalculateMaximumSignedTxSize wallet (strip_input_scripts (tx wtx))
                   (Some cc)) = OK)
    /\ (m_feerate coin_control = None ->
        GetFeePerK (CFeeRate_of (old_fee out) (GetVirtualTransactionSize (tx wtx)))
        + 1
        + Z.max (GetFeePerK (relayIncrementalFee (chain wallet)))
                WALLET_INCREMENTAL_RELAY_FEE
        <= GetFeePerK rate).
Proof.
  intros Hprep.
  destruct (rate_bump_prepare_call_shape _ _ _ _ _ _ _ Hprep)
    as (wtx & cc2 & cc3 & cc4 & Hwtx & _ & _ & _ & _ & _ & Hreq & Hcc4 & Hcall & Ho).
  assert (Hf : m_feerate (call_coin_control call) = m_feerate cc4).
  { subst call. cbn [call_coin_control set_min_depth set_allow_other_inputs m_feerate].
    by destruct (select_all_inputs_fields (vin (tx wtx)) cc4) as ((-> & _) & _). }
  subst out. cbn [old_fee].
  destruct Hcc4 as [(given & Hgiven & -> & Hok)|[Hnone ->]].
  - exists wtx, given. split; [done|]. split.
    { rewrite Hf. destruct Hreq as (-> & _). done. }
    split; [|congruence].
    intros given' Hg. assert (given' = given) by congruence. subst given'.
    split; [done|]. exists cc3.
    by destruct (CheckFeeRate_validate wallet wtx given
                   (CalculateMaximumSignedTxSize wallet (strip_input_scripts (tx wtx))
                      (Some cc3))
                   (located_value wallet (vin (tx wtx)) - total_value (vout (tx wtx)))
                   []) as [<- _].
  - eexists wtx, _. split; [done|]. split; [by rewrite Hf|].
    split; [congruence|]. intros _.
    unfold EstimateFeeRate. rewrite CFeeRate_max_perK.
    unfold CFeeRate_add. cbn [GetFeePerK]. rewrite CFeeRate_max_perK.
    cbn [GetFeePerK]. lia.
Qed.

(** X16. Every input of the original that the wallet does not own reaches
    the builder as an external input: with the located previous output as
    its external output and with an input weight, the weight of one of the
    inputs spending that outpoint plus the signature slack measured at its
    position.  An owned input that the caller had not declared external
    keeps whatever weight the caller gave it. *)
Theorem rate_bump_external_inputs_weighted (wallet : CWallet) (txid : uint256)
    (coin_control : CCoinControl) (args : BumpArgs) (require_mine : bool)
    (call : BuilderCall) (out : BumpArgs) :
  rate_bump_prepare wallet txid coin_control args require_mine
  = Returns (inr (call, out)) ->
  exists wtx,
    mapWallet wallet !! txid = Some wtx
    /\ (forall txin,
           txin ∈ vin (tx wtx) ->
           IsMine_outpoint wallet (prevout txin) = false ->
           m_external_txouts (call_coin_control call) !! prevout txin
           = Some (coin_out (fetched wallet (prevout txin)))
           /\ exists j txin',
               vin (tx wtx) !! j = Some txin'
               /\ prevout txin' = prevout txin
               /\ m_input_weights (call_coin_control call) !! prevout txin
                  = Some (GetTransactionInputWeight txin'
                          + WeightDiffToMax (tx wtx) j (fetched wallet (prevout txin))))
    /\ (forall txin,
           txin ∈ vin (tx wtx) ->
           IsMine_outpoint wallet (prevout txin) = true ->
           m_external_txouts coin_control !! prevout txin = None ->
           m_external_txouts (call_coin_control call) !! prevout txin = None
           /\ m_input_weights (call_coin_control call) !! prevout txin
              = m_input_weights coin_control !! prevout txin).
Proof.
  intros Hprep.
  destruct (rate_bump_prepare_call_shape _ _ _ _ _ _ _ Hprep)
    as (wtx & cc2 & cc3 & cc4 & Hwtx & _ & _ & _ & Hest & Hout & _ & Hcc4 & Hcall & _).
  exists wtx. split; [done|].
  set (cc1 := foldl (harvest_step wallet) coin_control (vin (tx wtx))) in *.
  destruct (harvest_outputs_result wallet (vout (tx wtx)) [] cc2 0)
    as (cc3' & Hout' & _ & _ & He3 & Hw3 & _).
  rewrite Hout in Hout'. inversion Hout'; subst cc3'. clear Hout'.
  destruct (estimate_input_weights_fields _ _ _ _ _ _ Hest)
    as (_ & _ & _ & He2 & _ & Hw2).
  assert (He : m_external_txouts (call_coin_control call) = m_external_txouts cc1).
  { subst call. cbn [call_coin_control set_min_depth set_allow_other_inputs
                       m_external_txouts].
    destruct (select_all_inputs_fields (vin (tx wtx)) cc4) as (_ & _ & -> & _).
    destruct Hcc4 as [(? & _ & -> & _)|[_ ->]]; cbn [set_feerate m_external_txouts];
      congruence. }
  assert (Hw : m_input_weights (call_coin_control call) = m_input_weights cc2).
  { subst call. cbn [call_coin_control set_min_depth set_allow_other_inputs
                       m_input_weights].
    destruct (select_all_inputs_fields (vin (tx wtx)) cc4) as (_ & _ & _ & -> & _).
    destruct Hcc4 as [(? & _ & -> & _)|[_ ->]]; cbn [set_feerate m_input_weights];
      congruence. }
  rewrite He, Hw. subst cc1. split.
  - intros txin Hin Hforeign.
    assert (Hext : m_external_txouts
                     (foldl (harvest_step wallet) coin_control (vin (tx wtx)))
                     !! prevout txin
                   = Some (coin_out (fetched wallet (prevout txin)))).
    { rewrite harvest_fold_external. rewrite decide_True; [done|].
      split; [by apply list_elem_of_fmap_2|done]. }
    split; [exact Hext|].
    destruct (estimate_input_weights_sets wallet _ (tx wtx) (vin (tx wtx)) 0%nat
                _ cc2 (prevout txin) (coins_cover_inputs wallet (vin (tx wtx))) Hest)
      as (j & txin' & Hj & Hp & Hwj).
    + by apply list_elem_of_fmap_2.
    + by rewrite Hext.
    + exists j, txin'. by rewrite Hwj.
  - intros txin Hin Hmine Hnone.
    assert (Hext : m_external_txouts
                     (foldl (harvest_step wallet) coin_control (vin (tx wtx)))
                     !! prevout txin = None).
    { rewrite harvest_fold_external. rewrite decide_False; [done|].
      intros [_ ?]. congruence. }
    split; [exact Hext|].
    rewrite (Hw2 _ Hext).
    by destruct (harvest_fold_fields wallet (vin (tx wtx)) coin_control)
      as (_ & _ & -> & _).
Qed.

Lemma rate_bump_prepare_keeps_outputs (wallet : CWallet) (txid : uint256)
    (coin_control : CCoinControl) (args : BumpArgs) (require_mine : bool)
    (res : Result) (out : BumpArgs) :
  rate_bump_prepare wallet txid coin_control args require_mine
  = Returns (inl (res, out)) ->
  new_fee out = new_fee args /\ mtx out = mtx args.
Proof.
  unfold rate_bump_prepare. intros Hrun.
  destruct (mapWallet wallet !! txid) as [wtx|]; [|by inversion Hrun].
  destruct (harvest_inputs _ _ _ _ _ _) as [[err|[[cc1 v] so]]|];
    [by inversion Hrun| |done].
  destruct (estimate_input_weights _ _ _ _ _) as [cc2|]; [|done].
  destruct (PreconditionChecks wallet wtx require_mine []) as [result errs].
  destruct (negb (bool_decide (result = OK))); [by inversion Hrun|].
  destruct (IsParticlWallet wallet); [done|].
  destruct (harvest_outputs _ _ _ _ _) as [[recipients cc3] output_value].
  destruct (m_feerate coin_control).
  - destruct (m_feerate cc3) as [rate|]; [|done].
    destruct (CheckFeeRate _ _ _ _ _ _) as [r errs'].
    destruct (negb (bool_decide (r = OK))); by inversion Hrun.
  - destruct (negb (bool_decide (OK = OK))); by inversion Hrun.
Qed.

(** X17. A rate-bump that fails, at whatever step, including a refusal by
    the builder, leaves the caller's new fee and transaction as they were. *)
Theorem rate_bump_failure_keeps_outputs (wallet : CWallet) (txid : uint256)
    (coin_control : CCoinControl) (args : BumpArgs) (require_mine : bool)
    (res : Result) (out : BumpArgs) :
  CreateRateBumpTransaction wallet txid coin_control args require_mine
  = Returns (res, out) ->
  res <> OK ->
  new_fee out = new_fee args /\ mtx out = mtx args.
Proof.
  unfold CreateRateBumpTransaction. intros Hrun Hne.
  destruct (rate_bump_prepare wallet txid coin_control args require_mine)
    as [[[r o]|[call o]]|] eqn:Hprep; [| |done].
  - inversion Hrun; subst. by eapply rate_bump_prepare_keeps_outputs.
  - destruct (rate_bump_prepare_call_shape _ _ _ _ _ _ _ Hprep)
      as (wtx & cc2 & cc3 & cc4 & _ & _ & _ & _ & _ & _ & _ & _ & _ & Ho).
    unfold rate_bump_build in Hrun.
    destruct (CreateTransaction _ _ _ _ _); inversion Hrun; subst; done.
Qed.

(** X18. The rate-bump builder stops without a result only at the
    assertion that guards Particl wallets: on any other wallet it always
    returns, the coin map never misses an input and the fee rate is never
    read from an empty optional. *)
Theorem rate_bump_aborts_only_on_particl (wallet : CWallet) (txid : uint256)
    (coin_control : CCoinControl) (args : BumpArgs) (require_mine : bool) :
  CreateRateBumpTransaction wallet txid coin_control args require_mine = Aborts ->
  IsParticlWallet wallet = true
  /\ exists wtx,
      mapWallet wallet !! txid = Some wtx
      /\ Forall (fun txin => coin_located wallet (prevout txin) = true) (vin (tx wtx))
      /\ fst (PreconditionChecks wallet wtx require_mine []) = OK.
Proof.
  unfold CreateRateBumpTransaction. intros Hrun.
  destruct (rate_bump_prepare wallet txid coin_control args require_mine)
    as [[[r o]|[call o]]|] eqn:Hprep; [done|done|]. clear Hrun.
  pose proof Hprep as Hshape. unfold rate_bump_prepare in Hshape.
  destruct (mapWallet wallet !! txid) as [wtx|] eqn:Hwtx; [|done].
  destruct (first_missing wallet (vin (tx wtx))) as [txin|] eqn:Hmiss.
  { rewrite (rate_bump_prepare_missing _ _ _ _ _ _ _ Hwtx Hmiss) in Hprep. done. }
  rewrite (harvest_inputs_located wallet _ (vin (tx wtx)) coin_control 0 []
             (coins_cover_inputs wallet (vin (tx wtx))) Hmiss) in Hshape.
  destruct (estimate_input_weights_outcome wallet _ (tx wtx) (vin (tx wtx)) 0%nat
              (foldl (harvest_step wallet) coin_control (vin (tx wtx)))
              (coins_cover_inputs wallet (vin (tx wtx)))) as (cc2 & Hest & _).
  rewrite Hest in Hshape.
  destruct (PreconditionChecks wallet wtx require_mine []) as [result errs] eqn:Hpc.
  destruct (bool_decide_reflect (result = OK)) as [->|Hne]; cbn [negb] in Hshape;
    [|done].
  destruct (IsParticlWallet wallet).
  { split; [done|]. exists wtx. split; [done|]. split; [|by rewrite Hpc].
    by apply first_missing_None. }
  exfalso.
  destruct (harvest_outputs_result wallet (vout (tx wtx)) [] cc2 0)
    as (cc3 & Hout & Hr3 & _).
  rewrite Hout in Hshape.
  assert (Hreq : m_feerate cc3 = m_feerate coin_control).
  { destruct Hr3 as (-> & _).
    destruct (estimate_input_weights_fields _ _ _ _ _ _ Hest) as ((-> & _) & _).
    by destruct (harvest_fold_fields wallet (vin (tx wtx)) coin_control)
      as ((-> & _) & _). }
  destruct (m_feerate coin_control) as [rate|].
  - rewrite Hreq in Hshape. destruct (CheckFeeRate _ _ _ _ _ _) as [r e'].
    by destruct (negb (bool_decide (r = OK))).
  - by destruct (negb (bool_decide (OK = OK))).
Qed.

(** X19. The coin control handed to the builder selects the original's
    inputs and the inputs the caller had selected, and nothing else; other
    inputs are allowed, and the caller's replaceability wish is passed on
    unchanged. *)
Theorem rate_bump_selects_exactly (wallet : CWallet) (txid : uint256)
    (coin_control : CCoinControl) (args : BumpArgs) (require_mine : bool)
    (call : BuilderCall) (out : BumpArgs) :
  rate_bump_prepare wallet txid coin_control args require_mine
  = Returns (inr (call, out)) ->
  exists wtx,
    mapWallet wallet !! txid = Some wtx
    /\ m_selected_inputs (call_coin_control call)
       = list_to_set (prevout <$> vin (tx wtx)) ∪ m_selected_inputs coin_control
    /\ m_allow_other_inputs (call_coin_control call) = true
    /\ m_signal_bip125_rbf (call_coin_control call) = m_signal_bip125_rbf coin_control.
Proof.
  intros Hprep.
  destruct (rate_bump_prepare_call_shape _ _ _ _ _ _ _ Hprep)
    as (wtx & cc2 & cc3 & cc4 & Hwtx & _ & _ & _ & Hest & Hout & Hreq & Hcc4 & Hcall & _).
  exists wtx. split; [done|]. subst call.
  cbn [call_coin_control set_min_depth set_allow_other_inputs m_selected_inputs
       m_allow_other_inputs m_signal_bip125_rbf].
  destruct (select_all_inputs_fields (vin (tx wtx)) cc4)
    as ((_ & _ & _ & Hsig) & _ & _ & _ & Hsel).
  rewrite Hsel, Hsig.
  destruct (harvest_outputs_result wallet (vout (tx wtx)) [] cc2 0)
    as (cc3' & Hout' & _ & Hs3 & _).
  rewrite Hout in Hout'. inversion Hout'; subst cc3'. clear Hout'.
  destruct (estimate_input_weights_fields _ _ _ _ _ _ Hest) as (_ & _ & Hs2 & _).
  destruct (harvest_fold_fields wallet (vin (tx wtx)) coin_control)
    as (_ & _ & _ & Hs1).
  destruct Hreq as (_ & _ & _ & Hsig3).
  assert (Hs4 : m_selected_inputs cc4 = m_selected_inputs cc3
                /\ m_signal_bip125_rbf cc4 = m_signal_bip125_rbf cc3)
    by (destruct Hcc4 as [(? & _ & -> & _)|[_ ->]]; done).
  destruct Hs4 as [-> ->]. rewrite Hs3, Hs2, Hs1, Hsig3.
  split; [|done].
  rewrite (assoc_L (∪)). f_equal. apply (idemp_L (∪)).
Qed.

(** ** The linkage a commit records *)

Lemma commit_ok_state (wallet : CWallet) (txid : uint256)
    (mtx : CMutableTransaction) (bumped : uint256) (oldWtx : CWalletTx) :
  mapWallet wallet !! txid = Some oldWtx ->
  fst (CommitTransaction wallet txid mtx [] bumped) = OK ->
  c_wallet (snd (CommitTransaction wallet txid mtx [] bumped))
  = snd (MarkReplaced
           (wallet_CommitTransaction wallet mtx
              (<["replaces_txid"%string := uint256_ToString (wtx_GetHash oldWtx)]>
                 (mapValue oldWtx))
              (vOrderForm oldWtx))
           (wtx_GetHash oldWtx) (GetHash mtx)).
Proof.
  intros Hwtx. unfold CommitTransaction.
  rewrite bool_decide_true by done. cbn [negb].
  destruct (uint256_IsNull txid); [done|]. rewrite Hwtx.
  destruct (PreconditionChecks wallet oldWtx false []) as [r e].
  destruct (bool_decide_reflect (r = OK)) as [->|Hne]; cbn [negb]; [|done].
  by destruct (MarkReplaced _ _ _).
Qed.

Lemma commit_unwarned_marked (wallet : CWallet) (txid : uint256)
    (mtx : CMutableTransaction) (bumped : uint256) (oldWtx : CWalletTx) :
  mapWallet wallet !! txid = Some oldWtx ->
  fst (CommitTransaction wallet txid mtx [] bumped) = OK ->
  c_errors (snd (CommitTransaction wallet txid mtx [] bumped)) = [] ->
  fst (MarkReplaced
         (wallet_CommitTransaction wallet mtx
            (<["replaces_txid"%string := uint256_ToString (wtx_GetHash oldWtx)]>
               (mapValue oldWtx))
            (vOrderForm oldWtx))
         (wtx_GetHash oldWtx) (GetHash mtx)) = true.
Proof.
  intros Hwtx. unfold CommitTransaction.
  rewrite bool_decide_true by done. cbn [negb].
  destruct (uint256_IsNull txid); [done|]. rewrite Hwtx.
  pose proof (PreconditionChecks_errors wallet oldWtx false []) as Hpe.
  destruct (PreconditionChecks wallet oldWtx false []) as [r e]. cbn [fst snd] in Hpe.
  destruct (bool_decide_reflect (r = OK)) as [->|Hne]; cbn [negb]; [|done].
  subst e. by destruct (MarkReplaced _ _ _) as [[] w2].
Qed.

Lemma MarkReplaced_stamped (w : CWallet) (originalHash newHash : uint256) :
  fst (MarkReplaced w originalHash newHash) = true ->
  exists wtx,
    mapWallet w !! originalHash = Some wtx
    /\ mapWallet (snd (MarkReplaced w originalHash newHash))
       = <[originalHash :=
             mkWalletTx (tx wtx)
               (<["replaced_by_txid"%string := uint256_ToString newHash]> (mapValue wtx))
               (vOrderForm wtx)]> (mapWallet w).
Proof.
  unfold MarkReplaced. destruct (mapWallet w !! originalHash) as [wtx|]; [|done].
  destruct (WriteTx w _); [|done]. intros _. by exists wtx.
Qed.

(** X20. After a successful commit that carries no diagnostic, of a
    replacement whose hash differs from the original's, on a wallet that
    files the original under its own hash, the wallet holds the replacement
    under its hash, with the original's metadata and order form plus
    [replaces_txid] naming the original, and holds the original with
    [replaced_by_txid] naming the replacement; every other record is as
    before.  ([CWallet::CommitTransaction] and [CWallet::MarkReplaced] as
    modelled above.) *)
Theorem commit_links_original_and_replacement (wallet : CWallet) (txid : uint256)
    (mtx : CMutableTransaction) (bumped : uint256) (oldWtx : CWalletTx) :
  mapWallet wallet !! txid = Some oldWtx ->
  wtx_GetHash oldWtx = txid ->
  GetHash mtx <> txid ->
  fst (CommitTransaction wallet txid mtx [] bumped) = OK ->
  c_errors (snd (CommitTransaction wallet txid mtx [] bumped)) = [] ->
  let after := mapWallet (c_wallet (snd (CommitTransaction wallet txid mtx [] bumped))) in
  after !! GetHash mtx
  = Some (mkWalletTx mtx
            (<["replaces_txid"%string := uint256_ToString txid]> (mapValue oldWtx))
            (vOrderForm oldWtx))
  /\ after !! txid
     = Some (mkWalletTx (tx oldWtx)
               (<["replaced_by_txid"%string := uint256_ToString (GetHash mtx)]>
                  (mapValue oldWtx))
               (vOrderForm oldWtx))
  /\ (forall other, other <> txid -> other <> GetHash mtx ->
                    after !! other = mapWallet wallet !! other).
Proof.
  intros Hwtx Hkey Hnew Hok Hquiet after. subst after.
  pose proof (commit_unwarned_marked wallet txid mtx bumped oldWtx Hwtx Hok Hquiet)
    as Hmarked.
  rewrite (commit_ok_state wallet txid mtx bumped oldWtx Hwtx Hok).
  rewrite Hkey in *.
  destruct (MarkReplaced_stamped _ _ _ Hmarked) as (found & Hfound & ->).
  unfold wallet_CommitTransaction in *. cbn [with_mapWallet mapWallet] in *.
  rewrite lookup_insert_ne in Hfound by done.
  assert (found = oldWtx) by congruence. subst found.
  split; [|split].
  - rewrite lookup_insert_ne by done. by rewrite lookup_insert_eq.
  - by rewrite lookup_insert_eq.
  - intros other H1 H2. by rewrite !lookup_insert_ne.
Qed.

(** X21. A transaction can be bumped once: after a successful commit that
    carries no diagnostic, on a wallet that files the original under its own
    hash, the original is marked as replaced, [TransactionCanBeBumped]
    answers false for it and a second commit under its id fails.
    ([CWallet::MarkReplaced] as modelled above.) *)
Theorem commit_prevents_second_bump (wallet : CWallet) (txid : uint256)
    (mtx : CMutableTransaction) (bumped : uint256) (oldWtx : CWalletTx) :
  mapWallet wallet !! txid = Some oldWtx ->
  wtx_GetHash oldWtx = txid ->
  fst (CommitTransaction wallet txid mtx [] bumped) = OK ->
  c_errors (snd (CommitTransaction wallet txid mtx [] bumped)) = [] ->
  let wallet' := c_wallet (snd (CommitTransaction wallet txid mtx [] bumped)) in
  (exists marked, mapWallet wallet' !! txid = Some marked /\ is_replaced marked)
  /\ TransactionCanBeBumped wallet' txid = false
  /\ (forall mtx2 bumped2,
         fst (CommitTransaction wallet' txid mtx2 [] bumped2) <> OK).
Proof.
  intros Hwtx Hkey Hok Hquiet wallet'.
  assert (Hmarked : exists marked,
             mapWallet wallet' !! txid = Some marked /\ is_replaced marked).
  { subst wallet'.
    pose proof (commit_unwarned_marked wallet txid mtx bumped oldWtx Hwtx Hok Hquiet)
      as Hm.
    rewrite (commit_ok_state wallet txid mtx bumped oldWtx Hwtx Hok).
    rewrite Hkey in *.
    destruct (MarkReplaced_stamped _ _ _ Hm) as (found & _ & ->).
    rewrite lookup_insert_eq. eexists. split; [done|].
    unfold is_replaced. cbn [mapValue]. by rewrite lookup_insert_eq. }
  split; [exact Hmarked|].
  destruct Hmarked as (marked & Hm & [by_txid Hrep]).
  assert (Hno : forall rm e, fst (PreconditionChecks wallet' marked rm e) <> OK).
  { intros rm e Hc. apply PreconditionChecks_ok_inv in Hc as (_ & _ & _ & _ & Hv & _).
    congruence. }
  split.
  - unfold TransactionCanBeBumped, GetParticlWallet.
    destruct fParticlMode.
    + destruct (IsParticlWallet wallet'); [|done]. rewrite Hm.
      apply bool_decide_eq_false. apply Hno.
    + rewrite Hm. apply bool_decide_eq_false. apply Hno.
  - intros mtx2 bumped2. unfold CommitTransaction.
    rewrite bool_decide_true by done. cbn [negb].
    destruct (uint256_IsNull txid); [done|]. rewrite Hm.
    specialize (Hno false []).
    destruct (PreconditionChecks wallet' marked false []) as [r e]. cbn [fst] in Hno.
    rewrite bool_decide_false by done. done.
Qed.

End Properties.

(** * The engine on the concrete wallet *)

Section Runs.
Import Sample.

(** The rate-bump of the original on the plain wallet reaches the builder
    with the input 7:0 selected and a minimum depth of 1. *)
Lemma rate_bump_forces_original_inputs_witness :
  rate_bump_prepare (H := policy false) (plain_wallet original) original_id
    coin_control0 args0 true = Returns (inr (prepared_call, prepared_args))
  /\ IsSelected (call_coin_control prepared_call) (prevout in7) = true
  /\ m_min_depth (call_coin_control prepared_call) = 1.
Proof.
  assert (Hrun : rate_bump_prepare (H := policy false) (plain_wallet original)
                   original_id coin_control0 args0 true
                 = Returns (inr (prepared_call, prepared_args)))
    by (vm_compute; reflexivity).
  split; [exact Hrun|].
  destruct (rate_bump_forces_original_inputs (H := policy false)
              (plain_wallet original) original_id coin_control0 args0 true original
              prepared_call prepared_args)
    as (Hsel & _ & Hdepth & _);
    [vm_compute; reflexivity | exact Hrun |].
  split; [|exact Hdepth]. apply Hsel. apply list_elem_of_here.
Defined.

(** An explicit rate of 6000 per 1000 units passes the four checks on the
    original (fee 100, size 202). *)
Lemma CheckFeeRate_checks_in_order_witness :
  fst (CheckFeeRate (H := policy false) (plain_wallet original) original
         (mkFeeRate 6000) 202 100 []) = OK
  /\ fst (CheckFeeRate (H := policy false) (plain_wallet original) original
            (mkFeeRate 5000) 202 100 []) = INVALID_PARAMETER.
Proof.
  split.
  - pose proof (CheckFeeRate_checks_in_order (H := policy false)
                  (plain_wallet original) original (mkFeeRate 6000) 202 100 [])
      as Ht.
    cbv zeta in Ht. destruct Ht as (_ & _ & _ & _ & Hok & _).
    apply Hok; vm_compute; discriminate.
  - pose proof (CheckFeeRate_checks_in_order (H := policy false)
                  (plain_wallet original) original (mkFeeRate 5000) 202 100 [])
      as Ht.
    cbv zeta in Ht. destruct Ht as (_ & Hlow & _).
    apply Hlow; vm_compute; first [discriminate | reflexivity].
Defined.

(** The original passes the checker on the wallet that owns its input. *)
Lemma PreconditionChecks_verdict_witness :
  fst (PreconditionChecks (H := policy false) (plain_wallet original) original true [])
  = OK.
Proof.
  pose proof (PreconditionChecks_verdict (H := policy false)
                (plain_wallet original) original true []) as Ht.
  cbv zeta in Ht. destruct Ht as (_ & _ & _ & Hok).
  apply Hok.
  - intros [Hd|Hd]; vm_compute in Hd; discriminate.
  - intros [Hd|[Hd|Hd]]; [by apply Hd | vm_compute in Hd; discriminate |].
    destruct Hd as [x Hx]. vm_compute in Hx. discriminate.
  - intros _. repeat constructor. vm_compute. discriminate.
Defined.

(** Counterexample to C4 as worded: a wallet without legacy key manager has
    its private keys disabled and watches every input of an otherwise
    eligible transaction; the claim's reading of ownership accepts it, the
    checker answers WALLET_ERROR. *)
Lemma PreconditionChecks_keyless_watch_only_rejected :
  flag_disable_private_keys (keyless_wallet original) = true
  /\ inputs_owned (keyless_wallet original) original ISMINE_WATCH_ONLY
  /\ check_verdict (H := policy false) claimed_filter (keyless_wallet original)
       original true = OK
  /\ fst (PreconditionChecks (H := policy false) (keyless_wallet original)
            original true []) = WALLET_ERROR.
Proof.
  split; [reflexivity|]. split; [|split; vm_compute; reflexivity].
  repeat constructor. vm_compute. discriminate.
Qed.

(** Counterexample to C5 as worded: a commit whose database write fails
    returns OK together with a diagnostic. *)
Lemma commit_ok_carries_diagnostic :
  fst (CommitTransaction (H := policy false) (readonly_wallet original) original_id
         (payment 39000) [] 0%N) = OK
  /\ c_errors (snd (CommitTransaction (H := policy false) (readonly_wallet original)
                      original_id (payment 39000) [] 0%N)) = [mark_failed_msg]
  /\ [mark_failed_msg] <> [].
Proof. split; [|split]; [vm_compute; reflexivity ..|discriminate]. Qed.

(** A successful rate-bump, a failed total-bump and a commit on a wallet
    whose database refuses the write. *)
Lemma results_and_diagnostics_witness :
  (OK = OK <->
   errors (mkBump [] 100 600 (mkTx [in7] [mkTxOut 60000 payee_script] [])) = [])
  /\ (WALLET_ERROR = OK <->
      errors (mkBump ["Change output is too small to bump the fee"%string]
                     39500 40511 (tx tiny)) = [])
  /\ (c_errors (snd (CommitTransaction (H := policy false) (readonly_wallet original)
                       original_id (payment 39000) [] 0%N)) = []
      \/ c_errors (snd (CommitTransaction (H := policy false) (readonly_wallet original)
                          original_id (payment 39000) [] 0%N)) = [mark_failed_msg]).
Proof.
  split; [|split].
  - apply (proj1 (results_and_diagnostics (H := policy false))
             (plain_wallet original) original_id coin_control0 args0 true).
    vm_compute; reflexivity.
  - apply (proj1 (proj2 (results_and_diagnostics (H := policy true)))
             (particl_wallet tiny) (txhash (tx tiny)) coin_control0 args0).
    + reflexivity.
    + vm_compute; reflexivity.
  - apply (proj2 (proj2 (results_and_diagnostics (H := policy false)))
             (readonly_wallet original) original_id (payment 39000) [] 0%N
             _ _ (surjective_pairing _)).
    vm_compute; reflexivity.
Defined.

(** The dust case: the change of 1500 shrinks to 489, is erased, and the
    fee ends at 40000. *)
Lemma total_bump_shrinks_or_folds_change_witness :
  CreateTotalBumpTransaction (H := policy true) (particl_wallet dusty)
    (txhash (tx dusty)) coin_control0 args0
  = Returns (OK, mkBump [] 38500 40000
                   (mkTx [in7]
                         [mkTxOut 60000 payee_script; mkTxOut 1500 change_script]
                         [mkTxOut 60000 payee_script]))
  /\ exists wtx k change,
      mapWallet (particl_wallet dusty) !! txhash (tx dusty) = Some wtx
      /\ vpout (tx wtx) !! k = Some change
      /\ IsChange (particl_wallet dusty) change = true
      /\ count_change (particl_wallet dusty) (vpout (tx wtx)) = 1%nat
      /\ 38500 = total_bump_old_fee (H := policy true) (particl_wallet dusty) wtx.
Proof.
  assert (Hrun : CreateTotalBumpTransaction (H := policy true) (particl_wallet dusty)
                   (txhash (tx dusty)) coin_control0 args0
                 = Returns (OK, mkBump [] 38500 40000
                                  (mkTx [in7]
                                        [mkTxOut 60000 payee_script;
                                         mkTxOut 1500 change_script]
                                        [mkTxOut 60000 payee_script])))
    by (vm_compute; reflexivity).
  split; [exact Hrun|].
  destruct (total_bump_shrinks_or_folds_change (H := policy true) _ _ _ _ _ Hrun)
    as (wtx & k & change & H1 & H2 & H3 & H4 & H5 & _).
  exists wtx, k, change. auto.
Defined.

(** The outcomes of the total-bump on the sample wallets: no change output,
    two change outputs, inputs that cannot be signed, a fee above a ceiling
    of 40000, a rate below a mempool floor of 1000000, a signed size of one
    unit that makes the new fee fall below the old one, and a change of 500
    that cannot pay a fee increase of 1011. *)
Lemma total_bump_needs_one_sufficient_change_witness :
  CreateTotalBumpTransaction (H := policy true) (particl_wallet unchanged)
    (txhash (tx unchanged)) coin_control0 args0
  = Returns (WALLET_ERROR,
             mkBump ["Transaction does not have a change output"%string]
                    0 0 (mkTx [] [] []))
  /\ CreateTotalBumpTransaction (H := policy true)
       (particl_wallet SampleMore.doubled) (txhash (tx SampleMore.doubled))
       coin_control0 args0
     = Returns (WALLET_ERROR,
                mkBump ["Transaction has multiple change outputs"%string]
                       0 0 (mkTx [] [] []))
  /\ CreateTotalBumpTransaction (H := policy true)
       (SampleMore.unsignable_wallet tiny) (txhash (tx tiny)) coin_control0 args0
     = Returns (INVALID_ADDRESS_OR_KEY,
                mkBump ["Transaction contains inputs that cannot be signed"%string]
                       0 0 (mkTx [] [] []))
  /\ CreateTotalBumpTransaction (H := policy true)
       (SampleMore.capped_wallet tiny) (txhash (tx tiny)) coin_control0 args0
     = Returns (WALLET_ERROR,
                mkBump ["Specified or calculated fee 40511 is too high (cannot be higher than maxTxFee 40000)"%string]
                       39500 40511 (mkTx [] [] []))
  /\ CreateTotalBumpTransaction (H := policy true)
       (SampleMore.flooded_wallet tiny) (txhash (tx tiny)) coin_control0 args0
     = Returns (WALLET_ERROR,
                mkBump ["New fee rate (200545) is lower than the minimum fee rate (1000000) to get into the mempool -- the totalFee value should be at least 202000 or the settxfee value should be at least 1000000 to add transaction"%string]
                       39500 40511 (mkTx [] [] []))
  /\ CreateTotalBumpTransaction (H := policy true)
       (SampleMore.undersized_wallet tiny) (txhash (tx tiny)) coin_control0 args0
     = Aborts
  /\ CreateTotalBumpTransaction (H := policy true) (particl_wallet tiny)
       (txhash (tx tiny)) coin_control0 args0
     = Returns (WALLET_ERROR,
                mkBump ["Change output is too small to bump the fee"%string]
                       39500 40511 (tx tiny)).
Proof.
  pose proof (fun w wtx =>
                total_bump_needs_one_sufficient_change (H := policy true)
                  w (txhash (tx wtx)) coin_control0 args0 wtx) as Hcase.
  cbv zeta in Hcase.
  refine (conj _ (conj _ (conj _ (conj _ (conj _ (conj _ _)))))).
  - destruct (Hcase (particl_wallet unchanged) unchanged eq_refl eq_refl eq_refl)
      as (Hnone & _ & _).
    refine (eq_trans (Hnone _) _); vm_compute; reflexivity.
  - destruct (Hcase (particl_wallet SampleMore.doubled) SampleMore.doubled
                eq_refl eq_refl eq_refl) as (_ & Hmany & _).
    refine (eq_trans (Hmany _) _); [vm_compute; lia|vm_compute; reflexivity].
  - destruct (Hcase (SampleMore.unsignable_wallet tiny) tiny
                eq_refl eq_refl eq_refl) as (_ & _ & Hone).
    destruct (Hone 1%nat (mkTxOut 500 change_script) eq_refl eq_refl eq_refl)
      as (Hunsigned & _).
    refine (eq_trans (Hunsigned _) _); vm_compute; reflexivity.
  - destruct (Hcase (SampleMore.capped_wallet tiny) tiny
                eq_refl eq_refl eq_refl) as (_ & _ & Hone).
    destruct (Hone 1%nat (mkTxOut 500 change_script) eq_refl eq_refl eq_refl)
      as (_ & Hceiling & _).
    refine (eq_trans (Hceiling _ _) _);
      vm_compute; first [reflexivity | discriminate].
  - destruct (Hcase (SampleMore.flooded_wallet tiny) tiny
                eq_refl eq_refl eq_refl) as (_ & _ & Hone).
    destruct (Hone 1%nat (mkTxOut 500 change_script) eq_refl eq_refl eq_refl)
      as (_ & _ & Hfloor & _).
    refine (eq_trans (Hfloor _ _ _) _);
      vm_compute; first [reflexivity | discriminate].
  - destruct (Hcase (SampleMore.undersized_wallet tiny) tiny
                eq_refl eq_refl eq_refl) as (_ & _ & Hone).
    destruct (Hone 1%nat (mkTxOut 500 change_script) eq_refl eq_refl eq_refl)
      as (_ & _ & _ & Hassert & _).
    refine (eq_trans (Hassert _ _ _ _) _);
      vm_compute; first [reflexivity | discriminate].
  - destruct (Hcase (particl_wallet tiny) tiny eq_refl eq_refl eq_refl)
      as (_ & _ & Hone).
    destruct (Hone 1%nat (mkTxOut 500 change_script) eq_refl eq_refl eq_refl)
      as (_ & _ & _ & _ & Hsmall).
    refine (eq_trans (Hsmall _ _ _ _ _) _);
      vm_compute; first [reflexivity | discriminate].
Defined.

(** Counterexample to C7 as worded.  On a wallet whose fee ceiling is 40000
    the original passes the precondition checks and has exactly one change
    output, of value 500, below the fee increase of 1011; the answer is the
    fee-too-high diagnostic, not the too-small-to-bump one, and the caller's
    transaction is untouched.  On a wallet that cannot sign for the inputs
    the same original is answered with INVALID_ADDRESS_OR_KEY, no fee having
    been computed. *)
Lemma total_bump_small_change_answered_earlier :
  (fst (PreconditionChecks (H := policy true) (SampleMore.capped_wallet tiny)
          tiny true []) = OK
   /\ count_change (SampleMore.capped_wallet tiny) (vpout (tx tiny)) = 1%nat
   /\ vpout (tx tiny) !! 1%nat = Some (mkTxOut 500 change_script)
   /\ IsChange (SampleMore.capped_wallet tiny) (mkTxOut 500 change_script) = true
   /\ fst (total_bump_pricing (H := policy true) (SampleMore.capped_wallet tiny)
             tiny coin_control0
             (CalculateMaximumSignedTxSize (SampleMore.capped_wallet tiny)
                (tx tiny) None))
      - total_bump_old_fee (H := policy true) (SampleMore.capped_wallet tiny) tiny
      = 1011
   /\ CreateTotalBumpTransaction (H := policy true) (SampleMore.capped_wallet tiny)
        (txhash (tx tiny)) coin_control0 args0
      = Returns (WALLET_ERROR,
                 mkBump ["Specified or calculated fee 40511 is too high (cannot be higher than maxTxFee 40000)"%string]
                        39500 40511 (mkTx [] [] [])))
  /\ (fst (PreconditionChecks (H := policy true) (SampleMore.unsignable_wallet tiny)
             tiny true []) = OK
      /\ count_change (SampleMore.unsignable_wallet tiny) (vpout (tx tiny)) = 1%nat
      /\ CreateTotalBumpTransaction (H := policy true)
           (SampleMore.unsignable_wallet tiny) (txhash (tx tiny)) coin_control0 args0
         = Returns (INVALID_ADDRESS_OR_KEY,
                    mkBump ["Transaction contains inputs that cannot be signed"%string]
                           0 0 (mkTx [] [] []))).
Proof. vm_compute. repeat split. Qed.

(** Counterexample to C8 as worded: the transaction is unconfirmed,
    replaceable, not yet replaced and childless, but the wallet does not own
    its input, and [TransactionCanBeBumped] answers false. *)
Lemma TransactionCanBeBumped_false_on_foreign_inputs :
  mapWallet (stranger_wallet original) !! original_id = Some original
  /\ GetTxDepthInMainChain (stranger_wallet original) original = 0
  /\ SignalsOptInRBF (Policy := policy false) (tx original) = true
  /\ mapValue original !! "replaced_by_txid"%string = None
  /\ HasWalletSpend (stranger_wallet original) (tx original) = false
  /\ hasDescendantsInMempool (chain (stranger_wallet original))
       (wtx_GetHash (H := policy false) original) = false
  /\ TransactionCanBeBumped (H := policy false) (stranger_wallet original) original_id
     = false.
Proof. repeat split; vm_compute; reflexivity. Qed.

Lemma TransactionCanBeBumped_iff_eligible_and_owned_witness :
  mapWallet (plain_wallet original) !! original_id = Some original
  /\ TransactionCanBeBumped (H := policy false) (plain_wallet original) original_id = true.
Proof.
  assert (Hw : mapWallet (plain_wallet original) !! original_id = Some original)
    by (vm_compute; reflexivity).
  split; [exact Hw|].
  apply (proj2 (TransactionCanBeBumped_iff_eligible_and_owned (H := policy false)
                  (plain_wallet original) original_id original Hw)).
  repeat split; try (vm_compute; reflexivity); try discriminate.
  repeat constructor. vm_compute. discriminate.
Defined.

(** Counterexample to C9 as worded: the original is already replaced, so the
    checker says WALLET_ERROR, and its previous output cannot be located; the
    build returns MISC_ERROR. *)
Lemma rate_bump_reports_missing_outpoint_first :
  fst (PreconditionChecks (H := policy false) (spent_wallet superseded)
         superseded true []) = WALLET_ERROR
  /\ coin_located (spent_wallet superseded) (prevout in7) = false
  /\ CreateRateBumpTransaction (H := policy false) (spent_wallet superseded)
       (txhash (tx superseded)) coin_control0 args0 true
     = Returns (MISC_ERROR, mkBump ["0x7:0 is already spent"%string] 0 0 (mkTx [] [] [])).
Proof. repeat split; vm_compute; reflexivity. Qed.

Lemma rate_bump_lookup_precedes_preconditions_witness :
  CreateRateBumpTransaction (H := policy false) (spent_wallet superseded)
    (txhash (tx superseded)) coin_control0 args0 true
  = Returns (MISC_ERROR,
             mkBump [already_spent_msg (H := policy false) (prevout in7)] 0 0
                    (mkTx [] [] []))
  /\ CreateRateBumpTransaction (H := policy false) (plain_wallet superseded)
       (txhash (tx superseded)) coin_control0 args0 true
     = Returns (fst (PreconditionChecks (H := policy false) (plain_wallet superseded)
                       superseded true []),
                mkBump (snd (PreconditionChecks (H := policy false)
                               (plain_wallet superseded) superseded true []))
                       0 0 (mkTx [] [] [])).
Proof.
  split.
  - apply (proj1 (rate_bump_lookup_precedes_preconditions (H := policy false)
                    (spent_wallet superseded) (txhash (tx superseded))
                    coin_control0 args0 true superseded eq_refl)).
    vm_compute; reflexivity.
  - apply (proj1 (proj2 (rate_bump_lookup_precedes_preconditions (H := policy false)
                           (plain_wallet superseded) (txhash (tx superseded))
                           coin_control0 args0 true superseded eq_refl))).
    + vm_compute; reflexivity.
    + vm_compute; discriminate.
Defined.

Lemma particl_guards_witness :
  CreateRateBumpTransaction (H := policy true) (particl_wallet original) original_id
    coin_control0 args0 true = Aborts
  /\ CreateTotalBumpTransaction (H := policy false) (plain_wallet original) original_id
       coin_control0 args0
     = Returns (WALLET_ERROR, mkBump [] 0 0 (mkTx [] [] [])).
Proof.
  split.
  - apply (proj1 (proj1 (particl_guards (H := policy true) (particl_wallet original)
                           original_id coin_control0 args0 true) eq_refl)
             original).
    + vm_compute; reflexivity.
    + repeat constructor.
    + vm_compute; reflexivity.
  - apply (proj2 (particl_guards (H := policy false) (plain_wallet original)
                    original_id coin_control0 args0 true)).
    reflexivity.
Defined.

End Runs.

(** * Further runs on the concrete wallets *)

Section MoreRuns.
Import Sample SampleMore.

Lemma TransactionCanBeBumped_needs_wallet_tx_witness :
  mapRecords (records_wallet 5) !! 5%N = Some (mkRecord 100)
  /\ TransactionCanBeBumped (H := policy true) (records_wallet 5) 5 = false.
Proof.
  split; [vm_compute; reflexivity|].
  apply (TransactionCanBeBumped_needs_wallet_tx (H := policy true)).
  vm_compute; reflexivity.
Defined.

Lemma can_be_bumped_then_commit_accepts_witness :
  fst (CommitTransaction (H := policy false) (plain_wallet original) original_id
         replacement [] 0%N) = OK
  /\ bumped_txid (snd (CommitTransaction (H := policy false) (plain_wallet original)
                         original_id replacement [] 0%N))
     = txhash replacement.
Proof.
  apply (can_be_bumped_then_commit_accepts (H := policy false)).
  - vm_compute; reflexivity.
  - vm_compute; discriminate.
Defined.

(** The total-bump of [dusty] on the Particl wallet. *)
Lemma total_bump_of_dusty :
  CreateTotalBumpTransaction (H := policy true) (particl_wallet dusty)
    (txhash (tx dusty)) coin_control0 args0 = Returns (OK, folded).
Proof. vm_compute; reflexivity. Defined.

Lemma dusty_is_filed :
  mapWallet (particl_wallet dusty) !! txhash (tx dusty) = Some dusty.
Proof. vm_compute; reflexivity. Defined.

Lemma total_bump_pricing_respects_floors_witness :
  195595 <= GetFeePerK (snd (total_bump_pricing (H := policy true)
                               (particl_wallet dusty) dusty coin_control0 202))
  /\ 38500 < fst (total_bump_pricing (H := policy true)
                    (particl_wallet dusty) dusty coin_control0 202) <= 10000000.
Proof.
  destruct (total_bump_pricing_respects_floors (H := policy true) _ _ _ _ _
              total_bump_of_dusty) as (wtx & Hwtx & Hfloor & _ & Hfee & _).
  rewrite dusty_is_filed in Hwtx. inversion Hwtx; subst wtx.
  split; [exact Hfloor|exact Hfee].
Defined.

Lemma total_bump_conserves_value_witness :
  total_value (vpout (mtx folded)) + 40000 = total_value (vpout (tx dusty)) + 38500.
Proof.
  destruct (total_bump_conserves_value (H := policy true) _ _ _ _ _
              total_bump_of_dusty) as (wtx & Hwtx & Hsum).
  rewrite dusty_is_filed in Hwtx. inversion Hwtx; subst wtx. exact Hsum.
Defined.


Lemma total_bump_keeps_inputs_witness :
  prevout <$> vin (mtx folded) = prevout <$> vin (tx dusty)
  /\ nSequence <$> vin (mtx folded) = nSequence <$> vin (tx dusty).
Proof.
  destruct (total_bump_keeps_inputs (H := policy true) _ _ _ _ _
              total_bump_of_dusty) as (wtx & Hwtx & _ & Hp & _ & _ & Hs).
  rewrite dusty_is_filed in Hwtx. inversion Hwtx; subst wtx.
  split; [exact Hp|exact Hs].
Defined.

Lemma total_bump_failure_keeps_transaction_witness :
  mtx (mkBump ["Change output is too small to bump the fee"%string] 39500 40511
         (tx tiny)) = mtx args0
  \/ (exists wtx,
         mapWallet (particl_wallet tiny) !! txhash (tx tiny) = Some wtx
         /\ mtx (mkBump ["Change output is too small to bump the fee"%string]
                   39500 40511 (tx tiny)) = tx wtx
         /\ WALLET_ERROR = WALLET_ERROR
         /\ errors (mkBump ["Change output is too small to bump the fee"%string]
                      39500 40511 (tx tiny))
            = ["Change output is too small to bump the fee"%string]).
Proof.
  apply (total_bump_failure_keeps_transaction (H := policy true)
           (particl_wallet tiny) (txhash (tx tiny)) coin_control0 args0).
  - vm_compute; reflexivity.
  - discriminate.
Defined.

(** With a maximum signed size of one unit the priced fee, 6, is below the
    old fee, 100, and the assertion fails. *)
Lemma total_bump_aborts_only_at_assertion_witness :
  CreateTotalBumpTransaction (H := policy true) (undersized_wallet original)
    original_id coin_control0 args0 = Aborts
  /\ exists wtx,
      mapWallet (undersized_wallet original) !! original_id = Some wtx
      /\ fst (total_bump_pricing (H := policy true) (undersized_wallet original) wtx
                coin_control0
                (CalculateMaximumSignedTxSize (undersized_wallet original) (tx wtx) None))
         <= total_bump_old_fee (H := policy true) (undersized_wallet original) wtx.
Proof.
  assert (Hrun : CreateTotalBumpTransaction (H := policy true)
                   (undersized_wallet original) original_id coin_control0 args0
                 = Aborts) by (vm_compute; reflexivity).
  split; [exact Hrun|].
  destruct (total_bump_aborts_only_at_assertion (H := policy true) _ _ _ _ Hrun)
    as (wtx & Hwtx & _ & _ & _ & Hle).
  exists wtx. split; [exact Hwtx|exact Hle].
Defined.

(** The rate-bump of [original] on the plain wallet. *)
Lemma rate_bump_of_original :
  CreateRateBumpTransaction (H := policy false) (plain_wallet original) original_id
    coin_control0 args0 true
  = Returns (OK, mkBump [] 100 600 (mkTx [in7] [mkTxOut 60000 payee_script] [])).
Proof. vm_compute; reflexivity. Defined.

Lemma original_is_filed :
  mapWallet (plain_wallet original) !! original_id = Some original.
Proof. vm_compute; reflexivity. Defined.

Lemma original_is_prepared :
  rate_bump_prepare (H := policy false) (plain_wallet original) original_id
    coin_control0 args0 true = Returns (inr (prepared_call, prepared_args)).
Proof. vm_compute; reflexivity. Defined.

Lemma rate_bump_success_accounts_witness :
  old_fee (mkBump [] 100 600 (mkTx [in7] [mkTxOut 60000 payee_script] []))
  = located_value (plain_wallet original) (vin (tx original))
    - total_value (vout (tx original)).
Proof.
  destruct (rate_bump_success_accounts (H := policy false) _ _ _ _ _ _
              rate_bump_of_original) as (wtx & cc & txr & Hwtx & _ & Hold & _).
  rewrite original_is_filed in Hwtx. inversion Hwtx; subst wtx. exact Hold.
Defined.

Lemma rate_bump_change_destination_witness :
  destChange (call_coin_control prepared_call) = Destination change_script.
Proof.
  destruct (rate_bump_change_destination (H := policy false) _ _ _ _ _ _ _
              original_is_prepared) as (wtx & Hwtx & _ & Hlast).
  rewrite original_is_filed in Hwtx. inversion Hwtx; subst wtx.
  apply (Hlast [mkTxOut 60000 payee_script] (mkTxOut 39900 change_script) []).
  - reflexivity.
  - reflexivity.
  - constructor.
Defined.

Lemma rate_bump_fee_rate_handed_over_witness :
  exists rate,
    m_feerate (call_coin_control prepared_call) = Some rate
    /\ 5496 <= GetFeePerK rate.
Proof.
  destruct (rate_bump_fee_rate_handed_over (H := policy false) _ _ _ _ _ _ _
              original_is_prepared) as (wtx & rate & Hwtx & Hrate & _ & Hest).
  rewrite original_is_filed in Hwtx. inversion Hwtx; subst wtx.
  exists rate. split; [exact Hrate|].
  refine (Z.le_trans _ _ _ _ (Hest eq_refl)). vm_compute. discriminate.
Defined.

Lemma foreign_is_prepared :
  rate_bump_prepare (H := policy false) (stranger_wallet original) original_id
    coin_control0 args0 false = Returns (inr (foreign_call, foreign_args)).
Proof. vm_compute; reflexivity. Defined.

Lemma foreign_is_filed :
  mapWallet (stranger_wallet original) !! original_id = Some original.
Proof. vm_compute; reflexivity. Defined.

Lemma rate_bump_external_inputs_weighted_witness :
  m_external_txouts (call_coin_control foreign_call) !! prevout in7
  = Some (mkTxOut 100000 payee_script)
  /\ m_input_weights (call_coin_control foreign_call) !! prevout in7 = Some 274.
Proof.
  destruct (rate_bump_external_inputs_weighted (H := policy false) _ _ _ _ _ _ _
              foreign_is_prepared) as (wtx & Hwtx & Hforeign & _).
  rewrite foreign_is_filed in Hwtx. inversion Hwtx; subst wtx.
  destruct (Hforeign in7 (list_elem_of_here _ _) eq_refl) as (Hext & _).
  split; [exact Hext|]. vm_compute; reflexivity.
Defined.

Lemma rate_bump_failure_keeps_outputs_witness :
  new_fee (mkBump ["0x7:0 is already spent"%string] 5 77 (payment 1)) = 77
  /\ mtx (mkBump ["0x7:0 is already spent"%string] 5 77 (payment 1)) = payment 1.
Proof.
  apply (rate_bump_failure_keeps_outputs (H := policy false)
           (spent_wallet superseded) (txhash (tx superseded)) coin_control0
           (mkBump [] 5 77 (payment 1)) true MISC_ERROR).
  - vm_compute; reflexivity.
  - discriminate.
Defined.

Lemma rate_bump_aborts_only_on_particl_witness :
  CreateRateBumpTransaction (H := policy true) (particl_wallet original) original_id
    coin_control0 args0 true = Aborts
  /\ IsParticlWallet (particl_wallet original) = true.
Proof.
  assert (Hrun : CreateRateBumpTransaction (H := policy true) (particl_wallet original)
                   original_id coin_control0 args0 true = Aborts)
    by (vm_compute; reflexivity).
  split; [exact Hrun|].
  exact (proj1 (rate_bump_aborts_only_on_particl (H := policy true) _ _ _ _ _ Hrun)).
Defined.

Lemma rate_bump_selects_exactly_witness :
  m_selected_inputs (call_coin_control prepared_call)
  = list_to_set (prevout <$> vin (tx original)) ∪ m_selected_inputs coin_control0
  /\ m_allow_other_inputs (call_coin_control prepared_call) = true.
Proof.
  destruct (rate_bump_selects_exactly (H := policy false) _ _ _ _ _ _ _
              original_is_prepared) as (wtx & Hwtx & Hsel & Hallow & _).
  rewrite original_is_filed in Hwtx. inversion Hwtx; subst wtx.
  split; [exact Hsel|exact Hallow].
Defined.

Lemma commit_of_replacement :
  fst (CommitTransaction (H := policy false) (plain_wallet original) original_id
         replacement [] 0%N) = OK.
Proof. vm_compute; reflexivity. Defined.

Lemma commit_of_replacement_is_quiet :
  c_errors (snd (CommitTransaction (H := policy false) (plain_wallet original)
                   original_id replacement [] 0%N)) = [].
Proof. vm_compute; reflexivity. Defined.

Lemma commit_links_original_and_replacement_witness :
  mapValue original !! "replaced_by_txid"%string = None
  /\ exists marked,
      mapWallet (c_wallet (snd (CommitTransaction (H := policy false)
                                  (plain_wallet original) original_id
                                  replacement [] 0%N))) !! original_id
      = Some marked
      /\ tx marked = tx original
      /\ mapValue marked !! "replaced_by_txid"%string
         = Some (HexString.of_N (txhash replacement)).
Proof.
  split; [reflexivity|].
  pose proof (commit_links_original_and_replacement (H := policy false)
                (plain_wallet original) original_id replacement 0%N original
                original_is_filed eq_refl) as Hlink.
  cbv zeta in Hlink. destruct Hlink as (_ & Hold & _).
  - vm_compute; discriminate.
  - exact commit_of_replacement.
  - exact commit_of_replacement_is_quiet.
  - eexists. split; [exact Hold|]. split; [reflexivity|].
    cbn [mapValue]. apply lookup_insert_eq.
Defined.

Lemma commit_prevents_second_bump_witness :
  TransactionCanBeBumped (H := policy false) (plain_wallet original) original_id = true
  /\ TransactionCanBeBumped (H := policy false)
       (c_wallet (snd (CommitTransaction (H := policy false) (plain_wallet original)
                         original_id replacement [] 0%N))) original_id = false.
Proof.
  split; [vm_compute; reflexivity|].
  pose proof (commit_prevents_second_bump (H := policy false)
                (plain_wallet original) original_id replacement 0%N original
                original_is_filed eq_refl commit_of_replacement
                commit_of_replacement_is_quiet) as Hno.
  cbv zeta in Hno. exact (proj1 (proj2 Hno)).
Defined.

End MoreRuns.
